(** * The weather script: shaping a forecast document into a table

    A shallow embedding of [weather.py]: [flatten_hourly_data],
    [transform_data] and [plot_temperature], together with the part of
    pandas, of Python's [datetime] and of pyplot that these three functions
    call.  The Python objects live in a store, so that what a call writes
    and what it leaves alone can be stated. *)

From Stdlib Require Import String Ascii List ZArith QArith Lia Bool.
From stdpp Require Import base tactics option list.
Import ListNotations.

Close Scope Q_scope.
Open Scope string_scope.
Open Scope list_scope.
Open Scope nat_scope.

(** ** Calendar values

    [datetime.date], [datetime.time] and [pandas.Timestamp], at the
    resolution of one second (the forecast uses minutes). *)

Record date := Date { year : nat; month : nat; day : nat }.
Record time := Time { hour : nat; minute : nat; second : nat }.
Record Timestamp := Stamp { ts_date : date; ts_time : time }.

Definition leap (y : nat) : bool :=
  (y mod 4 =? 0) && (negb (y mod 100 =? 0) || (y mod 400 =? 0)).

Definition days_in_month (y m : nat) : nat :=
  match m with
  | 1 | 3 | 5 | 7 | 8 | 10 | 12 => 31
  | 4 | 6 | 9 | 11 => 30
  | 2 => if leap y then 29 else 28
  | _ => 0
  end.

(** The years are those every [datetime64[ns]] value can hold whole. *)
Definition valid_date (d : date) : bool :=
  (1678 <=? year d) && (year d <=? 2261) &&
  (1 <=? month d) && (month d <=? 12) &&
  (1 <=? day d) && (day d <=? days_in_month (year d) (month d)).

Definition valid_time (t : time) : bool :=
  (hour t <? 24) && (minute t <? 60) && (second t <? 60).

(** *** Digits *)

Definition digit_of (c : ascii) : option nat :=
  let n := nat_of_ascii c in
  if (48 <=? n) && (n <=? 57) then Some (n - 48) else None.

Definition char_of_digit (n : nat) : ascii := ascii_of_nat (48 + n).

Fixpoint number_of (cs : list ascii) (acc : nat) : option nat :=
  match cs with
  | [] => Some acc
  | c :: rest =>
      match digit_of c with
      | Some d => number_of rest (10 * acc + d)
      | None => None
      end
  end.

Definition pad2 (n : nat) : list ascii :=
  [char_of_digit (n / 10 mod 10); char_of_digit (n mod 10)].

Definition pad4 (n : nat) : list ascii :=
  [char_of_digit (n / 1000 mod 10); char_of_digit (n / 100 mod 10);
   char_of_digit (n / 10 mod 10); char_of_digit (n mod 10)].

(** *** [str(date)] and [str(time)]: the ISO forms [%Y-%m-%d] and
    [%H:%M:%S] *)

Definition date_chars (d : date) : list ascii :=
  pad4 (year d) ++ "-"%char :: pad2 (month d) ++ "-"%char :: pad2 (day d).

Definition time_chars (t : time) : list ascii :=
  pad2 (hour t) ++ ":"%char :: pad2 (minute t) ++ ":"%char :: pad2 (second t).

Definition date_isoformat (d : date) : string :=
  string_of_list_ascii (date_chars d).

Definition time_isoformat (t : time) : string :=
  string_of_list_ascii (time_chars t).

(** *** Reading a timestamp

    Two layouts are covered: the one the forecast uses,
    [%Y-%m-%dT%H:%M], and the one [str(date) + ' ' + str(time)] yields,
    [%Y-%m-%d %H:%M:%S]. *)

Inductive layout := IsoMinutes | SpaceSeconds.

Definition parse_date_part (cs : list ascii) : option (date * list ascii) :=
  match cs with
  | y1 :: y2 :: y3 :: y4 :: s1 :: m1 :: m2 :: s2 :: d1 :: d2 :: rest =>
      if Ascii.eqb s1 "-" && Ascii.eqb s2 "-" then
        match number_of [y1; y2; y3; y4] 0, number_of [m1; m2] 0,
              number_of [d1; d2] 0 with
        | Some y, Some m, Some d => Some (Date y m d, rest)
        | _, _, _ => None
        end
      else None
  | _ => None
  end.

Definition parse_time_part (fmt : layout) (cs : list ascii) : option time :=
  match fmt, cs with
  | IsoMinutes, [s0; h1; h2; s1; m1; m2] =>
      if Ascii.eqb s0 "T" && Ascii.eqb s1 ":" then
        match number_of [h1; h2] 0, number_of [m1; m2] 0 with
        | Some h, Some m => Some (Time h m 0)
        | _, _ => None
        end
      else None
  | SpaceSeconds, [s0; h1; h2; s1; m1; m2; s2; c1; c2] =>
      if Ascii.eqb s0 " " && Ascii.eqb s1 ":" && Ascii.eqb s2 ":" then
        match number_of [h1; h2] 0, number_of [m1; m2] 0,
              number_of [c1; c2] 0 with
        | Some h, Some m, Some s => Some (Time h m s)
        | _, _, _ => None
        end
      else None
  | _, _ => None
  end.

Definition parse_timestamp (fmt : layout) (s : string) : option Timestamp :=
  match parse_date_part (list_ascii_of_string s) with
  | Some (d, rest) =>
      match parse_time_part fmt rest with
      | Some t => if valid_date d && valid_time t then Some (Stamp d t) else None
      | None => None
      end
  | None => None
  end.

(** ** Decoded JSON

    What [json.loads] returns.  [JInt] is a Python [int]; [JNum] is a
    Python [float], given by its value, which is a rational number ([nan]
    and the infinities are not among the documents).  An object is kept in
    insertion order, as a Python [dict] is; a [dict] has no key twice. *)

#[local] Set Warnings "-register-all".

Inductive json :=
| JNull
| JBool (b : bool)
| JInt (z : Z)
| JNum (q : Q)
| JStr (s : string)
| JArr (items : list json)
| JObj (members : list (string * json)).

Abbreviation dict := (list (string * json)).

Fixpoint dict_get {A : Type} (k : string) (m : list (string * A)) : option A :=
  match m with
  | [] => None
  | (k', v) :: rest => if String.eqb k k' then Some v else dict_get k rest
  end.

Definition keys {A : Type} (m : list (string * A)) : list string := map fst m.

Definition mem (k : string) (l : list string) : bool := existsb (String.eqb k) l.

Fixpoint distinct (l : list string) : bool :=
  match l with
  | [] => true
  | k :: rest => negb (mem k rest) && distinct rest
  end.

(** ** Outcomes

    A call returns, raises, or leaves the part of the libraries that is
    modelled here ([Unmodelled]: nothing is said about it). *)

Inductive exn :=
| KeyError (labels : list string)
| ValueError
| AttributeError
| IndexError
| EmptyDataError.

Inductive outcome (A : Type) :=
| Ok (a : A)
| Raise (e : exn)
| Unmodelled.
Arguments Ok {A} a.
Arguments Raise {A} e.
Arguments Unmodelled {A}.

(** ** Tables

    A [Series] is a column of Python objects or a [datetime64] column; a
    [DataFrame] is a default index of [index_len] rows and named columns in
    order.  Labels can repeat (after a renaming).  A table owns its cells:
    pandas copies the lists it is given into arrays of its own, so a table
    shares nothing with the document it is made from.  A missing entry is
    [CNone], whichever sentinel pandas keeps for it.  [CInt] is an integer
    and [CNum] a float of the given value. *)

Inductive cell :=
| CNone
| CBool (b : bool)
| CInt (z : Z)
| CNum (q : Q)
| CStr (s : string)
| CDate (d : date)
| CTime (t : time).

Inductive column :=
| Values (cells : list cell)
| Datetimes (stamps : list Timestamp).

Definition col_length (c : column) : nat :=
  match c with
  | Values cells => length cells
  | Datetimes stamps => length stamps
  end.

Record DataFrame := Frame { index_len : nat; columns : list (string * column) }.

(** An integer that a signed 64-bit column holds.  What pandas makes of a
    larger one is not followed. *)
Definition int64 (z : Z) : bool := ((- 2 ^ 63 <=? z) && (z <? 2 ^ 63))%Z.

(** The cell of a scalar, as an assignment [df[k] = v] or a column of
    Python objects keeps it *)
Definition cell_of_json (v : json) : option cell :=
  match v with
  | JNull => Some CNone
  | JBool b => Some (CBool b)
  | JInt z => if int64 z then Some (CInt z) else None
  | JNum q => Some (CNum q)
  | JStr s => Some (CStr s)
  | JArr _ | JObj _ => None
  end.

(** *** Lists of numbers

    [pd.DataFrame] makes a [float64] column of a list of numbers as soon as
    one entry is a float or [None]: an integer entry is then converted to
    the nearest double, ties to the even mantissa, and [None] becomes the
    missing value.  A list of integers alone stays a column of integers,
    and a list with a string or a boolean in it stays a column of the
    Python objects given. *)

(** The double nearest to an integer below [2 ^ 63] in size: 53 significant
    bits are kept. *)
Definition round_to_double (z : Z) : Z :=
  let a := Z.abs z in
  if (a <? 2 ^ 53)%Z then z
  else
    let e := (Z.log2 a - 52)%Z in
    let q := Z.shiftr a e in
    let r := Z.land a (Z.ones e) in
    let half := Z.shiftl 1 (e - 1) in
    let q' := if (half <? r)%Z || ((r =? half)%Z && Z.odd q)
              then (q + 1)%Z else q in
    (Z.sgn z * Z.shiftl q' e)%Z.

Definition numeric (v : json) : bool :=
  match v with JInt _ | JNum _ | JNull => true | _ => false end.

Definition floating (v : json) : bool :=
  match v with JNum _ | JNull => true | _ => false end.

Definition float64_cell (v : json) : option cell :=
  match v with
  | JNull => Some CNone
  | JInt z => if int64 z then Some (CNum (inject_Z (round_to_double z))) else None
  | JNum q => Some (CNum q)
  | _ => None
  end.

Definition cells_of_array (items : list json) : option (list cell) :=
  if forallb numeric items && existsb floating items
  then mapM float64_cell items
  else mapM cell_of_json items.

Definition column_of_json (v : json) : option column :=
  match v with
  | JArr items => Values <$> cells_of_array items
  | _ => None
  end.

Fixpoint columns_of_dict (m : dict) : option (list (string * column)) :=
  match m with
  | [] => Some []
  | (k, v) :: rest =>
      match column_of_json v, columns_of_dict rest with
      | Some c, Some cols => Some ((k, c) :: cols)
      | _, _ => None
      end
  end.

(** [pd.DataFrame(v)] for an object [v] of arrays of scalars. *)
Definition DataFrame_of (v : json) : outcome DataFrame :=
  match v with
  | JObj m =>
      match columns_of_dict m with
      | Some [] => Ok (Frame 0 [])
      | Some ((k, c) :: cols) =>
          if forallb (fun kc => col_length (snd kc) =? col_length c) cols
          then Ok (Frame (col_length c) ((k, c) :: cols))
          else Raise ValueError
      | None => Unmodelled
      end
  | _ => Unmodelled
  end.

Definition select (k : string) (cols : list (string * column)) :
  list (string * column) :=
  List.filter (fun kc => String.eqb (fst kc) k) cols.

Definition replace_col (k : string) (c : column) (cols : list (string * column)) :
  list (string * column) :=
  map (fun kc => if String.eqb (fst kc) k then (k, c) else kc) cols.

(** [df[k]] *)
Definition frame_getitem (f : DataFrame) (k : string) : outcome column :=
  match select k (columns f) with
  | [] => Raise (KeyError [k])
  | [(_, c)] => Ok c
  | _ => Unmodelled
  end.

(** [df[k] = c] for a Series [c] on the index of [df] *)
Definition frame_setitem (f : DataFrame) (k : string) (c : column) :
  outcome DataFrame :=
  if col_length c =? index_len f then
    match select k (columns f) with
    | [] => Ok (Frame (index_len f) (columns f ++ [(k, c)]))
    | [_] => Ok (Frame (index_len f) (replace_col k c (columns f)))
    | _ => Unmodelled
    end
  else Unmodelled.

(** [df[k] = v] for a scalar [v], which every row receives *)
Definition frame_setitem_scalar (f : DataFrame) (k : string) (v : json) :
  outcome DataFrame :=
  match cell_of_json v with
  | Some c => frame_setitem f k (Values (repeat c (index_len f)))
  | None => Unmodelled
  end.

(** [df.rename(columns=mapping)]: labels the mapping lacks stay. *)
Definition frame_rename (mapping : list (string * string)) (f : DataFrame) :
  DataFrame :=
  Frame (index_len f)
        (map (fun kc => (default (fst kc) (dict_get (fst kc) mapping), snd kc))
             (columns f)).

Definition absent (cols : list (string * column)) (k : string) : bool :=
  match select k cols with [] => true | _ => false end.

(** [df[names]]: a new table of the columns so labelled, in the order of
    [names]; the labels that are missing are reported. *)
Definition frame_getitem_list (f : DataFrame) (names : list string) :
  outcome DataFrame :=
  match List.filter (absent (columns f)) names with
  | [] => Ok (Frame (index_len f) (flat_map (fun k => select k (columns f)) names))
  | missing => Raise (KeyError missing)
  end.

Definition cell_str (c : cell) : option string :=
  match c with CStr s => Some s | _ => None end.

(** [pd.to_datetime] on a column of strings that share one of the two
    layouts, or on a column that holds timestamps already.  Other input is
    left to pandas ([Unmodelled]). *)
Definition to_datetime (c : column) : outcome column :=
  match c with
  | Datetimes _ => Ok c
  | Values cells =>
      match mapM cell_str cells with
      | Some ss =>
          match mapM (parse_timestamp IsoMinutes) ss with
          | Some stamps => Ok (Datetimes stamps)
          | None =>
              match mapM (parse_timestamp SpaceSeconds) ss with
              | Some stamps => Ok (Datetimes stamps)
              | None => Unmodelled
              end
          end
      | None => Unmodelled
      end
  end.

(** [s.dt.time] and [s.dt.date]: only a [datetime64] column has [.dt]. *)
Definition dt_time (c : column) : outcome column :=
  match c with
  | Datetimes stamps => Ok (Values (map (fun ts => CTime (ts_time ts)) stamps))
  | Values _ => Raise AttributeError
  end.

Definition dt_date (c : column) : outcome column :=
  match c with
  | Datetimes stamps => Ok (Values (map (fun ts => CDate (ts_date ts)) stamps))
  | Values _ => Raise AttributeError
  end.

(** [str(x)] for the objects whose text is fixed by their fields *)
Definition py_str (c : cell) : option string :=
  match c with
  | CStr s => Some s
  | CDate d => Some (date_isoformat d)
  | CTime t => Some (time_isoformat t)
  | CNone | CBool _ | CInt _ | CNum _ => None
  end.

(** [s.astype(str)] *)
Definition astype_str (c : column) : outcome column :=
  match c with
  | Values cells =>
      match mapM py_str cells with
      | Some ss => Ok (Values (map CStr ss))
      | None => Unmodelled
      end
  | Datetimes _ => Unmodelled
  end.

(** [s + sep] and [s1 + s2] on columns of strings over one index *)
Definition add_str (c : column) (sep : string) : outcome column :=
  match c with
  | Values cells =>
      match mapM cell_str cells with
      | Some ss => Ok (Values (map (fun s => CStr (s ++ sep)) ss))
      | None => Unmodelled
      end
  | Datetimes _ => Unmodelled
  end.

Definition add_series (c1 c2 : column) : outcome column :=
  match c1, c2 with
  | Values cells1, Values cells2 =>
      match mapM cell_str cells1, mapM cell_str cells2 with
      | Some ss1, Some ss2 =>
          if length ss1 =? length ss2
          then Ok (Values (map (fun p => CStr (fst p ++ snd p)) (combine ss1 ss2)))
          else Unmodelled
      | _, _ => Unmodelled
      end
  | _, _ => Unmodelled
  end.

(** [s.iloc[i]] *)
Definition iloc (c : column) (i : nat) : outcome cell :=
  match c with
  | Values cells =>
      match nth_error cells i with
      | Some x => Ok x
      | None => Raise IndexError
      end
  | Datetimes stamps =>
      match nth_error stamps i with
      | Some _ => Unmodelled
      | None => Raise IndexError
      end
  end.

(** [s[:n]], with Python's reading of a negative bound *)
Definition upto {A : Type} (n : Z) (l : list A) : list A :=
  if (0 <=? n)%Z then firstn (Z.to_nat n) l
  else firstn (length l - Z.to_nat (- n)) l.

Definition slice_to (n : Z) (c : column) : column :=
  match c with
  | Values cells => Values (upto n cells)
  | Datetimes stamps => Datetimes (upto n stamps)
  end.

(** ** The store

    The decoded document and every table are objects at a location; the
    calls made on pyplot's current figure are kept in order. *)

Inductive object :=
| ODict (d : dict)
| OFrame (f : DataFrame).

Inductive plt_call :=
| plt_figure (width height : nat)
| plt_plot (x y : column) (marker linestyle label : string)
| plt_xlabel (s : string)
| plt_ylabel (s : string)
| plt_title (s : string)
| plt_grid (on : bool)
| plt_xticks (rotation : nat)
| plt_tight_layout
| plt_legend
| plt_show.

Abbreviation loc := nat.

Record world := World { heap : list object; drawn : list plt_call }.

Definition M (A : Type) : Type := world -> outcome A * world.

Definition ret {A : Type} (a : A) : M A := fun w => (Ok a, w).

Definition bind {A B : Type} (m : M A) (k : A -> M B) : M B :=
  fun w =>
    match m w with
    | (Ok a, w') => k a w'
    | (Raise e, w') => (Raise e, w')
    | (Unmodelled, w') => (Unmodelled, w')
    end.

Declare Scope prog_scope.
Delimit Scope prog_scope with prog.
Notation "x <- m ;; k" := (bind m (fun x => k))
  (at level 100, m at next level, right associativity) : prog_scope.
Notation "m ;; k" := (bind m (fun _ => k))
  (at level 100, right associativity) : prog_scope.
Open Scope prog_scope.

Definition lift {A : Type} (o : outcome A) : M A := fun w => (o, w).

Definition alloc (o : object) : M loc :=
  fun w => (Ok (length (heap w)), World (heap w ++ [o]) (drawn w)).

Definition read_dict (l : loc) : M dict :=
  fun w =>
    match heap w !! l with
    | Some (ODict d) => (Ok d, w)
    | _ => (Unmodelled, w)
    end.

Definition read_frame (l : loc) : M DataFrame :=
  fun w =>
    match heap w !! l with
    | Some (OFrame f) => (Ok f, w)
    | _ => (Unmodelled, w)
    end.

Definition write_frame (l : loc) (f : DataFrame) : M unit :=
  fun w =>
    match heap w !! l with
    | Some (OFrame _) => (Ok tt, World (<[l := OFrame f]> (heap w)) (drawn w))
    | _ => (Unmodelled, w)
    end.

(** pyplot is followed where a call is sure to return: a figure of a
    positive size, [plt.plot] for a line of numbers over as many date-times
    with the marker and the line style of the script, and labels that are
    plain text.  On other data [plt.plot] can raise (a [TypeError] for a
    column that mixes strings and numbers, for one), and a label with a
    dollar sign can be taken for mathtext, whose errors come up when the
    figure is laid out: that is left to pyplot. *)
Definition is_number (c : cell) : bool :=
  match c with CInt _ | CNum _ => true | _ => false end.

Definition plain_label (s : string) : bool :=
  negb (existsb (Ascii.eqb "$") (list_ascii_of_string s)).

Definition plottable (x y : column) : bool :=
  match x, y with
  | Datetimes stamps, Values cells =>
      (length stamps =? length cells) && forallb is_number cells
  | _, _ => false
  end.

Definition accepted (c : plt_call) : bool :=
  match c with
  | plt_figure width height => (0 <? width) && (0 <? height)
  | plt_plot x y marker linestyle label =>
      plottable x y && String.eqb marker "o" && String.eqb linestyle "-" &&
      plain_label label
  | plt_xlabel s | plt_ylabel s | plt_title s => plain_label s
  | plt_grid _ | plt_xticks _ | plt_tight_layout | plt_legend | plt_show => true
  end.

Definition plt (c : plt_call) : M unit :=
  fun w =>
    if accepted c then (Ok tt, World (heap w) (drawn w ++ [c]))
    else (Unmodelled, w).

Fixpoint for_each {A : Type} (l : list A) (body : A -> M unit) : M unit :=
  match l with
  | [] => ret tt
  | x :: rest => body x ;; for_each rest body
  end.

(** *** The calls of the script on objects in the store *)

(** [d[k]] on a dict *)
Definition dict_getitem (d : dict) (k : string) : outcome json :=
  match dict_get k d with
  | Some v => Ok v
  | None => Raise (KeyError [k])
  end.

(** [v.items()]: only an object has it. *)
Definition items (v : json) : outcome dict :=
  match v with
  | JObj m => Ok m
  | _ => Raise AttributeError
  end.

Definition DataFrame_new (v : json) : M loc :=
  f <- lift (DataFrame_of v) ;; alloc (OFrame f).

Definition getitem (df : loc) (k : string) : M column :=
  f <- read_frame df ;; lift (frame_getitem f k).

Definition setitem (df : loc) (k : string) (c : column) : M unit :=
  f <- read_frame df ;; f' <- lift (frame_setitem f k c) ;; write_frame df f'.

Definition setitem_scalar (df : loc) (k : string) (v : json) : M unit :=
  f <- read_frame df ;; f' <- lift (frame_setitem_scalar f k v) ;;
  write_frame df f'.

Definition rename_inplace (df : loc) (mapping : list (string * string)) : M unit :=
  f <- read_frame df ;; write_frame df (frame_rename mapping f).

Definition getitem_list (df : loc) (names : list string) : M loc :=
  f <- read_frame df ;; t <- lift (frame_getitem_list f names) ;;
  alloc (OFrame t).

Definition copy (df : loc) : M loc :=
  f <- read_frame df ;; alloc (OFrame f).

(** ** The script *)

(** [{k: v for k, v in data.items() if k not in ['hourly', 'hourly_units']}] *)
Definition metadata_of (d : dict) : dict :=
  List.filter (fun kv => negb (mem (fst kv) ["hourly"; "hourly_units"])) d.

(** [f"{key}_unit"] *)
Definition unit_label (key : string) : string := key ++ "_unit".

Definition flatten_hourly_data (data : loc) : M loc :=
  d <- read_dict data ;;
  hourly <- lift (dict_getitem d "hourly") ;;
  hourly_df <- DataFrame_new hourly ;;
  let metadata := metadata_of d in
  for_each metadata (fun kv => setitem_scalar hourly_df (fst kv) (snd kv)) ;;
  hourly_units <- lift (dict_getitem d "hourly_units") ;;
  units <- lift (items hourly_units) ;;
  for_each units
    (fun kv => setitem_scalar hourly_df (unit_label (fst kv)) (snd kv)) ;;
  ret hourly_df.

Definition ordered_columns : list string :=
  ["time"; "hour"; "temperature"; "latitude"; "longitude"; "generationtime_ms";
   "utc_offset_seconds"; "timezone"; "timezone_abbreviation"; "elevation";
   "time_unit"; "temperature_unit"].

Definition transform_data (data : loc) : M loc :=
  df <- flatten_hourly_data data ;;
  t <- getitem df "time" ;;
  t <- lift (to_datetime t) ;;
  setitem df "time" t ;;
  t <- getitem df "time" ;;
  h <- lift (dt_time t) ;;
  setitem df "hour" h ;;
  t <- getitem df "time" ;;
  d <- lift (dt_date t) ;;
  setitem df "time" d ;;
  rename_inplace df [("temperature_2m", "temperature");
                     ("temperature_2m_unit", "temperature_unit")] ;;
  getitem_list df ordered_columns.

(** The right-hand side of line 94:
    [pd.to_datetime(df['time'].astype(str) + ' ' + df['hour'].astype(str))] *)
Definition combined_datetime (df : loc) : M column :=
  d <- getitem df "time" ;;
  ds <- lift (astype_str d) ;;
  ds <- lift (add_str ds " ") ;;
  h <- getitem df "hour" ;;
  hs <- lift (astype_str h) ;;
  s <- lift (add_series ds hs) ;;
  lift (to_datetime s).

Definition plot_temperature (df : loc) (hours : Z) : M unit :=
  df <- copy df ;;
  dt <- combined_datetime df ;;
  setitem df "datetime" dt ;;
  plt (plt_figure 12 5) ;;
  x <- getitem df "datetime" ;;
  y <- getitem df "temperature" ;;
  plt (plt_plot (slice_to hours x) (slice_to hours y) "o" "-" "Temperature") ;;
  plt (plt_xlabel "Datetime") ;;
  u <- getitem df "temperature_unit" ;;
  u0 <- lift (iloc u 0) ;;
  unit <- lift (match py_str u0 with Some s => Ok s | None => Unmodelled end) ;;
  plt (plt_ylabel ("Temperature (" ++ unit ++ ")")) ;;
  plt (plt_title "Temperature by Hour") ;;
  plt (plt_grid true) ;;
  plt (plt_xticks 45) ;;
  plt plt_tight_layout ;;
  plt plt_legend ;;
  plt plt_show.

(** [main] after the download: [transform_data], then [plot_temperature]
    with its default of 24 hours. *)
Definition shape_and_plot (data : loc) : M unit :=
  weather_df <- transform_data data ;;
  plot_temperature weather_df 24.

(** ** The value of a run

    [table_of] reads the table a run returned.  [flattened] and [shaped] give
    that table as a function of the document alone; [transform_data_run]
    below shows that a run in any store returns it. *)

Definition table_of (r : outcome loc * world) : outcome DataFrame :=
  match r with
  | (Ok l, w) =>
      match heap w !! l with
      | Some (OFrame f) => Ok f
      | _ => Unmodelled
      end
  | (Raise e, _) => Raise e
  | (Unmodelled, _) => Unmodelled
  end.

Definition and_then {A B : Type} (o : outcome A) (k : A -> outcome B) : outcome B :=
  match o with
  | Ok a => k a
  | Raise e => Raise e
  | Unmodelled => Unmodelled
  end.

Definition settle {A B : Type} (o : outcome A) (b : B) : outcome B :=
  and_then o (fun _ => Ok b).

Fixpoint assign_all (key_of : string -> string) (l : dict) (f : DataFrame) :
  outcome DataFrame :=
  match l with
  | [] => Ok f
  | kv :: rest =>
      and_then (frame_setitem_scalar f (key_of (fst kv)) (snd kv))
               (assign_all key_of rest)
  end.

Definition flattened (d : dict) : outcome DataFrame :=
  and_then (dict_getitem d "hourly") (fun hourly =>
  and_then (DataFrame_of hourly) (fun f =>
  and_then (assign_all (fun k => k) (metadata_of d) f) (fun f =>
  and_then (dict_getitem d "hourly_units") (fun hourly_units =>
  and_then (items hourly_units) (fun units =>
  assign_all unit_label units f))))).

Definition renaming : list (string * string) :=
  [("temperature_2m", "temperature"); ("temperature_2m_unit", "temperature_unit")].

Definition split_time (f : DataFrame) : outcome DataFrame :=
  and_then (frame_getitem f "time") (fun t =>
  and_then (to_datetime t) (fun t =>
  and_then (frame_setitem f "time" t) (fun f =>
  and_then (frame_getitem f "time") (fun t =>
  and_then (dt_time t) (fun h =>
  and_then (frame_setitem f "hour" h) (fun f =>
  and_then (frame_getitem f "time") (fun t =>
  and_then (dt_date t) (fun d =>
  frame_setitem f "time" d)))))))).

Definition shaped (d : dict) : outcome DataFrame :=
  and_then (flattened d) (fun f =>
  and_then (split_time f) (fun f =>
  frame_getitem_list (frame_rename renaming f) ordered_columns)).

(** The store whose last object is the table [f] *)
Definition above (h : list object) (dr : list plt_call) (f : DataFrame) : world :=
  World (h ++ [OFrame f]) dr.

Implicit Types (cols : list (string * column)) (f : DataFrame).

(** A table whose labels are pairwise distinct, with its row count *)
Definition tidy (n : nat) f : Prop :=
  index_len f = n /\ distinct (keys (columns f)) = true.

(** *** Labels ending in [_unit] *)

Fixpoint strip_unit (k : string) : option string :=
  match k with
  | EmptyString => None
  | String a rest =>
      if String.eqb k "_unit" then Some EmptyString
      else option_map (String a) (strip_unit rest)
  end.

Definition rekey (key_of : string -> string) (m : dict) : dict :=
  map (fun kv => (key_of (fst kv), snd kv)) m.

(** *** Scalars given to every row

    A scalar is [None], a boolean, a string, a float or an integer of 64
    bits: the values that [cell_of_json] follows. *)

Definition is_scalar (v : json) : bool :=
  match cell_of_json v with Some _ => true | None => false end.

Definition broadcast (n : nat) (v : json) : option column :=
  option_map (fun c => Values (repeat c n)) (cell_of_json v).

(** ** Forecast documents

    The response of the forecast service: seven scalars, [hourly] with one
    array per variable and [hourly_units] with one unit per variable. *)

Definition metadata_names : list string :=
  ["latitude"; "longitude"; "generationtime_ms"; "utc_offset_seconds";
   "timezone"; "timezone_abbreviation"; "elevation"].

Definition hourly_of (d : dict) : dict :=
  match dict_get "hourly" d with Some (JObj h) => h | _ => [] end.

Definition units_of (d : dict) : dict :=
  match dict_get "hourly_units" d with Some (JObj u) => u | _ => [] end.

Definition times_of (d : dict) : list json :=
  match dict_get "time" (hourly_of d) with Some (JArr ts) => ts | _ => [] end.

Definition is_object (o : option json) : bool :=
  match o with Some (JObj _) => true | _ => false end.

Definition is_array (o : option json) : bool :=
  match o with Some (JArr _) => true | _ => false end.

Definition scalar_array (n : nat) (v : json) : bool :=
  match v with
  | JArr items => (length items =? n) && forallb is_scalar items
  | _ => false
  end.

(** An entry of [hourly.time]: a string [%Y-%m-%dT%H:%M] that names a
    moment *)
Definition stamp_of (v : json) : option Timestamp :=
  match v with
  | JStr s => parse_timestamp IsoMinutes s
  | _ => None
  end.

Definition documented_time (v : json) : bool :=
  match stamp_of v with Some _ => true | None => false end.

(** Every member besides [hourly] and [hourly_units] is one of the seven
    scalars. *)
Definition well_formed_metadata (d : dict) : bool :=
  distinct (keys d) &&
  forallb (fun kv => is_scalar (snd kv) && mem (fst kv) metadata_names)
          (metadata_of d).

(** The arrays of [hourly] hold scalars and are as long as [time], whose
    entries are in the documented form. *)
Definition well_formed_hourly (d : dict) : bool :=
  is_object (dict_get "hourly" d) &&
  is_array (dict_get "time" (hourly_of d)) &&
  distinct (keys (hourly_of d)) &&
  forallb documented_time (times_of d) &&
  forallb (fun kv => scalar_array (length (times_of d)) (snd kv)) (hourly_of d).

Definition well_formed_units (d : dict) : bool :=
  is_object (dict_get "hourly_units" d) &&
  distinct (keys (units_of d)) &&
  forallb (fun kv => is_scalar (snd kv)) (units_of d).

(** No variable bears a name that the renaming is about to introduce (the
    forecast service has no variable called [temperature] or
    [temperature_unit]). *)
Definition fresh_names (d : dict) : bool :=
  negb (mem "temperature" (keys (hourly_of d))) &&
  negb (mem "temperature_unit" (keys (hourly_of d))) &&
  negb (mem "temperature" (keys (units_of d))).

Definition well_shaped (d : dict) : bool :=
  well_formed_metadata d && well_formed_hourly d && well_formed_units d &&
  fresh_names d.

(** A valid [ForecastResponse]: well shaped, with the seven scalars, the
    variable [temperature_2m] next to [time], and a unit for both. *)
Definition valid_response (d : dict) : bool :=
  well_shaped d &&
  forallb (fun k => mem k (keys d)) metadata_names &&
  mem "temperature_2m" (keys (hourly_of d)) &&
  mem "time" (keys (units_of d)) &&
  mem "temperature_2m" (keys (units_of d)) &&
  forallb (fun k => mem k (keys (hourly_of d))) (keys (units_of d)).

(** A [ForecastResponse] as the data model of the specification has it:
    [valid_response] without the condition on the names. *)
Definition forecast_response (d : dict) : bool :=
  well_formed_metadata d && well_formed_hourly d && well_formed_units d &&
  forallb (fun k => mem k (keys d)) metadata_names &&
  mem "temperature_2m" (keys (hourly_of d)) &&
  mem "time" (keys (units_of d)) &&
  mem "temperature_2m" (keys (units_of d)) &&
  forallb (fun k => mem k (keys (hourly_of d))) (keys (units_of d)).

Definition temperatures_of (d : dict) : list json :=
  match dict_get "temperature_2m" (hourly_of d) with
  | Some (JArr ts) => ts
  | _ => []
  end.

(** The cell holds the value of the entry of the document: the same
    integer, float, string or boolean, or the missing entry; an integer may
    be held as the float of the same value. *)
Definition same_value (v : json) (c : cell) : Prop :=
  match v, c with
  | JNull, CNone => True
  | JBool b, CBool b' => b = b'
  | JInt z, CInt z' => z = z'
  | JInt z, CNum q => q = inject_Z z
  | JNum q, CNum q' => q = q'
  | JStr s, CStr s' => s = s'
  | _, _ => False
  end.

(** An entry that a [float64] column holds exactly: every entry but an
    integer above [2 ^ 53] in size *)
Definition fits_double (v : json) : bool :=
  match v with
  | JInt z => (Z.abs z <=? 2 ^ 53)%Z
  | _ => true
  end.

(** The document of the specification's scenario *)
Definition scenario : dict :=
  [("latitude", JNum 4); ("longitude", JNum (-10));
   ("generationtime_ms", JNum 0.5); ("utc_offset_seconds", JInt 0);
   ("timezone", JStr "UTC"); ("timezone_abbreviation", JStr "UTC");
   ("elevation", JNum 0);
   ("hourly_units", JObj [("time", JStr "iso8601"); ("temperature_2m", JStr "°C")]);
   ("hourly", JObj [("time", JArr [JStr "2024-01-01T00:00"; JStr "2024-01-01T01:00"]);
                    ("temperature_2m", JArr [JNum 10.5; JNum 11])])].

(** The column under each label once [flatten_hourly_data] and the
    splitting of [time] are done: the date and the time of day, then the
    units, then the metadata, then the hourly variables. *)
Definition column_before (d : dict) (stamps : list Timestamp) (k : string) :
  option column :=
  let n := length (times_of d) in
  if String.eqb k "time" then
    Some (Values (map (fun st => CDate (ts_date st)) stamps))
  else if String.eqb k "hour" then
    Some (Values (map (fun st => CTime (ts_time st)) stamps))
  else
    match dict_get k (rekey unit_label (units_of d)) with
    | Some v => broadcast n v
    | None =>
        match dict_get k (metadata_of d) with
        | Some v => broadcast n v
        | None =>
            match dict_get k (hourly_of d) with
            | Some v => column_of_json v
            | None => None
            end
        end
    end.

(** ** The renaming and the projection *)

Definition renamed (k : string) : string := default k (dict_get k renaming).

Definition column_after (d : dict) (stamps : list Timestamp) (k : string) :
  option column :=
  if String.eqb k "temperature" then column_before d stamps "temperature_2m"
  else if String.eqb k "temperature_unit"
       then column_before d stamps "temperature_2m_unit"
  else if String.eqb k "temperature_2m" || String.eqb k "temperature_2m_unit"
       then None
  else column_before d stamps k.

(** ** The table of a valid response

    [hourly_records] is the table as the specification describes it: one
    row per forecast hour, made of the date and the time of day of that
    hour, its temperature, and the seven scalars and the two units copied
    into every row. *)

Definition scalar_at (k : string) (m : dict) : cell :=
  match dict_get k m with
  | Some v => default CNone (cell_of_json v)
  | None => CNone
  end.

Definition series_at (k : string) (m : dict) : list cell :=
  match dict_get k m with
  | Some (JArr vs) => default [] (cells_of_array vs)
  | _ => []
  end.

Definition hourly_records (d : dict) (stamps : list Timestamp) : DataFrame :=
  let n := length (times_of d) in
  let every (c : cell) := Values (repeat c n) in
  Frame n
    [("time", Values (map (fun st => CDate (ts_date st)) stamps));
     ("hour", Values (map (fun st => CTime (ts_time st)) stamps));
     ("temperature", Values (series_at "temperature_2m" (hourly_of d)));
     ("latitude", every (scalar_at "latitude" d));
     ("longitude", every (scalar_at "longitude" d));
     ("generationtime_ms", every (scalar_at "generationtime_ms" d));
     ("utc_offset_seconds", every (scalar_at "utc_offset_seconds" d));
     ("timezone", every (scalar_at "timezone" d));
     ("timezone_abbreviation", every (scalar_at "timezone_abbreviation" d));
     ("elevation", every (scalar_at "elevation" d));
     ("time_unit", every (scalar_at "time" (units_of d)));
     ("temperature_unit", every (scalar_at "temperature_2m" (units_of d)))].

(** ** Joining the date and the time of day again *)

Definition stamp_text (st : Timestamp) : string :=
  (date_isoformat (ts_date st) ++ " ") ++ time_isoformat (ts_time st).

(** A response that also carries a second hourly variable *)
Definition with_humidity : dict :=
  [("latitude", JNum 4); ("longitude", JNum (-10));
   ("generationtime_ms", JNum 0.5); ("utc_offset_seconds", JInt 0);
   ("timezone", JStr "UTC"); ("timezone_abbreviation", JStr "UTC");
   ("elevation", JNum 0);
   ("hourly_units", JObj [("time", JStr "iso8601");
                          ("temperature_2m", JStr "°C");
                          ("relative_humidity_2m", JStr "%")]);
   ("hourly", JObj [("time", JArr [JStr "2024-01-01T00:00"; JStr "2024-01-01T01:00"]);
                    ("temperature_2m", JArr [JNum 10.5; JNum 11]);
                    ("relative_humidity_2m", JArr [JNum 80; JNum 82])])].

(** A response whose variable is called [temperature] *)
Definition plain_temperature : dict :=
  [("latitude", JNum 4); ("longitude", JNum (-10));
   ("generationtime_ms", JNum 0.5); ("utc_offset_seconds", JInt 0);
   ("timezone", JStr "UTC"); ("timezone_abbreviation", JStr "UTC");
   ("elevation", JNum 0);
   ("hourly_units", JObj [("time", JStr "iso8601"); ("temperature", JStr "°C")]);
   ("hourly", JObj [("time", JArr [JStr "2024-01-01T00:00"; JStr "2024-01-01T01:00"]);
                    ("temperature", JArr [JNum 10.5; JNum 11])])].

(** The scenario without the variable [temperature_2m] *)
Definition without_temperature : dict :=
  [("latitude", JNum 4); ("longitude", JNum (-10));
   ("generationtime_ms", JNum 0.5); ("utc_offset_seconds", JInt 0);
   ("timezone", JStr "UTC"); ("timezone_abbreviation", JStr "UTC");
   ("elevation", JNum 0);
   ("hourly_units", JObj [("time", JStr "iso8601"); ("temperature_2m", JStr "°C")]);
   ("hourly", JObj [("time", JArr [JStr "2024-01-01T00:00"; JStr "2024-01-01T01:00"])])].

(** A response with [time_unit] among its scalars and no unit for [time] *)
Definition time_unit_on_top : dict :=
  [("latitude", JNum 4); ("longitude", JNum (-10));
   ("generationtime_ms", JNum 0.5); ("utc_offset_seconds", JInt 0);
   ("timezone", JStr "UTC"); ("timezone_abbreviation", JStr "UTC");
   ("elevation", JNum 0); ("time_unit", JStr "iso8601");
   ("hourly_units", JObj [("temperature_2m", JStr "°C")]);
   ("hourly", JObj [("time", JArr [JStr "2024-01-01T00:00"; JStr "2024-01-01T01:00"]);
                    ("temperature_2m", JArr [JNum 10.5; JNum 11])])].

(** The scenario without a unit for [time] *)
Definition without_time_unit : dict :=
  [("latitude", JNum 4); ("longitude", JNum (-10));
   ("generationtime_ms", JNum 0.5); ("utc_offset_seconds", JInt 0);
   ("timezone", JStr "UTC"); ("timezone_abbreviation", JStr "UTC");
   ("elevation", JNum 0);
   ("hourly_units", JObj [("temperature_2m", JStr "°C")]);
   ("hourly", JObj [("time", JArr [JStr "2024-01-01T00:00"; JStr "2024-01-01T01:00"]);
                    ("temperature_2m", JArr [JNum 10.5; JNum 11])])].

(** ** Plotting a table without rows *)

(** The table of a valid response without forecast hours *)
Definition no_rows : DataFrame :=
  Frame 0 (map (fun k => (k, Values [])) ordered_columns).

Definition no_rows_dated : DataFrame :=
  Frame 0 (columns no_rows ++ [("datetime", Datetimes [])]).

(** A valid response without forecast hours *)
Definition no_hours : dict :=
  [("latitude", JNum 4); ("longitude", JNum (-10));
   ("generationtime_ms", JNum 0.5); ("utc_offset_seconds", JInt 0);
   ("timezone", JStr "UTC"); ("timezone_abbreviation", JStr "UTC");
   ("elevation", JNum 0);
   ("hourly_units", JObj [("time", JStr "iso8601"); ("temperature_2m", JStr "°C")]);
   ("hourly", JObj [("time", JArr []); ("temperature_2m", JArr [])])].

(** The scenario with a further hourly variable called [temperature_unit],
    and with one called [temperature] *)
Definition unit_variable : dict :=
  [("latitude", JNum 4); ("longitude", JNum (-10));
   ("generationtime_ms", JNum 0.5); ("utc_offset_seconds", JInt 0);
   ("timezone", JStr "UTC"); ("timezone_abbreviation", JStr "UTC");
   ("elevation", JNum 0);
   ("hourly_units", JObj [("time", JStr "iso8601"); ("temperature_2m", JStr "°C")]);
   ("hourly", JObj [("time", JArr [JStr "2024-01-01T00:00"; JStr "2024-01-01T01:00"]);
                    ("temperature_2m", JArr [JNum 10.5; JNum 11]);
                    ("temperature_unit", JArr [JStr "a"; JStr "b"])])].

Definition extra_temperature : dict :=
  [("latitude", JNum 4); ("longitude", JNum (-10));
   ("generationtime_ms", JNum 0.5); ("utc_offset_seconds", JInt 0);
   ("timezone", JStr "UTC"); ("timezone_abbreviation", JStr "UTC");
   ("elevation", JNum 0);
   ("hourly_units", JObj [("time", JStr "iso8601"); ("temperature_2m", JStr "°C")]);
   ("hourly", JObj [("time", JArr [JStr "2024-01-01T00:00"; JStr "2024-01-01T01:00"]);
                    ("temperature_2m", JArr [JNum 10.5; JNum 11]);
                    ("temperature", JArr [JNum 1; JNum 2])])].

(** The scenario with an integer temperature that no double holds, and with
    one that a double holds *)
Definition unrepresentable : dict :=
  [("latitude", JNum 4); ("longitude", JNum (-10));
   ("generationtime_ms", JNum 0.5); ("utc_offset_seconds", JInt 0);
   ("timezone", JStr "UTC"); ("timezone_abbreviation", JStr "UTC");
   ("elevation", JNum 0);
   ("hourly_units", JObj [("time", JStr "iso8601"); ("temperature_2m", JStr "°C")]);
   ("hourly", JObj [("time", JArr [JStr "2024-01-01T00:00"; JStr "2024-01-01T01:00"]);
                    ("temperature_2m", JArr [JInt 9007199254740993; JNum 0.5])])].

Definition whole_degrees : dict :=
  [("latitude", JNum 4); ("longitude", JNum (-10));
   ("generationtime_ms", JNum 0.5); ("utc_offset_seconds", JInt 0);
   ("timezone", JStr "UTC"); ("timezone_abbreviation", JStr "UTC");
   ("elevation", JNum 0);
   ("hourly_units", JObj [("time", JStr "iso8601"); ("temperature_2m", JStr "°C")]);
   ("hourly", JObj [("time", JArr [JStr "2024-01-01T00:00"; JStr "2024-01-01T01:00"]);
                    ("temperature_2m", JArr [JInt 10; JNum 10.5])])].


(** ** Documents that flatten

    What [flatten_hourly_data] needs of a document to return a table of [n]
    rows: scalars besides the two mappings, arrays of [n] scalars under
    [hourly], scalars under [hourly_units].  Neither [time] nor any other
    name is asked for. *)

Definition frame_ready (n : nat) (d : dict) : bool :=
  distinct (keys d) &&
  forallb (fun kv => is_scalar (snd kv)) (metadata_of d) &&
  is_object (dict_get "hourly" d) &&
  distinct (keys (hourly_of d)) &&
  forallb (fun kv => scalar_array n (snd kv)) (hourly_of d) &&
  (match hourly_of d with [] => n =? 0 | _ => true end).

Definition flattens (n : nat) (d : dict) : bool :=
  frame_ready n d &&
  is_object (dict_get "hourly_units" d) &&
  distinct (keys (units_of d)) &&
  forallb (fun kv => is_scalar (snd kv)) (units_of d).

(** A document that flattens and whose [hourly.time], which no scalar of
    the document shadows, holds moments in the documented form.  Such a
    document need not be a valid response: it may have further scalars and
    variables, and lack [temperature_2m] or a unit. *)
Definition timed (n : nat) (d : dict) : bool :=
  flattens n d &&
  negb (mem "time" (keys d)) &&
  is_array (dict_get "time" (hourly_of d)) &&
  forallb documented_time (times_of d).

(** A member of [hourly] that is an array of scalars, of any length *)
Definition array_of_scalars (v : json) : bool :=
  match v with
  | JArr vs => forallb is_scalar vs
  | _ => false
  end.

(** The labels of [l] that [seen] lacks *)
Definition unseen (seen l : list string) : list string :=
  List.filter (fun k => negb (mem k seen)) l.

(** The column that [flatten_hourly_data] leaves under a label: a unit
    goes before a scalar of the document, which goes before an hourly
    variable. *)
Definition flat_column (n : nat) (d : dict) (k : string) : option column :=
  match dict_get k (rekey unit_label (units_of d)) with
  | Some v => broadcast n v
  | None =>
      match dict_get k (metadata_of d) with
      | Some v => broadcast n v
      | None =>
          match dict_get k (hourly_of d) with
          | Some v => column_of_json v
          | None => None
          end
      end
  end.

(** Every column has as many cells as the index has rows. *)
Definition rectangular (f : DataFrame) : bool :=
  forallb (fun kc => col_length (snd kc) =? index_len f) (columns f).

(** A document with a scalar and an hourly variable under one name, and a
    unit whose label is the name of another scalar *)
Definition shadowing : dict :=
  [("elevation", JNum 7); ("time_unit", JStr "top");
   ("hourly", JObj [("time", JArr [JStr "2024-01-01T00:00"]);
                    ("elevation", JArr [JNum 1])]);
   ("hourly_units", JObj [("time", JStr "iso8601")])].


(** A response whose arrays differ in length *)
Definition ragged : dict :=
  [("latitude", JNum 4);
   ("hourly", JObj [("time", JArr [JStr "2024-01-01T00:00"; JStr "2024-01-01T01:00"]);
                    ("temperature_2m", JArr [JNum 10.5])]);
   ("hourly_units", JObj [("time", JStr "iso8601")])].

(** Responses without [hourly], without [hourly_units], with a unit that is
    no mapping, and without [hourly.time] *)
Definition no_hourly : dict :=
  [("latitude", JNum 4); ("hourly_units", JObj [("time", JStr "iso8601")])].

Definition no_units : dict :=
  [("latitude", JNum 4);
   ("hourly", JObj [("time", JArr [JStr "2024-01-01T00:00"])])].

Definition null_units : dict :=
  [("latitude", JNum 4);
   ("hourly", JObj [("time", JArr [JStr "2024-01-01T00:00"])]);
   ("hourly_units", JNull)].

Definition no_time : dict :=
  [("latitude", JNum 4);
   ("hourly", JObj [("temperature_2m", JArr [JNum 10.5])]);
   ("hourly_units", JObj [("temperature_2m", JStr "°C")])].

(** A table none of whose columns is a [datetime64] column *)
Definition is_values (c : column) : bool :=
  match c with Values _ => true | Datetimes _ => false end.

Definition plain (f : DataFrame) : bool :=
  forallb (fun kc => is_values (snd kc)) (columns f).

(** Whether a well-shaped document supplies the column that the projection
    asks for under a label of [ordered_columns] *)
Definition supplied (d : dict) (k : string) : bool :=
  if mem k ["time"; "hour"] then true
  else if String.eqb k "temperature" then
    mem "temperature_2m" (keys (hourly_of d))
  else if String.eqb k "temperature_unit" then
    mem "temperature_2m" (keys (units_of d))
    || mem "temperature_2m_unit" (keys (hourly_of d))
  else
    match strip_unit k with
    | Some k0 => mem k0 (keys (units_of d)) || mem k (keys (hourly_of d))
    | None => mem k (keys d) || mem k (keys (hourly_of d))
    end.

Definition missing_labels (d : dict) : list string :=
  List.filter (fun k => negb (supplied d k)) ordered_columns.

(** The scenario without [temperature_2m] altogether and without
    [elevation] *)
Definition sparse : dict :=
  [("latitude", JNum 4); ("longitude", JNum (-10));
   ("generationtime_ms", JNum 0.5); ("utc_offset_seconds", JInt 0);
   ("timezone", JStr "UTC"); ("timezone_abbreviation", JStr "UTC");
   ("hourly_units", JObj [("time", JStr "iso8601")]);
   ("hourly", JObj [("time", JArr [JStr "2024-01-01T00:00"; JStr "2024-01-01T01:00"])])].

(** ** The drawing

    [plotted t hours] is what a call of [plot_temperature] on the table [t]
    comes to: how it ends, the copy it leaves in the store, and the calls
    it made on pyplot.  [plot_temperature_run] below shows that a run in any
    store does just that. *)

(** An entry that is a number *)
Definition json_number (v : json) : bool :=
  match v with JInt _ | JNum _ => true | _ => false end.

Definition datetime_of (t : DataFrame) : outcome column :=
  and_then (frame_getitem t "time") (fun d =>
  and_then (astype_str d) (fun ds =>
  and_then (add_str ds " ") (fun ds =>
  and_then (frame_getitem t "hour") (fun h =>
  and_then (astype_str h) (fun hs =>
  and_then (add_series ds hs) to_datetime))))).

Definition unit_text (t : DataFrame) : outcome string :=
  and_then (frame_getitem t "temperature_unit") (fun u =>
  and_then (iloc u 0) (fun u0 =>
  match py_str u0 with Some s => Ok s | None => Unmodelled end)).

Definition line_calls (x y : column) : list plt_call :=
  [plt_figure 12 5; plt_plot x y "o" "-" "Temperature"; plt_xlabel "Datetime"].

Definition drawing (x y : column) (unit : string) : list plt_call :=
  line_calls x y ++
  [plt_ylabel ("Temperature (" ++ unit ++ ")"); plt_title "Temperature by Hour";
   plt_grid true; plt_xticks 45; plt_tight_layout; plt_legend; plt_show].

Definition plotted (t : DataFrame) (hours : Z) :
  outcome unit * DataFrame * list plt_call :=
  match and_then (datetime_of t) (frame_setitem t "datetime") with
  | Ok t' =>
      match and_then (frame_getitem t' "datetime") (fun x =>
            and_then (frame_getitem t' "temperature") (fun y => Ok (x, y))) with
      | Ok (x, y) =>
          let line := line_calls (slice_to hours x) (slice_to hours y) in
          if plottable (slice_to hours x) (slice_to hours y) then
            match unit_text t' with
            | Ok s =>
                if plain_label s
                then (Ok tt, t', drawing (slice_to hours x) (slice_to hours y) s)
                else (Unmodelled, t', line)
            | Raise e => (Raise e, t', line)
            | Unmodelled => (Unmodelled, t', line)
            end
          else (Unmodelled, t', [plt_figure 12 5])
      | Raise e => (Raise e, t', [plt_figure 12 5])
      | Unmodelled => (Unmodelled, t', [plt_figure 12 5])
      end
  | Raise e => (Raise e, t, [])
  | Unmodelled => (Unmodelled, t, [])
  end.

(** A table that has the temperatures but neither dates nor a unit *)
Definition bare_table : DataFrame :=
  Frame 2 [("temperature", Values [CNum 10.5; CNum 11])].

(** The table of the scenario with its unit column dropped *)
Definition unitless_table : DataFrame :=
  Frame 2 [("time", Values [CDate (Date 2024 1 1); CDate (Date 2024 1 1)]);
           ("hour", Values [CTime (Time 0 0 0); CTime (Time 1 0 0)]);
           ("temperature", Values [CNum 10.5; CNum 11])].

(** The scenario with the members of the document, of [hourly] and of
    [hourly_units] in another order *)
Definition reordered : dict :=
  [("hourly", JObj [("temperature_2m", JArr [JNum 10.5; JNum 11]);
                    ("time", JArr [JStr "2024-01-01T00:00"; JStr "2024-01-01T01:00"])]);
   ("elevation", JNum 0);
   ("timezone_abbreviation", JStr "UTC"); ("timezone", JStr "UTC");
   ("utc_offset_seconds", JInt 0); ("generationtime_ms", JNum 0.5);
   ("longitude", JNum (-10)); ("latitude", JNum 4);
   ("hourly_units", JObj [("temperature_2m", JStr "°C"); ("time", JStr "iso8601")])].

(** * Proofs *)

(** ** Reading and writing timestamps *)

Example parse_iso_example :
  parse_timestamp IsoMinutes "2024-01-01T01:00" =
  Some (Stamp (Date 2024 1 1) (Time 1 0 0)).
Proof. reflexivity. Qed.

Example parse_space_example :
  parse_timestamp SpaceSeconds "2024-02-29 23:59:07" =
  Some (Stamp (Date 2024 2 29) (Time 23 59 7)).
Proof. reflexivity. Qed.

Example parse_rejects_bad_day :
  parse_timestamp IsoMinutes "2023-02-29T01:00" = None.
Proof. reflexivity. Qed.

Lemma digit_of_char (n : nat) : n < 10 -> digit_of (char_of_digit n) = Some n.
Proof.
  intros H.
  do 10 (destruct n as [|n]; [reflexivity|]).
  lia.
Qed.

Lemma number_of_pad2 (n : nat) : n < 100 -> number_of (pad2 n) 0 = Some n.
Proof.
  intros H. unfold pad2, number_of.
  rewrite !digit_of_char by (apply Nat.mod_upper_bound; lia).
  f_equal.
  rewrite (Nat.mod_small (n / 10) 10) by (apply Nat.Div0.div_lt_upper_bound; lia).
  pose proof (Nat.div_mod_eq n 10). lia.
Qed.

Lemma number_of_pad4 (n : nat) : n < 100 * 100 -> number_of (pad4 n) 0 = Some n.
Proof.
  intros H. unfold pad4, number_of.
  rewrite !digit_of_char by (apply Nat.mod_upper_bound; lia).
  f_equal.
  replace (n / 1000) with (n / 10 / 10 / 10)
    by (rewrite !Nat.Div0.div_div; reflexivity).
  replace (n / 100) with (n / 10 / 10)
    by (rewrite !Nat.Div0.div_div; reflexivity).
  pose proof (Nat.div_mod_eq n 10).
  pose proof (Nat.div_mod_eq (n / 10) 10).
  pose proof (Nat.div_mod_eq (n / 10 / 10) 10).
  assert (n / 10 / 10 / 10 < 10)
    by (do 3 (apply Nat.Div0.div_lt_upper_bound); lia).
  rewrite (Nat.mod_small (n / 10 / 10 / 10) 10) by assumption.
  lia.
Qed.

Lemma list_ascii_of_string_app (a b : string) :
  list_ascii_of_string (a ++ b) = list_ascii_of_string a ++ list_ascii_of_string b.
Proof. induction a as [|c a IH]; simpl; [reflexivity | now rewrite IH]. Qed.

Lemma valid_date_bounds (d : date) :
  valid_date d = true -> year d < 100 * 100 /\ month d < 100 /\ day d < 100.
Proof.
  destruct d as [y m dd]. unfold valid_date; cbn [year month day].
  rewrite !andb_true_iff, !Nat.leb_le.
  intros [[[[[_ Hy] _] Hm] _] Hd].
  assert (days_in_month y m <= 31).
  { unfold days_in_month.
    do 13 (destruct m as [|m]; [try destruct (leap y); lia|]). lia. }
  lia.
Qed.

Lemma valid_time_bounds (t : time) :
  valid_time t = true -> hour t < 100 /\ minute t < 100 /\ second t < 100.
Proof.
  unfold valid_time. rewrite !andb_true_iff, !Nat.ltb_lt. lia.
Qed.

Lemma parse_date_chars (d : date) (rest : list ascii) :
  valid_date d = true ->
  parse_date_part (date_chars d ++ rest) = Some (d, rest).
Proof.
  intros (Hy & Hm & Hd)%valid_date_bounds. destruct d as [y m dd].
  cbn [year month day] in *.
  unfold date_chars, parse_date_part, pad4 at 1, pad2 at 1 2.
  cbn [app year month day]. rewrite !Ascii.eqb_refl. cbn [andb].
  change (number_of [_; _; _; _] 0) with (number_of (pad4 y) 0).
  change (number_of [char_of_digit (m / 10 mod 10); _] 0)
    with (number_of (pad2 m) 0).
  change (number_of [char_of_digit (dd / 10 mod 10); _] 0)
    with (number_of (pad2 dd) 0).
  now rewrite number_of_pad4, !number_of_pad2.
Qed.

Lemma parse_time_chars (t : time) :
  valid_time t = true ->
  parse_time_part SpaceSeconds (" "%char :: time_chars t) = Some t.
Proof.
  intros (Hh & Hm & Hs)%valid_time_bounds. destruct t as [h m s].
  cbn [hour minute second] in *.
  unfold time_chars, parse_time_part, pad2 at 1 2 3.
  cbn [app hour minute second]. rewrite !Ascii.eqb_refl. cbn [andb].
  change (number_of [char_of_digit (h / 10 mod 10); _] 0)
    with (number_of (pad2 h) 0).
  change (number_of [char_of_digit (m / 10 mod 10); _] 0)
    with (number_of (pad2 m) 0).
  change (number_of [char_of_digit (s / 10 mod 10); _] 0)
    with (number_of (pad2 s) 0).
  now rewrite !number_of_pad2.
Qed.

(** Writing a date and a time of day with [str], joining them with one
    space and reading the result gives the timestamp back. *)
Lemma parse_isoformat (d : date) (t : time) :
  valid_date d = true -> valid_time t = true ->
  parse_timestamp SpaceSeconds ((date_isoformat d ++ " ") ++ time_isoformat t)
  = Some (Stamp d t).
Proof.
  intros Hd Ht. unfold parse_timestamp, date_isoformat, time_isoformat.
  rewrite !list_ascii_of_string_app, !list_ascii_of_string_of_list_ascii.
  rewrite <- app_assoc. simpl (list_ascii_of_string " " ++ _).
  rewrite parse_date_chars by assumption.
  rewrite parse_time_chars by assumption.
  now rewrite Hd, Ht.
Qed.

Lemma parse_timestamp_valid (fmt : layout) (s : string) (ts : Timestamp) :
  parse_timestamp fmt s = Some ts ->
  valid_date (ts_date ts) = true /\ valid_time (ts_time ts) = true.
Proof.
  unfold parse_timestamp.
  destruct (parse_date_part _) as [[d rest]|]; [|discriminate].
  destruct (parse_time_part _ _) as [t|]; [|discriminate].
  destruct (valid_date d && valid_time t) eqn:E; [|discriminate].
  intros [= <-]. now apply andb_true_iff in E.
Qed.

(** ** Runs in the store *)

Lemma bind_run {A B : Type} (m : M A) (k : A -> M B) (w : world) :
  bind m k w =
  match m w with
  | (Ok a, w') => k a w'
  | (Raise e, w') => (Raise e, w')
  | (Unmodelled, w') => (Unmodelled, w')
  end.
Proof. reflexivity. Qed.

Lemma read_dict_at (w : world) (l : loc) (d : dict) :
  heap w !! l = Some (ODict d) -> read_dict l w = (Ok d, w).
Proof. intros H. unfold read_dict. now rewrite H. Qed.

Section top_of_heap.
Variables (h : list object) (dr : list plt_call).

Lemma read_frame_top (f : DataFrame) :
  read_frame (length h) (above h dr f) = (Ok f, above h dr f).
Proof.
  unfold read_frame, above; simpl. now rewrite list_lookup_middle.
Qed.

Lemma write_frame_top (f f' : DataFrame) :
  write_frame (length h) f' (above h dr f) = (Ok tt, above h dr f').
Proof.
  unfold write_frame, above; simpl. rewrite list_lookup_middle by reflexivity.
  now rewrite (insert_app_r_alt h _ (length h)), Nat.sub_diag.
Qed.

Lemma update_top (op : DataFrame -> outcome DataFrame) (f : DataFrame) :
  (g <- read_frame (length h) ;; f' <- lift (op g) ;;
   write_frame (length h) f') (above h dr f) =
  match op f with
  | Ok f' => (Ok tt, above h dr f')
  | Raise e => (Raise e, above h dr f)
  | Unmodelled => (Unmodelled, above h dr f)
  end.
Proof.
  rewrite bind_run, read_frame_top, bind_run. unfold lift.
  destruct (op f); try reflexivity. apply write_frame_top.
Qed.

Lemma setitem_top (f : DataFrame) (k : string) (c : column) :
  setitem (length h) k c (above h dr f) =
  match frame_setitem f k c with
  | Ok f' => (Ok tt, above h dr f')
  | Raise e => (Raise e, above h dr f)
  | Unmodelled => (Unmodelled, above h dr f)
  end.
Proof. apply (update_top (fun g => frame_setitem g k c)). Qed.

Lemma setitem_scalar_top (f : DataFrame) (k : string) (v : json) :
  setitem_scalar (length h) k v (above h dr f) =
  match frame_setitem_scalar f k v with
  | Ok f' => (Ok tt, above h dr f')
  | Raise e => (Raise e, above h dr f)
  | Unmodelled => (Unmodelled, above h dr f)
  end.
Proof. apply (update_top (fun g => frame_setitem_scalar g k v)). Qed.

Lemma rename_inplace_top (f : DataFrame) (mapping : list (string * string)) :
  rename_inplace (length h) mapping (above h dr f) =
  (Ok tt, above h dr (frame_rename mapping f)).
Proof.
  unfold rename_inplace. rewrite bind_run, read_frame_top.
  apply write_frame_top.
Qed.

Lemma getitem_top (f : DataFrame) (k : string) :
  getitem (length h) k (above h dr f) = (frame_getitem f k, above h dr f).
Proof. unfold getitem. now rewrite bind_run, read_frame_top. Qed.

Lemma getitem_list_top (f : DataFrame) (names : list string) :
  getitem_list (length h) names (above h dr f) =
  match frame_getitem_list f names with
  | Ok t => (Ok (S (length h)), World (h ++ [OFrame f; OFrame t]) dr)
  | Raise e => (Raise e, above h dr f)
  | Unmodelled => (Unmodelled, above h dr f)
  end.
Proof.
  unfold getitem_list. rewrite bind_run, read_frame_top, bind_run.
  unfold lift. destruct (frame_getitem_list f names); try reflexivity.
  unfold alloc, above; simpl. rewrite length_app, Nat.add_1_r.
  now rewrite <- app_assoc.
Qed.

Lemma copy_top (f : DataFrame) :
  copy (length h) (above h dr f) =
  (Ok (S (length h)), World (h ++ [OFrame f; OFrame f]) dr).
Proof.
  unfold copy. rewrite bind_run, read_frame_top.
  unfold alloc, above; simpl. rewrite length_app, Nat.add_1_r.
  now rewrite <- app_assoc.
Qed.

Lemma DataFrame_new_run (v : json) :
  DataFrame_new v (World h dr) =
  match DataFrame_of v with
  | Ok f => (Ok (length h), above h dr f)
  | Raise e => (Raise e, World h dr)
  | Unmodelled => (Unmodelled, World h dr)
  end.
Proof.
  unfold DataFrame_new. rewrite bind_run. unfold lift.
  now destruct (DataFrame_of v).
Qed.

(** A loop of scalar assignments changes the table at hand and nothing
    else, also when it stops early. *)
Lemma for_each_setitem_top (key_of : string -> string) (l : dict) (f : DataFrame) :
  exists f',
    for_each l (fun kv => setitem_scalar (length h) (key_of (fst kv)) (snd kv))
             (above h dr f)
    = (settle (assign_all key_of l f) tt, above h dr f')
    /\ forall g, assign_all key_of l f = Ok g -> f' = g.
Proof.
  revert f. induction l as [|kv l IH]; intros f; simpl.
  - exists f. split; [reflexivity | now intros g [= <-]].
  - rewrite bind_run, setitem_scalar_top.
    destruct (frame_setitem_scalar f (key_of kv.1) kv.2) as [f1|e|] eqn:E;
      simpl.
    + apply IH.
    + exists f. split; [reflexivity | discriminate].
    + exists f. split; [reflexivity | discriminate].
Qed.

End top_of_heap.

Section runs.
Variables (h : list object) (dr : list plt_call) (l : loc) (d : dict).
Hypothesis at_l : h !! l = Some (ODict d).

Local Ltac stops extra :=
  exists extra; split;
  [ rewrite ?app_nil_r; reflexivity | intros ?; discriminate ].

Lemma flatten_hourly_data_run :
  exists extra,
    flatten_hourly_data l (World h dr)
    = (settle (flattened d) (length h), World (h ++ extra) dr)
    /\ forall f, flattened d = Ok f -> extra = [OFrame f].
Proof.
  unfold flatten_hourly_data, flattened.
  rewrite bind_run, (read_dict_at _ _ d) by exact at_l.
  rewrite bind_run. unfold lift at 1.
  destruct (dict_getitem d "hourly") as [hourly|e|]; simpl;
    [| stops (@nil object) | stops (@nil object)].
  rewrite bind_run, DataFrame_new_run.
  destruct (DataFrame_of hourly) as [f|e|]; simpl;
    [| stops (@nil object) | stops (@nil object)].
  cbv zeta. rewrite bind_run.
  destruct (for_each_setitem_top h dr (fun k => k) (metadata_of d) f)
    as (f1 & -> & Hf1).
  destruct (assign_all _ (metadata_of d) f) as [g|e|]; simpl;
    [| stops [OFrame f1] | stops [OFrame f1]].
  rewrite (Hf1 g eq_refl). clear Hf1 f1.
  rewrite bind_run. unfold lift at 1.
  destruct (dict_getitem d "hourly_units") as [hourly_units|e|]; simpl;
    [| stops [OFrame g] | stops [OFrame g]].
  rewrite bind_run. unfold lift at 1.
  destruct (items hourly_units) as [units|e|]; simpl;
    [| stops [OFrame g] | stops [OFrame g]].
  rewrite bind_run.
  destruct (for_each_setitem_top h dr unit_label units g) as (f2 & -> & Hf2).
  destruct (assign_all unit_label units g) as [g2|e|]; simpl;
    [| stops [OFrame f2] | stops [OFrame f2]].
  rewrite (Hf2 g2 eq_refl).
  exists [OFrame g2]. split; [reflexivity | now intros ? [= <-]].
Qed.

(** A run of [transform_data] on the document at [l] returns, raises or
    leaves the model as [shaped d] does; it only adds objects to the
    store and does not draw. *)
Lemma transform_data_run :
  exists extra,
    transform_data l (World h dr)
    = (settle (shaped d) (S (length h)), World (h ++ extra) dr)
    /\ forall t, shaped d = Ok t -> exists f, extra = [OFrame f; OFrame t].
Proof.
  unfold transform_data, shaped.
  destruct flatten_hourly_data_run as (extra & Hrun & Hextra).
  rewrite bind_run, Hrun. clear Hrun.
  destruct (flattened d) as [f|e|]; simpl;
    [| stops extra | stops extra].
  rewrite (Hextra f eq_refl). clear Hextra extra.
  fold (above h dr f). unfold split_time.
  rewrite bind_run, getitem_top.
  destruct (frame_getitem f "time") as [t|e|]; simpl;
    [| stops [OFrame f] | stops [OFrame f]].
  rewrite bind_run. unfold lift at 1.
  destruct (to_datetime t) as [t1|e|]; simpl;
    [| stops [OFrame f] | stops [OFrame f]].
  rewrite bind_run, setitem_top.
  destruct (frame_setitem f "time" t1) as [f1|e|]; simpl;
    [| stops [OFrame f] | stops [OFrame f]].
  rewrite bind_run, getitem_top.
  destruct (frame_getitem f1 "time") as [t2|e|]; simpl;
    [| stops [OFrame f1] | stops [OFrame f1]].
  rewrite bind_run. unfold lift at 1.
  destruct (dt_time t2) as [hr|e|]; simpl;
    [| stops [OFrame f1] | stops [OFrame f1]].
  rewrite bind_run, setitem_top.
  destruct (frame_setitem f1 "hour" hr) as [f2|e|]; simpl;
    [| stops [OFrame f1] | stops [OFrame f1]].
  rewrite bind_run, getitem_top.
  destruct (frame_getitem f2 "time") as [t3|e|]; simpl;
    [| stops [OFrame f2] | stops [OFrame f2]].
  rewrite bind_run. unfold lift at 1.
  destruct (dt_date t3) as [dd|e|]; simpl;
    [| stops [OFrame f2] | stops [OFrame f2]].
  rewrite bind_run, setitem_top.
  destruct (frame_setitem f2 "time" dd) as [f3|e|]; simpl;
    [| stops [OFrame f2] | stops [OFrame f2]].
  rewrite bind_run, rename_inplace_top, getitem_list_top.
  fold renaming.
  destruct (frame_getitem_list (frame_rename renaming f3) ordered_columns)
    as [t4|e|]; simpl.
  - exists [OFrame (frame_rename renaming f3); OFrame t4].
    split; [reflexivity | intros ? [= <-]; eauto].
  - stops [OFrame (frame_rename renaming f3)].
  - stops [OFrame (frame_rename renaming f3)].
Qed.

Lemma table_of_transform_data :
  table_of (transform_data l (World h dr)) = shaped d.
Proof.
  destruct transform_data_run as (extra & -> & Hextra).
  destruct (shaped d) as [t|e|]; simpl; try reflexivity.
  destruct (Hextra t eq_refl) as (f & ->).
  change (h ++ [OFrame f; OFrame t]) with (h ++ OFrame f :: [OFrame t]).
  replace (S (length h)) with (length (h ++ [OFrame f]))
    by (rewrite length_app; simpl; lia).
  change (h ++ OFrame f :: [OFrame t]) with (h ++ [OFrame f] ++ [OFrame t]).
  rewrite app_assoc, list_lookup_middle by reflexivity. reflexivity.
Qed.

End runs.

(** ** Dictionaries and labelled columns *)

Section assoc.
Context {A : Type}.
Implicit Types (m : list (string * A)) (k : string).

Lemma mem_keys k m :
  mem k (keys m) = match dict_get k m with Some _ => true | None => false end.
Proof.
  induction m as [|[k0 v] m IH]; simpl; [reflexivity|].
  destruct (String.eqb k k0); [reflexivity | exact IH].
Qed.

Lemma dict_get_absent k m : mem k (keys m) = false -> dict_get k m = None.
Proof. rewrite mem_keys. now destruct (dict_get k m). Qed.

Lemma dict_get_present k m :
  mem k (keys m) = true -> exists v, dict_get k m = Some v.
Proof. rewrite mem_keys. destruct (dict_get k m); [eauto | discriminate]. Qed.

Lemma dict_get_In k m v : dict_get k m = Some v -> In (k, v) m.
Proof.
  induction m as [|[k0 v0] m IH]; simpl; [discriminate|].
  destruct (String.eqb_spec k k0) as [->|_]; [intros [= ->]; now left|].
  intros H. right. now apply IH.
Qed.

Lemma keys_app m1 m2 : keys (m1 ++ m2) = keys m1 ++ keys m2.
Proof. apply map_app. Qed.

Lemma dict_get_app k m1 m2 :
  dict_get k (m1 ++ m2) =
  match dict_get k m1 with Some v => Some v | None => dict_get k m2 end.
Proof.
  induction m1 as [|[k0 v0] m1 IH]; simpl; [reflexivity|].
  now destruct (String.eqb k k0).
Qed.

Lemma dict_get_filter k m (keep : string -> bool) :
  dict_get k (List.filter (fun kv => keep (fst kv)) m) =
  if keep k then dict_get k m else None.
Proof.
  induction m as [|[k0 v0] m IH]; simpl; [now destruct (keep k)|].
  destruct (keep k0) eqn:E0; simpl;
    destruct (String.eqb_spec k k0) as [->|Hne]; rewrite ?E0; auto.
  rewrite IH. now rewrite E0.
Qed.

End assoc.

Lemma mem_app (k : string) (l1 l2 : list string) :
  mem k (l1 ++ l2) = mem k l1 || mem k l2.
Proof. apply existsb_app. Qed.

Lemma mem_In (k : string) (l : list string) : mem k l = true <-> In k l.
Proof.
  unfold mem. rewrite existsb_exists. split.
  - intros (x & Hx & ->%String.eqb_eq). exact Hx.
  - intros H. exists k. split; [exact H | apply String.eqb_refl].
Qed.

Lemma distinct_app_one (l : list string) (k : string) :
  distinct l = true -> mem k l = false -> distinct (l ++ [k]) = true.
Proof.
  induction l as [|k0 l IH]; simpl; [reflexivity|].
  intros [Hk0 Hl]%andb_true_iff Hk.
  apply orb_false_iff in Hk as [Hne Hk].
  rewrite mem_app, negb_orb, Hk0, (IH Hl Hk); simpl.
  now rewrite String.eqb_sym, Hne.
Qed.

Lemma select_dict_get (k : string) cols :
  distinct (keys cols) = true ->
  select k cols = match dict_get k cols with Some c => [(k, c)] | None => [] end.
Proof.
  induction cols as [|[k0 c0] cols IH]; simpl; [reflexivity|].
  intros [Hk0 Hd]%andb_true_iff. rewrite (String.eqb_sym k0 k).
  destruct (String.eqb_spec k k0) as [->|_]; [|now apply IH].
  rewrite (IH Hd), dict_get_absent; [reflexivity|].
  now apply negb_true_iff.
Qed.

Lemma keys_replace_col (k : string) (c : column) cols :
  keys (replace_col k c cols) = keys cols.
Proof.
  induction cols as [|[k0 c0] cols IH]; simpl; [reflexivity|].
  rewrite IH. destruct (String.eqb_spec k0 k) as [->|_]; reflexivity.
Qed.

Lemma dict_get_replace_col (k k' : string) (c : column) cols :
  dict_get k' (replace_col k c cols) =
  if String.eqb k' k then option_map (fun _ => c) (dict_get k cols)
  else dict_get k' cols.
Proof.
  induction cols as [|[k0 c0] cols IH]; simpl; [now destruct (String.eqb k' k)|].
  destruct (String.eqb_spec k0 k) as [->|Hne]; simpl.
  - rewrite String.eqb_refl. now destruct (String.eqb k' k).
  - rewrite IH. destruct (String.eqb_spec k' k) as [->|Hne'].
    + destruct (String.eqb_spec k k0) as [->|_]; [congruence | reflexivity].
    + reflexivity.
Qed.

(** Assigning a column of the right length to a tidy table: the label
    holds the new column afterwards, the other labels what they held. *)
Lemma frame_setitem_tidy (n : nat) f (k : string) (c : column) :
  tidy n f -> col_length c = n ->
  exists f', frame_setitem f k c = Ok f' /\ tidy n f' /\
    forall k', dict_get k' (columns f') =
               if String.eqb k' k then Some c else dict_get k' (columns f).
Proof.
  intros [Hn Hd] Hc. unfold frame_setitem.
  rewrite Hc, Hn, Nat.eqb_refl, (select_dict_get _ _ Hd).
  destruct (dict_get k (columns f)) as [c0|] eqn:E.
  - eexists. split; [reflexivity|]. split; [split; simpl; auto|].
    + now rewrite keys_replace_col.
    + intros k'. simpl. rewrite dict_get_replace_col, E. reflexivity.
  - eexists. split; [reflexivity|]. split; [split; simpl; auto|].
    + rewrite keys_app. apply distinct_app_one; [exact Hd|]. simpl.
      rewrite mem_keys, E. reflexivity.
    + intros k'. simpl. rewrite dict_get_app. simpl.
      destruct (String.eqb_spec k' k) as [->|_]; [now rewrite E|].
      now destruct (dict_get k' (columns f)).
Qed.

(** ** Unit labels and scalar assignments *)

Lemma length_append (a b : string) :
  String.length (a ++ b) = String.length a + String.length b.
Proof. induction a as [|c a IH]; simpl; [reflexivity | now rewrite IH]. Qed.

Lemma strip_unit_label (k : string) : strip_unit (unit_label k) = Some k.
Proof.
  induction k as [|a k IH]; [reflexivity|].
  change (unit_label (String a k)) with (String a (unit_label k)).
  cbn [strip_unit]. rewrite IH.
  destruct (String.eqb_spec (String a (unit_label k)) "_unit") as [E|_];
    [|reflexivity].
  apply (f_equal String.length) in E. unfold unit_label in E.
  simpl in E. rewrite length_append in E. simpl in E. lia.
Qed.

Lemma strip_unit_Some (k k0 : string) :
  strip_unit k = Some k0 -> k = unit_label k0.
Proof.
  revert k0. induction k as [|a k IH]; intros k0; [discriminate|].
  cbn [strip_unit].
  destruct (String.eqb_spec (String a k) "_unit") as [->|_];
    [now intros [= <-]|].
  destruct (strip_unit k) as [k1|]; [|discriminate].
  intros [= <-]. now rewrite (IH k1 eq_refl).
Qed.

Lemma unit_label_eqb (a b : string) :
  String.eqb (unit_label a) (unit_label b) = String.eqb a b.
Proof.
  destruct (String.eqb_spec a b) as [->|Hne]; [apply String.eqb_refl|].
  apply String.eqb_neq. intros E. apply Hne.
  apply (f_equal strip_unit) in E. rewrite !strip_unit_label in E. congruence.
Qed.

Lemma dict_get_unit_labels (k : string) (u : dict) :
  dict_get k (rekey unit_label u) =
  match strip_unit k with Some k0 => dict_get k0 u | None => None end.
Proof.
  induction u as [|[k1 v1] u IH]; simpl; [now destruct (strip_unit k)|].
  destruct (String.eqb_spec k (unit_label k1)) as [->|Hne].
  - now rewrite strip_unit_label, String.eqb_refl.
  - rewrite IH. destruct (strip_unit k) as [k0|] eqn:E; [|reflexivity].
    apply strip_unit_Some in E.
    destruct (String.eqb_spec k0 k1) as [->|_]; [contradiction | reflexivity].
Qed.

Lemma mem_unit_labels (k : string) (l : list string) :
  mem (unit_label k) (map unit_label l) = mem k l.
Proof.
  induction l as [|k0 l IH]; simpl; [reflexivity|].
  now rewrite unit_label_eqb, IH.
Qed.

Lemma distinct_unit_labels (l : list string) :
  distinct (map unit_label l) = distinct l.
Proof.
  induction l as [|k l IH]; simpl; [reflexivity|].
  now rewrite mem_unit_labels, IH.
Qed.

Lemma keys_rekey (key_of : string -> string) (m : dict) :
  keys (rekey key_of m) = map key_of (keys m).
Proof. unfold keys, rekey. rewrite !map_map. reflexivity. Qed.

(** After a loop of scalar assignments a label of the loop holds its scalar
    in every row, and every other label holds what it held. *)
Lemma assign_all_tidy (n : nat) (key_of : string -> string) (l : dict) f :
  tidy n f ->
  distinct (map key_of (keys l)) = true ->
  forallb (fun kv => is_scalar (snd kv)) l = true ->
  exists f', assign_all key_of l f = Ok f' /\ tidy n f' /\
    forall k, dict_get k (columns f') =
              match dict_get k (rekey key_of l) with
              | Some v => broadcast n v
              | None => dict_get k (columns f)
              end.
Proof.
  revert f. induction l as [|[k0 v0] l IH]; intros f Hf Hd Hs.
  - exists f. split; [reflexivity | split; [exact Hf | reflexivity]].
  - simpl in Hd, Hs. apply andb_true_iff in Hd as [Hk0 Hd].
    apply andb_true_iff in Hs as [Hv0 Hs].
    unfold is_scalar in Hv0.
    destruct (cell_of_json v0) as [c|] eqn:Ec; [|discriminate].
    simpl. unfold frame_setitem_scalar. rewrite Ec.
    destruct (frame_setitem_tidy n f (key_of k0) (Values (repeat c (index_len f))))
      as (f1 & -> & Hf1 & Hget1); [exact Hf | simpl; rewrite repeat_length; apply Hf |].
    simpl. destruct (IH f1 Hf1 Hd Hs) as (f' & -> & Hf' & Hget).
    exists f'. split; [reflexivity | split; [exact Hf'|]].
    intros k. rewrite Hget, Hget1. simpl.
    destruct (String.eqb_spec k (key_of k0)) as [->|_]; [|reflexivity].
    rewrite dict_get_absent.
    + unfold broadcast. rewrite Ec. simpl. now destruct Hf as [-> _].
    + rewrite keys_rekey. now apply negb_true_iff.
Qed.

(** ** The scenario of the specification *)

Example scenario_valid : valid_response scenario = true.
Proof. reflexivity. Qed.

Example scenario_table :
  table_of (transform_data 0 (World [ODict scenario] [])) =
  Ok (Frame 2
    [("time", Values [CDate (Date 2024 1 1); CDate (Date 2024 1 1)]);
     ("hour", Values [CTime (Time 0 0 0); CTime (Time 1 0 0)]);
     ("temperature", Values [CNum 10.5; CNum 11]);
     ("latitude", Values [CNum 4; CNum 4]);
     ("longitude", Values [CNum (-10); CNum (-10)]);
     ("generationtime_ms", Values [CNum 0.5; CNum 0.5]);
     ("utc_offset_seconds", Values [CInt 0; CInt 0]);
     ("timezone", Values [CStr "UTC"; CStr "UTC"]);
     ("timezone_abbreviation", Values [CStr "UTC"; CStr "UTC"]);
     ("elevation", Values [CNum 0; CNum 0]);
     ("time_unit", Values [CStr "iso8601"; CStr "iso8601"]);
     ("temperature_unit", Values [CStr "°C"; CStr "°C"])]).
Proof. vm_compute. reflexivity. Qed.

(** ** The table before the renaming *)

Lemma mapM_scalars (vs : list json) :
  forallb is_scalar vs = true ->
  exists cells, mapM cell_of_json vs = Some cells /\ length cells = length vs.
Proof.
  induction vs as [|v vs IH]; simpl; [exists []; auto|].
  intros [Hv Hvs]%andb_true_iff. unfold is_scalar in Hv.
  destruct (cell_of_json v) as [c|]; [|discriminate].
  destruct (IH Hvs) as (cells & -> & Hlen). exists (c :: cells).
  simpl. auto.
Qed.

Lemma mapM_float64_cells (vs : list json) :
  forallb is_scalar vs = true -> forallb numeric vs = true ->
  exists cells, mapM float64_cell vs = Some cells /\ length cells = length vs.
Proof.
  induction vs as [|v vs IH]; simpl; [exists []; auto|].
  intros [Hv Hvs]%andb_true_iff [Nv Nvs]%andb_true_iff.
  destruct (IH Hvs Nvs) as (cells & -> & Hlen).
  unfold is_scalar in Hv.
  destruct v as [| |z| | | |]; try discriminate; cbn [float64_cell cell_of_json] in *.
  - exists (CNone :: cells). simpl. auto.
  - destruct (int64 z); [|discriminate].
    exists (CNum (inject_Z (round_to_double z)) :: cells). simpl. auto.
  - exists (CNum q :: cells). simpl. auto.
Qed.

(** The list of an array of scalars becomes a column, cell for entry. *)
Lemma cells_of_scalars (vs : list json) :
  forallb is_scalar vs = true ->
  exists cells, cells_of_array vs = Some cells /\ length cells = length vs.
Proof.
  intros Hvs. unfold cells_of_array.
  destruct (forallb numeric vs) eqn:Hn; cbn [andb]; [|now apply mapM_scalars].
  destruct (existsb floating vs); [|now apply mapM_scalars].
  now apply mapM_float64_cells.
Qed.

Lemma cells_of_array_length (vs : list json) (cells : list cell) :
  cells_of_array vs = Some cells -> length cells = length vs.
Proof.
  unfold cells_of_array.
  destruct (forallb numeric vs && existsb floating vs);
    intros H%mapM_Some_1; symmetry; eapply Forall2_length, H.
Qed.

Lemma column_of_scalar_array (n : nat) (v : json) :
  scalar_array n v = true ->
  exists cells, column_of_json v = Some (Values cells) /\ length cells = n.
Proof.
  destruct v as [| | | | |vs|]; try discriminate. simpl.
  intros [Hn Hvs]%andb_true_iff. apply Nat.eqb_eq in Hn.
  destruct (cells_of_scalars vs Hvs) as (cells & -> & Hlen).
  exists cells. simpl. split; [reflexivity | congruence].
Qed.

Lemma columns_of_dict_arrays (n : nat) (h : dict) :
  forallb (fun kv => scalar_array n (snd kv)) h = true ->
  exists cols, columns_of_dict h = Some cols /\ keys cols = keys h /\
    forallb (fun kc => col_length (snd kc) =? n) cols = true /\
    forall k, dict_get k cols =
              match dict_get k h with Some v => column_of_json v | None => None end.
Proof.
  induction h as [|[k0 v0] h IH]; simpl.
  - exists []. auto.
  - intros [Hv0 Hh]%andb_true_iff.
    destruct (column_of_scalar_array n v0 Hv0) as (cells & E & Hlen).
    destruct (IH Hh) as (cols & -> & Hkeys & Hlens & Hget). rewrite E.
    exists ((k0, Values cells) :: cols). simpl.
    rewrite Hkeys, Hlens, Hlen, Nat.eqb_refl.
    repeat split; try reflexivity.
    intros k. destruct (String.eqb k k0); [now rewrite E | apply Hget].
Qed.

Lemma documented_times (ts : list json) :
  forallb documented_time ts = true ->
  exists (ss : list string) (stamps : list Timestamp),
    ts = map JStr ss /\ mapM (parse_timestamp IsoMinutes) ss = Some stamps /\
    Forall2 (fun v st => stamp_of v = Some st) ts stamps.
Proof.
  induction ts as [|v ts IH]; simpl.
  - exists [], []. auto.
  - intros [Hv Hts]%andb_true_iff. unfold documented_time in Hv.
    destruct (stamp_of v) as [st|] eqn:Ev; [|discriminate].
    destruct (IH Hts) as (ss & stamps & -> & Hparse & Hall).
    destruct v as [| | | |s| |]; try discriminate. simpl in Ev.
    exists (s :: ss), (st :: stamps). simpl. rewrite Ev, Hparse. simpl.
    repeat split; auto.
Qed.

Lemma mapM_cell_of_strings (ss : list string) :
  mapM cell_of_json (map JStr ss) = Some (map CStr ss).
Proof. induction ss as [|s ss IH]; simpl; [reflexivity | now rewrite IH]. Qed.

Lemma cells_of_strings (ss : list string) :
  cells_of_array (map JStr ss) = Some (map CStr ss).
Proof.
  unfold cells_of_array.
  assert (E : forallb numeric (map JStr ss) && existsb floating (map JStr ss)
              = false) by (destruct ss; reflexivity).
  rewrite E. apply mapM_cell_of_strings.
Qed.

Lemma mapM_cell_str_strings (ss : list string) :
  mapM cell_str (map CStr ss) = Some ss.
Proof. induction ss as [|s ss IH]; simpl; [reflexivity | now rewrite IH]. Qed.

Lemma mapM_Some_length {A B : Type} (g : A -> option B) (l : list A) (k : list B) :
  mapM g l = Some k -> length k = length l.
Proof. intros H%mapM_Some_1. symmetry. eapply Forall2_length, H. Qed.

Lemma distinct_filter (keep : string -> bool) (l : list string) :
  distinct l = true -> distinct (List.filter keep l) = true.
Proof.
  induction l as [|k l IH]; simpl; [reflexivity|].
  intros [Hk Hl]%andb_true_iff. specialize (IH Hl).
  destruct (keep k); simpl; [|exact IH].
  rewrite IH, andb_true_r. apply negb_true_iff.
  apply negb_true_iff in Hk. apply not_true_is_false. intros Hin%mem_In.
  apply filter_In in Hin as [Hin _]. apply mem_In in Hin. congruence.
Qed.

Lemma keys_filter (keep : string -> bool) (m : dict) :
  keys (List.filter (fun kv => keep (fst kv)) m) = List.filter keep (keys m).
Proof.
  induction m as [|[k v] m IH]; simpl; [reflexivity|].
  destruct (keep k); simpl; now rewrite IH.
Qed.

Lemma rekey_same (m : dict) : rekey (fun k => k) m = m.
Proof. induction m as [|[k v] m IH]; simpl; [reflexivity | now rewrite IH]. Qed.

Lemma frame_getitem_tidy (n : nat) f (k : string) :
  tidy n f ->
  frame_getitem f k =
  match dict_get k (columns f) with Some c => Ok c | None => Raise (KeyError [k]) end.
Proof.
  intros [_ Hd]. unfold frame_getitem. rewrite (select_dict_get _ _ Hd).
  now destruct (dict_get k (columns f)).
Qed.

Section well_shaped_documents.
Variable d : dict.
Hypothesis shape : well_shaped d = true.

Lemma shape_parts :
  well_formed_metadata d = true /\ well_formed_hourly d = true /\
  well_formed_units d = true /\ fresh_names d = true.
Proof.
  unfold well_shaped in shape. rewrite !andb_true_iff in shape. tauto.
Qed.

Lemma hourly_member : dict_get "hourly" d = Some (JObj (hourly_of d)).
Proof.
  destruct shape_parts as (_ & H & _). unfold well_formed_hourly in H.
  rewrite !andb_true_iff in H. destruct H as [[[[H _] _] _] _].
  unfold hourly_of. now destruct (dict_get "hourly" d) as [[]|].
Qed.

Lemma units_member : dict_get "hourly_units" d = Some (JObj (units_of d)).
Proof.
  destruct shape_parts as (_ & _ & H & _). unfold well_formed_units in H.
  rewrite !andb_true_iff in H. destruct H as [[H _] _].
  unfold units_of. now destruct (dict_get "hourly_units" d) as [[]|].
Qed.

Lemma time_member : dict_get "time" (hourly_of d) = Some (JArr (times_of d)).
Proof.
  destruct shape_parts as (_ & H & _). unfold well_formed_hourly in H.
  rewrite !andb_true_iff in H. destruct H as [[[[_ H] _] _] _].
  unfold times_of. now destruct (dict_get "time" (hourly_of d)) as [[]|].
Qed.

Lemma metadata_scalar (k : string) (v : json) :
  dict_get k (metadata_of d) = Some v ->
  is_scalar v = true /\ mem k metadata_names = true.
Proof.
  destruct shape_parts as (H & _). unfold well_formed_metadata in H.
  apply andb_true_iff in H as [_ H]. rewrite forallb_forall in H.
  intros Hin%dict_get_In. apply H in Hin. now apply andb_true_iff in Hin.
Qed.

Lemma metadata_other (k : string) :
  mem k metadata_names = false -> dict_get k (metadata_of d) = None.
Proof.
  intros Hk. destruct (dict_get k (metadata_of d)) as [v|] eqn:E; [|reflexivity].
  apply metadata_scalar in E as [_ E]. congruence.
Qed.

Lemma metadata_member (k : string) :
  mem k metadata_names = true ->
  dict_get k (metadata_of d) = dict_get k d.
Proof.
  intros Hk. unfold metadata_of.
  rewrite (dict_get_filter k d (fun k => negb (mem k ["hourly"; "hourly_units"]))).
  destruct (mem k ["hourly"; "hourly_units"]) eqn:E; [|reflexivity].
  apply mem_In in E. simpl in E. destruct E as [<-|[<-|[]]]; discriminate.
Qed.

End well_shaped_documents.

Lemma flattened_well_shaped (d : dict) :
  well_shaped d = true ->
  exists f, flattened d = Ok f /\ tidy (length (times_of d)) f /\
    forall k, dict_get k (columns f) =
      match dict_get k (rekey unit_label (units_of d)) with
      | Some v => broadcast (length (times_of d)) v
      | None =>
          match dict_get k (metadata_of d) with
          | Some v => broadcast (length (times_of d)) v
          | None =>
              match dict_get k (hourly_of d) with
              | Some v => column_of_json v
              | None => None
              end
          end
      end.
Proof.
  intros shape. set (n := length (times_of d)).
  destruct (shape_parts d shape) as (Hm & Hh & Hu & _).
  unfold well_formed_hourly in Hh. rewrite !andb_true_iff in Hh.
  destruct Hh as [[[_ Hdh] _] Harrays].
  destruct (columns_of_dict_arrays n _ Harrays)
    as (cols0 & Ecols & Hkeys & Hlens & Hget0).
  unfold flattened, dict_getitem.
  rewrite (hourly_member d shape), (units_member d shape). simpl.
  rewrite Ecols.
  assert (exists f0, match cols0 with
                     | [] => Ok (Frame 0 [])
                     | (k, c) :: cols =>
                         if forallb (fun kc => col_length (snd kc) =? col_length c) cols
                         then Ok (Frame (col_length c) ((k, c) :: cols))
                         else Raise ValueError
                     end = Ok f0 /\ tidy n f0 /\ columns f0 = cols0)
    as (f0 & -> & Hf0 & Hcols0).
  { destruct cols0 as [|[k0 c0] cols0].
    - specialize (Hget0 "time"). rewrite (time_member d shape) in Hget0.
      rewrite forallb_forall in Harrays.
      pose proof (Harrays _ (dict_get_In _ _ _ (time_member d shape))) as Ht.
      apply column_of_scalar_array in Ht as (cells & Ht & _).
      simpl snd in Ht. rewrite Ht in Hget0. discriminate.
    - simpl in Hlens. apply andb_true_iff in Hlens as [->%Nat.eqb_eq Hlens].
      rewrite Hlens. eexists. split; [reflexivity|]. split; [|reflexivity].
      split; [reflexivity|]. simpl columns. now rewrite Hkeys. }
  simpl.
  unfold well_formed_metadata in Hm. apply andb_true_iff in Hm as [Hdd Hmeta].
  destruct (assign_all_tidy n (fun k => k) (metadata_of d) f0)
    as (f1 & -> & Hf1 & Hget1); [exact Hf0 | | |].
  { rewrite map_id. unfold metadata_of.
    rewrite (keys_filter (fun k => negb (mem k ["hourly"; "hourly_units"]))).
    now apply distinct_filter. }
  { rewrite forallb_forall in Hmeta. apply forallb_forall.
    intros kv Hin. apply Hmeta in Hin. now apply andb_true_iff in Hin. }
  simpl.
  unfold well_formed_units in Hu. rewrite !andb_true_iff in Hu.
  destruct Hu as [[_ Hdu] Hscal].
  destruct (assign_all_tidy n unit_label (units_of d) f1)
    as (f2 & -> & Hf2 & Hget2); [exact Hf1 | | exact Hscal |].
  { now rewrite distinct_unit_labels. }
  exists f2. split; [reflexivity|]. split; [exact Hf2|].
  intros k. rewrite Hget2, Hget1, rekey_same, Hcols0, Hget0. reflexivity.
Qed.

Lemma split_time_well_shaped (d : dict) :
  well_shaped d = true ->
  exists f stamps,
    and_then (flattened d) split_time = Ok f /\
    tidy (length (times_of d)) f /\
    Forall2 (fun v st => stamp_of v = Some st) (times_of d) stamps /\
    forall k, dict_get k (columns f) = column_before d stamps k.
Proof.
  intros shape. set (n := length (times_of d)).
  destruct (flattened_well_shaped d shape) as (f2 & -> & Hf2 & Hget2).
  fold n in Hf2, Hget2.
  destruct (shape_parts d shape) as (_ & Hh & _).
  unfold well_formed_hourly in Hh. rewrite !andb_true_iff in Hh.
  destruct Hh as [[_ Htimes] _].
  destruct (documented_times _ Htimes) as (ss & stamps & Ets & Hparse & Hstamps).
  assert (Hlen : length stamps = n).
  { apply mapM_Some_length in Hparse. unfold n. rewrite Ets, length_map.
    exact Hparse. }
  assert (Htime2 : dict_get "time" (columns f2) = Some (Values (map CStr ss))).
  { rewrite Hget2, dict_get_unit_labels. cbn [strip_unit String.eqb Ascii.eqb
      Bool.eqb option_map].
    rewrite (metadata_other d shape "time" eq_refl), (time_member d shape), Ets.
    cbn [column_of_json]. now rewrite cells_of_strings. }
  simpl and_then. unfold split_time.
  rewrite (frame_getitem_tidy n f2 "time" Hf2), Htime2. simpl and_then.
  unfold to_datetime. rewrite mapM_cell_str_strings, Hparse. simpl and_then.
  destruct (frame_setitem_tidy n f2 "time" (Datetimes stamps) Hf2 Hlen)
    as (f3 & -> & Hf3 & Hget3).
  simpl and_then.
  rewrite (frame_getitem_tidy n f3 "time" Hf3), Hget3. simpl.
  destruct (frame_setitem_tidy n f3 "hour"
              (Values (map (fun ts => CTime (ts_time ts)) stamps)) Hf3)
    as (f4 & -> & Hf4 & Hget4); [simpl; now rewrite length_map|].
  simpl and_then.
  rewrite (frame_getitem_tidy n f4 "time" Hf4), Hget4, Hget3. simpl.
  destruct (frame_setitem_tidy n f4 "time"
              (Values (map (fun ts => CDate (ts_date ts)) stamps)) Hf4)
    as (f5 & -> & Hf5 & Hget5); [simpl; now rewrite length_map|].
  exists f5, stamps. split; [reflexivity|]. split; [exact Hf5|].
  split; [exact Hstamps|].
  intros k. rewrite Hget5, Hget4, Hget3, Hget2. unfold column_before. fold n.
  destruct (String.eqb k "time"); [reflexivity|].
  destruct (String.eqb k "hour"); reflexivity.
Qed.

(** ** Renaming and projecting *)

Local Arguments String.eqb : simpl never.

Local Ltac by_labels :=
  repeat match goal with
    | |- context [String.eqb ?a ?b] =>
        destruct (String.eqb_spec a b); subst; simpl in *;
        try discriminate; try congruence
    | H : context [String.eqb ?a ?b] |- _ =>
        destruct (String.eqb_spec a b); subst; simpl in *;
        try discriminate; try congruence
    end.

(** When neither new label is in use, the renaming moves the two columns
    and keeps the others. *)
Lemma dict_get_renamed (k : string) cols :
  mem "temperature" (keys cols) = false ->
  mem "temperature_unit" (keys cols) = false ->
  dict_get k (map (fun kc => (renamed (fst kc), snd kc)) cols) =
  if String.eqb k "temperature" then dict_get "temperature_2m" cols
  else if String.eqb k "temperature_unit" then dict_get "temperature_2m_unit" cols
  else if String.eqb k "temperature_2m" || String.eqb k "temperature_2m_unit"
       then None
  else dict_get k cols.
Proof.
  induction cols as [|[k0 c0] cols IH]; simpl.
  - intros _ _. by_labels; reflexivity.
  - intros [H1 H1']%orb_false_iff [H2 H2']%orb_false_iff.
    rewrite (IH H1' H2'). clear IH. unfold renamed. simpl.
    by_labels; reflexivity.
Qed.

Lemma distinct_renamed cols :
  mem "temperature" (keys cols) = false ->
  mem "temperature_unit" (keys cols) = false ->
  distinct (keys cols) = true ->
  distinct (keys (map (fun kc => (renamed (fst kc), snd kc)) cols)) = true.
Proof.
  induction cols as [|[k0 c0] cols IH]; simpl; [reflexivity|].
  intros [H1 H1']%orb_false_iff [H2 H2']%orb_false_iff [H3 H3']%andb_true_iff.
  rewrite (IH H1' H2' H3'), andb_true_r. clear IH.
  rewrite mem_keys, (dict_get_renamed _ _ H1' H2').
  apply negb_true_iff in H3.
  pose proof (dict_get_absent _ _ H3) as E0.
  unfold renamed. simpl.
  by_labels; rewrite ?E0; try reflexivity.
Qed.

Lemma absent_tidy (n : nat) f (k : string) :
  tidy n f ->
  absent (columns f) k =
  match dict_get k (columns f) with Some _ => false | None => true end.
Proof.
  intros [_ Hd]. unfold absent. rewrite (select_dict_get _ _ Hd).
  now destruct (dict_get k (columns f)).
Qed.

Lemma frame_getitem_list_tidy (n : nat) f (names : list string) :
  tidy n f ->
  frame_getitem_list f names =
  match List.filter (absent (columns f)) names with
  | [] => Ok (Frame n (flat_map
                 (fun k => match dict_get k (columns f) with
                           | Some c => [(k, c)]
                           | None => []
                           end) names))
  | missing => Raise (KeyError missing)
  end.
Proof.
  intros Hf. unfold frame_getitem_list.
  destruct (List.filter _ names); [|reflexivity].
  destruct Hf as [-> Hd]. do 2 f_equal.
  apply flat_map_ext. intros k. apply (select_dict_get _ _ Hd).
Qed.

Lemma column_before_label (d : dict) (stamps : list Timestamp) (k : string)
      (o : option string) :
  String.eqb k "time" = false -> String.eqb k "hour" = false ->
  strip_unit k = o ->
  column_before d stamps k =
  match match o with Some k0 => dict_get k0 (units_of d) | None => None end with
  | Some v => broadcast (length (times_of d)) v
  | None =>
      match dict_get k (metadata_of d) with
      | Some v => broadcast (length (times_of d)) v
      | None =>
          match dict_get k (hourly_of d) with
          | Some v => column_of_json v
          | None => None
          end
      end
  end.
Proof.
  intros E1 E2 <-. unfold column_before.
  now rewrite E1, E2, dict_get_unit_labels.
Qed.

Lemma frame_getitem_list_found (n : nat) f (names : list string) cols :
  tidy n f ->
  Forall2 (fun k kc => dict_get k (columns f) = Some (snd kc) /\ fst kc = k)
          names cols ->
  frame_getitem_list f names = Ok (Frame n cols).
Proof.
  intros Hf Hall. rewrite (frame_getitem_list_tidy n f names Hf).
  assert (List.filter (absent (columns f)) names = [] /\
          flat_map (fun k => match dict_get k (columns f) with
                             | Some c => [(k, c)]
                             | None => []
                             end) names = cols) as [-> ->]; [|reflexivity].
  induction Hall as [|k [k' c] names cols [E Ek] _ [IH1 IH2]]; [auto|].
  cbn [fst snd] in E, Ek. subst k'.
  cbn [List.filter flat_map]. rewrite (absent_tidy n f k Hf), E, IH1, IH2.
  auto.
Qed.

Lemma renamed_well_shaped (d : dict) :
  well_shaped d = true ->
  exists f stamps,
    and_then (flattened d) split_time = Ok f /\
    tidy (length (times_of d)) (frame_rename renaming f) /\
    Forall2 (fun v st => stamp_of v = Some st) (times_of d) stamps /\
    forall k, dict_get k (columns (frame_rename renaming f)) =
              column_after d stamps k.
Proof.
  intros shape.
  destruct (split_time_well_shaped d shape) as (f & stamps & E & Hf & Hst & Hget).
  destruct (shape_parts d shape) as (_ & _ & _ & Hfresh).
  unfold fresh_names in Hfresh. rewrite !andb_true_iff, !negb_true_iff in Hfresh.
  destruct Hfresh as [[Hh1 Hh2] Hu1].
  assert (H1 : mem "temperature" (keys (columns f)) = false).
  { rewrite mem_keys, Hget.
    rewrite (column_before_label d stamps "temperature" None) by reflexivity.
    rewrite (metadata_other d shape "temperature" eq_refl).
    now rewrite (dict_get_absent _ _ Hh1). }
  assert (H2 : mem "temperature_unit" (keys (columns f)) = false).
  { rewrite mem_keys, Hget.
    rewrite (column_before_label d stamps "temperature_unit" (Some "temperature"))
      by reflexivity.
    rewrite (dict_get_absent _ _ Hu1).
    rewrite (metadata_other d shape "temperature_unit" eq_refl).
    now rewrite (dict_get_absent _ _ Hh2). }
  exists f, stamps. split; [exact E|]. split; [|split; [exact Hst|]].
  - destruct Hf as [Hn Hd]. split; [exact Hn|].
    apply (distinct_renamed _ H1 H2 Hd).
  - intros k.
    change (columns (frame_rename renaming f))
      with (map (fun kc => (renamed (fst kc), snd kc)) (columns f)).
    rewrite (dict_get_renamed k _ H1 H2), !Hget. reflexivity.
Qed.

(** ** The run on a valid response *)

Lemma and_then_assoc {A B C : Type} (o : outcome A) (g : A -> outcome B)
      (k : B -> outcome C) :
  and_then (and_then o g) k = and_then o (fun a => and_then (g a) k).
Proof. now destruct o. Qed.

Lemma shaped_eq (d : dict) :
  shaped d =
  and_then (and_then (flattened d) split_time)
           (fun f => frame_getitem_list (frame_rename renaming f) ordered_columns).
Proof. unfold shaped. now rewrite and_then_assoc. Qed.

Lemma broadcast_scalar (n : nat) (m : dict) (k : string) (v : json) :
  dict_get k m = Some v -> is_scalar v = true ->
  broadcast n v = Some (Values (repeat (scalar_at k m) n)).
Proof.
  intros E Hv. unfold broadcast, scalar_at, is_scalar in *. rewrite E.
  now destruct (cell_of_json v).
Qed.

Lemma column_after_kept (d : dict) (stamps : list Timestamp) (k : string) :
  String.eqb k "temperature" = false ->
  String.eqb k "temperature_unit" = false ->
  String.eqb k "temperature_2m" = false ->
  String.eqb k "temperature_2m_unit" = false ->
  column_after d stamps k = column_before d stamps k.
Proof. intros E1 E2 E3 E4. unfold column_after. now rewrite E1, E2, E3, E4. Qed.

Section valid_documents.
Variable d : dict.
Hypothesis valid : valid_response d = true.

Let n := length (times_of d).

Lemma valid_parts :
  well_shaped d = true /\
  (forall k, In k metadata_names -> mem k (keys d) = true) /\
  mem "temperature_2m" (keys (hourly_of d)) = true /\
  mem "time" (keys (units_of d)) = true /\
  mem "temperature_2m" (keys (units_of d)) = true.
Proof.
  unfold valid_response in valid. rewrite !andb_true_iff in valid.
  destruct valid as [[[[[H1 H2] H3] H4] H5] _].
  rewrite forallb_forall in H2. auto.
Qed.

Let shape : well_shaped d = true := proj1 valid_parts.

Lemma metadata_column (stamps : list Timestamp) (k : string) :
  In k metadata_names ->
  column_after d stamps k = Some (Values (repeat (scalar_at k d) n)).
Proof.
  intros Hk. pose proof valid_parts as (_ & Hmeta & _).
  pose proof (Hmeta k Hk) as Hin. apply dict_get_present in Hin as (v & Ev).
  pose proof (proj2 (mem_In k metadata_names) Hk) as Hmem.
  pose proof (metadata_member d k Hmem) as Em. rewrite Ev in Em.
  pose proof (metadata_scalar d shape k v Em) as [Hv _].
  rewrite <- (broadcast_scalar n d k v Ev Hv). clear Hmeta Ev Hv Hmem.
  simpl in Hk.
  destruct Hk as [<-|[<-|[<-|[<-|[<-|[<-|[<-|[]]]]]]]];
    (rewrite column_after_kept by reflexivity);
    (erewrite column_before_label; [|reflexivity..]); now rewrite Em.
Qed.

Lemma unit_column (stamps : list Timestamp) (k : string) :
  String.eqb (unit_label k) "time" = false ->
  String.eqb (unit_label k) "hour" = false ->
  mem k (keys (units_of d)) = true ->
  column_before d stamps (unit_label k)
  = Some (Values (repeat (scalar_at k (units_of d)) n)).
Proof.
  intros E1 E2 (v & Ev)%dict_get_present.
  rewrite (column_before_label d stamps (unit_label k) (Some k) E1 E2
             (strip_unit_label k)), Ev.
  apply broadcast_scalar; [exact Ev|].
  destruct (shape_parts d shape) as (_ & _ & Hu & _).
  unfold well_formed_units in Hu. rewrite !andb_true_iff in Hu.
  destruct Hu as [_ Hu]. rewrite forallb_forall in Hu.
  apply (Hu (k, v)). now apply dict_get_In.
Qed.

Lemma temperature_column (stamps : list Timestamp) :
  column_before d stamps "temperature_2m"
  = Some (Values (series_at "temperature_2m" (hourly_of d))).
Proof.
  pose proof valid_parts as (_ & _ & (v & Ev)%dict_get_present & _).
  rewrite (column_before_label d stamps "temperature_2m" None) by reflexivity.
  rewrite (metadata_other d shape "temperature_2m" eq_refl), Ev.
  destruct (shape_parts d shape) as (_ & Hh & _).
  unfold well_formed_hourly in Hh. rewrite !andb_true_iff in Hh.
  destruct Hh as [_ Harrays]. rewrite forallb_forall in Harrays.
  pose proof (Harrays _ (dict_get_In _ _ _ Ev)) as Hv. simpl snd in Hv.
  unfold series_at. rewrite Ev.
  destruct v as [| | | | |vs|]; try discriminate.
  apply column_of_scalar_array in Hv as (cells & E & _).
  rewrite E. cbn [column_of_json] in E.
  destruct (cells_of_array vs); [|discriminate].
  simpl in E. injection E as <-. reflexivity.
Qed.

(** On a valid response the run yields the table of hourly records. *)
Lemma shaped_valid :
  exists stamps,
    Forall2 (fun v st => stamp_of v = Some st) (times_of d) stamps /\
    shaped d = Ok (hourly_records d stamps).
Proof.
  destruct (renamed_well_shaped d shape) as (f & stamps & E & Hg & Hst & Hget).
  pose proof valid_parts as (_ & _ & _ & Hut & Hutemp).
  exists stamps. split; [exact Hst|].
  rewrite shaped_eq, E. simpl and_then.
  apply (frame_getitem_list_found n _ _ _ Hg).
  unfold hourly_records, ordered_columns. cbn [columns].
  pose proof (temperature_column stamps) as Etemp.
  pose proof (unit_column stamps "time" eq_refl eq_refl Hut) as Etu.
  pose proof (unit_column stamps "temperature_2m" eq_refl eq_refl Hutemp) as Eu.
  do 2 (constructor; [split; [rewrite Hget|]; reflexivity|]).
  constructor; [split; [rewrite Hget; exact Etemp | reflexivity]|].
  do 7 (constructor;
        [split; [rewrite Hget; apply metadata_column; simpl; tauto
                | reflexivity]|]).
  constructor; [split; [rewrite Hget; exact Etu | reflexivity]|].
  constructor; [split; [rewrite Hget; exact Eu | reflexivity]|].
  constructor.
Qed.

End valid_documents.

(** ** The date and the time of day, joined again *)

Local Arguments parse_timestamp : simpl never.
Local Arguments stamp_text : simpl never.
Local Arguments date_isoformat : simpl never.
Local Arguments time_isoformat : simpl never.

Lemma parse_stamp_text (st : Timestamp) :
  valid_date (ts_date st) = true -> valid_time (ts_time st) = true ->
  parse_timestamp SpaceSeconds (stamp_text st) = Some st.
Proof. destruct st as [dd tt]. apply parse_isoformat. Qed.

Lemma parse_stamp_text_iso (st : Timestamp) :
  valid_date (ts_date st) = true ->
  parse_timestamp IsoMinutes (stamp_text st) = None.
Proof.
  intros Hd. unfold parse_timestamp, stamp_text, date_isoformat, time_isoformat.
  rewrite !list_ascii_of_string_app, !list_ascii_of_string_of_list_ascii.
  rewrite <- app_assoc, parse_date_chars by assumption.
  unfold time_chars, pad2. cbn [app list_ascii_of_string parse_time_part].
  reflexivity.
Qed.

Lemma mapM_step {A B : Type} (g : A -> option B) (x : A) (l : list A) :
  mapM g (x :: l) =
  match g x with
  | Some y => match mapM g l with Some k => Some (y :: k) | None => None end
  | None => None
  end.
Proof. reflexivity. Qed.

Lemma stamps_valid (vs : list json) (stamps : list Timestamp) :
  Forall2 (fun v st => stamp_of v = Some st) vs stamps ->
  Forall (fun st => valid_date (ts_date st) = true /\
                    valid_time (ts_time st) = true) stamps.
Proof.
  induction 1 as [|v st vs stamps Hv _ IH]; constructor; [|exact IH].
  destruct v; try discriminate. eapply parse_timestamp_valid, Hv.
Qed.

Lemma to_datetime_stamp_texts (stamps : list Timestamp) :
  Forall (fun st => valid_date (ts_date st) = true /\
                    valid_time (ts_time st) = true) stamps ->
  to_datetime (Values (map (fun st => CStr (stamp_text st)) stamps))
  = Ok (Datetimes stamps).
Proof.
  intros Hv. unfold to_datetime.
  rewrite <- (map_map stamp_text CStr), mapM_cell_str_strings.
  assert (mapM (parse_timestamp SpaceSeconds) (map stamp_text stamps) = Some stamps)
    as ->.
  { induction Hv as [|st stamps [Hd Ht] _ IH]; [reflexivity|].
    cbn [map]. now rewrite mapM_step, (parse_stamp_text st Hd Ht), IH. }
  destruct Hv as [|st stamps [Hd _] _]; [reflexivity|].
  cbn [map]. now rewrite mapM_step, (parse_stamp_text_iso st Hd).
Qed.

Lemma read_frame_at (w : world) (l : loc) (t : DataFrame) :
  heap w !! l = Some (OFrame t) -> read_frame l w = (Ok t, w).
Proof. intros H. unfold read_frame. now rewrite H. Qed.

Lemma getitem_at (w : world) (l : loc) (t : DataFrame) (k : string) :
  heap w !! l = Some (OFrame t) -> getitem l k w = (frame_getitem t k, w).
Proof. intros H. unfold getitem. now rewrite bind_run, (read_frame_at w l t H). Qed.

(** Line 94 on a table that holds the dates and the times of day of
    [stamps]: the timestamps come back. *)
Lemma combined_datetime_at (w : world) (l : loc) (t : DataFrame)
      (stamps : list Timestamp) :
  heap w !! l = Some (OFrame t) ->
  frame_getitem t "time" = Ok (Values (map (fun st => CDate (ts_date st)) stamps)) ->
  frame_getitem t "hour" = Ok (Values (map (fun st => CTime (ts_time st)) stamps)) ->
  Forall (fun st => valid_date (ts_date st) = true /\
                    valid_time (ts_time st) = true) stamps ->
  combined_datetime l w = (Ok (Datetimes stamps), w).
Proof.
  intros Hl Edate Etime Hv. unfold combined_datetime.
  rewrite bind_run, (getitem_at w l t _ Hl), Edate.
  rewrite bind_run. unfold lift at 1. unfold astype_str.
  assert (forall l0 : list Timestamp,
             mapM py_str (map (fun st => CDate (ts_date st)) l0)
             = Some (map (fun st => date_isoformat (ts_date st)) l0)) as ->.
  { induction l0 as [|st l0 IH]; simpl; [reflexivity | now rewrite IH]. }
  rewrite bind_run. unfold lift at 1. unfold add_str.
  rewrite mapM_cell_str_strings.
  rewrite bind_run, (getitem_at w l t _ Hl), Etime.
  rewrite bind_run. unfold lift at 1. unfold astype_str.
  assert (forall l0 : list Timestamp,
             mapM py_str (map (fun st => CTime (ts_time st)) l0)
             = Some (map (fun st => time_isoformat (ts_time st)) l0)) as ->.
  { induction l0 as [|st l0 IH]; simpl; [reflexivity | now rewrite IH]. }
  rewrite bind_run. unfold lift at 1. unfold add_series.
  rewrite !map_map.
  rewrite <- (map_map (fun st => (date_isoformat (ts_date st) ++ " ")%string) CStr).
  rewrite <- (map_map (fun st => time_isoformat (ts_time st)) CStr).
  rewrite !mapM_cell_str_strings, !length_map, Nat.eqb_refl.
  unfold lift.
  assert (forall l0 : list Timestamp,
             map (fun p : string * string => CStr (fst p ++ snd p)%string)
                 (combine (map (fun st => (date_isoformat (ts_date st) ++ " ")%string) l0)
                          (map (fun st => time_isoformat (ts_time st)) l0))
             = map (fun st => CStr (stamp_text st)) l0) as ->.
  { induction l0 as [|st l0 IH]; [reflexivity|].
    cbn [map combine]. now rewrite IH. }
  now rewrite (to_datetime_stamp_texts stamps Hv).
Qed.

(** ** Properties of [transform_data] *)

Lemma table_of_valid (w : world) (l : loc) (d : dict) :
  heap w !! l = Some (ODict d) -> valid_response d = true ->
  exists stamps,
    Forall2 (fun v st => stamp_of v = Some st) (times_of d) stamps /\
    table_of (transform_data l w) = Ok (hourly_records d stamps).
Proof.
  intros Hl Hd. destruct w as [h dr].
  rewrite (table_of_transform_data h dr l d Hl). now apply shaped_valid.
Qed.

Lemma temperature_series (d : dict) :
  valid_response d = true ->
  exists temps,
    dict_get "temperature_2m" (hourly_of d) = Some (JArr temps) /\
    cells_of_array temps = Some (series_at "temperature_2m" (hourly_of d)) /\
    length temps = length (times_of d) /\
    length (series_at "temperature_2m" (hourly_of d)) = length temps.
Proof.
  intros valid.
  destruct (valid_parts d valid) as (shape & _ & (v & Ev)%dict_get_present & _).
  destruct (shape_parts d shape) as (_ & Hh & _).
  unfold well_formed_hourly in Hh. rewrite !andb_true_iff in Hh.
  destruct Hh as [_ Harrays]. rewrite forallb_forall in Harrays.
  pose proof (Harrays _ (dict_get_In _ _ _ Ev)) as Hv. cbn [snd] in Hv.
  destruct v as [| | | | |vs|]; try discriminate.
  exists vs. split; [exact Ev|]. unfold series_at. rewrite Ev.
  cbn [scalar_array] in Hv. apply andb_true_iff in Hv as [Hn Hs].
  apply Nat.eqb_eq in Hn. destruct (cells_of_scalars vs Hs) as (cells & -> & Hc).
  split; [reflexivity|]. split; [exact Hn | exact Hc].
Qed.

Lemma scalar_member (m : dict) (k : string) :
  mem k (keys m) = true ->
  forallb (fun kv => is_scalar (snd kv)) m = true ->
  exists v, dict_get k m = Some v /\ cell_of_json v = Some (scalar_at k m).
Proof.
  intros (v & Ev)%dict_get_present Hs. exists v. split; [exact Ev|].
  rewrite forallb_forall in Hs. pose proof (Hs _ (dict_get_In _ _ _ Ev)) as Hv.
  unfold is_scalar, scalar_at in *. rewrite Ev. cbn [snd] in Hv.
  now destruct (cell_of_json v).
Qed.

Lemma unit_member (d : dict) (k : string) :
  valid_response d = true -> mem k (keys (units_of d)) = true ->
  exists v, dict_get k (units_of d) = Some v /\
            cell_of_json v = Some (scalar_at k (units_of d)).
Proof.
  intros valid Hk. destruct (valid_parts d valid) as (shape & _).
  destruct (shape_parts d shape) as (_ & _ & Hu & _).
  unfold well_formed_units in Hu. rewrite !andb_true_iff in Hu.
  apply scalar_member; [exact Hk | apply Hu].
Qed.

Lemma metadata_value (d : dict) (k : string) :
  valid_response d = true -> In k metadata_names ->
  exists v, dict_get k d = Some v /\ cell_of_json v = Some (scalar_at k d).
Proof.
  intros valid Hk. destruct (valid_parts d valid) as (shape & Hmeta & _).
  destruct (dict_get_present _ _ (Hmeta k Hk)) as (v & Ev).
  exists v. split; [exact Ev|].
  pose proof (metadata_member d k (proj2 (mem_In _ _) Hk)) as Em.
  rewrite Ev in Em. destruct (metadata_scalar d shape k v Em) as [Hv _].
  unfold is_scalar, scalar_at in *. rewrite Ev.
  now destruct (cell_of_json v).
Qed.

(** ** The values that reach the table *)

Lemma cell_of_json_same_value (v : json) (c : cell) :
  cell_of_json v = Some c -> same_value v c.
Proof.
  destruct v as [| |z| | | |]; cbn [cell_of_json]; try discriminate.
  - now intros [= <-].
  - now intros [= <-].
  - destruct (int64 z); [|discriminate]. now intros [= <-].
  - now intros [= <-].
  - now intros [= <-].
Qed.

(** An integer of at most [2 ^ 53] in size is a double. *)
Lemma round_to_double_exact (z : Z) :
  (Z.abs z <= 2 ^ 53)%Z -> round_to_double z = z.
Proof.
  intros Hz. unfold round_to_double.
  destruct (Z.ltb_spec (Z.abs z) (2 ^ 53)) as [_|Hge]; [reflexivity|].
  assert (Hcase : z = (2 ^ 53)%Z \/ z = (- 2 ^ 53)%Z) by lia.
  destruct Hcase as [-> | ->]; vm_compute; reflexivity.
Qed.

Lemma float64_cell_same_value (v : json) (c : cell) :
  float64_cell v = Some c -> fits_double v = true -> same_value v c.
Proof.
  destruct v as [| |z| | | |]; cbn [float64_cell fits_double];
    try discriminate.
  - now intros [= <-].
  - destruct (int64 z); [|discriminate]. intros [= <-] Hz%Z.leb_le.
    cbn [same_value]. now rewrite round_to_double_exact.
  - now intros [= <-].
Qed.

(** A column made of entries that a double holds carries their values. *)
Lemma cells_of_array_same_values (vs : list json) (cells : list cell) :
  cells_of_array vs = Some cells -> forallb fits_double vs = true ->
  Forall2 same_value vs cells.
Proof.
  unfold cells_of_array.
  destruct (forallb numeric vs && existsb floating vs).
  - intros H%mapM_Some_1 Hfit. rewrite forallb_forall in Hfit.
    induction H as [|v c vs cells Hv _ IH]; constructor.
    + apply float64_cell_same_value; [exact Hv | apply Hfit; now left].
    + apply IH. intros x Hx. apply Hfit. now right.
  - intros H%mapM_Some_1 _.
    induction H as [|v c vs cells Hv _ IH]; constructor; [|exact IH].
    now apply cell_of_json_same_value.
Qed.

Lemma valid_response_names (d : dict) :
  valid_response d = forecast_response d && fresh_names d.
Proof.
  unfold valid_response, forecast_response, well_shaped.
  destruct (well_formed_metadata d), (well_formed_hourly d),
    (well_formed_units d), (fresh_names d),
    (forallb (fun k => mem k (keys d)) metadata_names),
    (mem "temperature_2m" (keys (hourly_of d))),
    (mem "time" (keys (units_of d))),
    (mem "temperature_2m" (keys (units_of d))),
    (forallb (fun k => mem k (keys (hourly_of d))) (keys (units_of d)));
    reflexivity.
Qed.

(** C8.  [transform_data] is a function of the document alone: two runs on
    equal documents, in any two stores and whatever has been drawn, give
    equal outcomes and equal tables; so does a second run in the store the
    first one left. *)
Theorem transform_data_deterministic (w1 w2 : world) (l1 l2 : loc) (d : dict) :
  heap w1 !! l1 = Some (ODict d) ->
  heap w2 !! l2 = Some (ODict d) ->
  table_of (transform_data l1 w1) = table_of (transform_data l2 w2) /\
  table_of (transform_data l1 (snd (transform_data l1 w1)))
  = table_of (transform_data l1 w1).
Proof.
  intros H1 H2. destruct w1 as [h1 dr1], w2 as [h2 dr2]. cbn [heap] in *.
  rewrite (table_of_transform_data h1 dr1 l1 d H1).
  rewrite (table_of_transform_data h2 dr2 l2 d H2).
  split; [reflexivity|].
  destruct (transform_data_run h1 dr1 l1 d H1) as (extra & -> & _).
  cbn [snd]. apply table_of_transform_data.
  now apply lookup_app_l_Some.
Qed.

Lemma transform_data_deterministic_witness :
  heap (World [ODict scenario] []) !! 0 = Some (ODict scenario) /\
  heap (World [OFrame (Frame 0 []); ODict scenario] [plt_show]) !! 1
  = Some (ODict scenario) /\
  table_of (transform_data 0 (World [ODict scenario] []))
  = table_of (transform_data 1
                (World [OFrame (Frame 0 []); ODict scenario] [plt_show])).
Proof.
  split; [reflexivity|]. split; [reflexivity|].
  exact (proj1 (transform_data_deterministic
           (World [ODict scenario] [])
           (World [OFrame (Frame 0 []); ODict scenario] [plt_show])
           0 1 scenario eq_refl eq_refl)).
Defined.

(** C9.  [flatten_hourly_data] and [transform_data] leave the document as
    it was: each only appends objects to the store (the tables it builds),
    so the document and every other object already there are unchanged, and
    nothing is drawn. *)
Theorem transform_data_frame (w : world) (data : loc) (d : dict) :
  heap w !! data = Some (ODict d) ->
  (exists built, snd (flatten_hourly_data data w)
                 = World (heap w ++ built) (drawn w)) /\
  (exists built, snd (transform_data data w)
                 = World (heap w ++ built) (drawn w)) /\
  heap (snd (flatten_hourly_data data w)) !! data = Some (ODict d) /\
  heap (snd (transform_data data w)) !! data = Some (ODict d) /\
  forall l o, heap w !! l = Some o ->
              heap (snd (transform_data data w)) !! l = Some o.
Proof.
  intros Hd. destruct w as [h dr]. cbn [heap drawn] in *.
  destruct (flatten_hourly_data_run h dr data d Hd) as (built1 & -> & _).
  destruct (transform_data_run h dr data d Hd) as (built2 & -> & _).
  cbn [snd heap].
  split; [eauto|]. split; [eauto|].
  split; [now apply lookup_app_l_Some|].
  split; [now apply lookup_app_l_Some|].
  intros l o Hl. now apply lookup_app_l_Some.
Qed.

Lemma transform_data_frame_witness :
  heap (World [ODict scenario] []) !! 0 = Some (ODict scenario) /\
  heap (snd (transform_data 0 (World [ODict scenario] []))) !! 0
  = Some (ODict scenario).
Proof.
  split; [reflexivity|].
  exact (proj1 (proj2 (proj2 (proj2
    (transform_data_frame (World [ODict scenario] []) 0 scenario eq_refl))))).
Defined.

(** C1.  On a valid response whose hourly arrays have [N] entries the table
    has [N] rows, every column has [N] cells, and row [i] carries the date
    and the time of day of entry [i] of [hourly.time]: the rows are in the
    order of the input, nothing is sorted. *)
Theorem transform_data_rows_in_order (w : world) (data : loc) (d : dict) :
  heap w !! data = Some (ODict d) ->
  valid_response d = true ->
  exists t stamps,
    table_of (transform_data data w) = Ok t /\
    dict_get "time" (hourly_of d) = Some (JArr (times_of d)) /\
    index_len t = length (times_of d) /\
    Forall (fun kc => col_length (snd kc) = length (times_of d)) (columns t) /\
    Forall2 (fun v st => stamp_of v = Some st) (times_of d) stamps /\
    frame_getitem t "time"
    = Ok (Values (map (fun st => CDate (ts_date st)) stamps)) /\
    frame_getitem t "hour"
    = Ok (Values (map (fun st => CTime (ts_time st)) stamps)).
Proof.
  intros Hl valid.
  destruct (table_of_valid w data d Hl valid) as (stamps & Hst & ->).
  destruct (temperature_series d valid) as (temps & _ & _ & Hlen & Hcells).
  pose proof (proj1 (valid_parts d valid)) as shape.
  exists (hourly_records d stamps), stamps.
  split; [reflexivity|]. split; [exact (time_member d shape)|].
  split; [reflexivity|]. split; [|split; [exact Hst | split; reflexivity]].
  pose proof (Forall2_length _ _ _ Hst) as Hn.
  unfold hourly_records. cbn [columns].
  repeat constructor; cbn [snd col_length];
    rewrite ?length_map, ?repeat_length; congruence.
Qed.

Lemma transform_data_rows_in_order_witness :
  heap (World [ODict scenario] []) !! 0 = Some (ODict scenario) /\
  valid_response scenario = true /\
  exists t stamps,
    table_of (transform_data 0 (World [ODict scenario] [])) = Ok t /\
    dict_get "time" (hourly_of scenario) = Some (JArr (times_of scenario)) /\
    index_len t = length (times_of scenario) /\
    Forall (fun kc => col_length (snd kc) = length (times_of scenario))
           (columns t) /\
    Forall2 (fun v st => stamp_of v = Some st) (times_of scenario) stamps /\
    frame_getitem t "time"
    = Ok (Values (map (fun st => CDate (ts_date st)) stamps)) /\
    frame_getitem t "hour"
    = Ok (Values (map (fun st => CTime (ts_time st)) stamps)).
Proof.
  split; [reflexivity|]. split; [reflexivity|].
  exact (transform_data_rows_in_order (World [ODict scenario] []) 0 scenario
           eq_refl eq_refl).
Defined.

(** C2, as stated, fails on a response whose [hourly] also has a variable
    called [temperature_unit]: the renaming gives its column and the column
    of the unit one label, the projection returns both, and the first does
    not hold the unit. *)
Lemma broadcast_counterexample :
  forecast_response unit_variable = true /\
  dict_get "temperature_2m" (units_of unit_variable) = Some (JStr "°C") /\
  exists t,
    table_of (transform_data 0 (World [ODict unit_variable] [])) = Ok t /\
    index_len t = 2 /\
    select "temperature_unit" (columns t)
    = [("temperature_unit", Values [CStr "a"; CStr "b"]);
       ("temperature_unit", Values [CStr "°C"; CStr "°C"])] /\
    frame_getitem t "temperature_unit" <> Ok (Values (repeat (CStr "°C") 2)).
Proof.
  split; [reflexivity|]. split; [reflexivity|].
  eexists. split; [vm_compute; reflexivity|].
  split; [reflexivity|]. split; [reflexivity|]. discriminate.
Qed.

(** C2, amended.  On a valid response, none of whose variables bears a name
    that the renaming introduces, the table has one row per entry of
    [hourly.time], and every row holds, under each of the seven metadata
    labels, the value of the scalar of that name of the document, under
    [time_unit] the unit [hourly_units.time] and under [temperature_unit]
    the unit [hourly_units.temperature_2m]. *)
Theorem broadcast_invariant (w : world) (data : loc) (d : dict) :
  heap w !! data = Some (ODict d) ->
  valid_response d = true ->
  exists t,
    table_of (transform_data data w) = Ok t /\
    dict_get "time" (hourly_of d) = Some (JArr (times_of d)) /\
    index_len t = length (times_of d) /\
    dict_get "hourly_units" d = Some (JObj (units_of d)) /\
    (forall k, In k metadata_names ->
       exists v c, dict_get k d = Some v /\ same_value v c /\
                   frame_getitem t k
                   = Ok (Values (repeat c (length (times_of d))))) /\
    (exists v c, dict_get "time" (units_of d) = Some v /\
                 same_value v c /\
                 frame_getitem t "time_unit"
                 = Ok (Values (repeat c (length (times_of d))))) /\
    (exists v c, dict_get "temperature_2m" (units_of d) = Some v /\
                 same_value v c /\
                 frame_getitem t "temperature_unit"
                 = Ok (Values (repeat c (length (times_of d))))).
Proof.
  intros Hl valid.
  destruct (table_of_valid w data d Hl valid) as (stamps & _ & ->).
  pose proof (valid_parts d valid) as (shape & _ & _ & Hut & Hutemp).
  exists (hourly_records d stamps). split; [reflexivity|].
  split; [exact (time_member d shape)|]. split; [reflexivity|].
  split; [exact (units_member d shape)|]. split; [|split].
  - intros k Hk. destruct (metadata_value d k valid Hk) as (v & Ev & Ec).
    exists v, (scalar_at k d). split; [exact Ev|].
    split; [exact (cell_of_json_same_value v _ Ec)|].
    simpl in Hk.
    destruct Hk as [<-|[<-|[<-|[<-|[<-|[<-|[<-|[]]]]]]]]; reflexivity.
  - destruct (unit_member d "time" valid Hut) as (v & Ev & Ec).
    exists v, (scalar_at "time" (units_of d)).
    split; [exact Ev|]. split; [exact (cell_of_json_same_value v _ Ec)|].
    reflexivity.
  - destruct (unit_member d "temperature_2m" valid Hutemp) as (v & Ev & Ec).
    exists v, (scalar_at "temperature_2m" (units_of d)).
    split; [exact Ev|]. split; [exact (cell_of_json_same_value v _ Ec)|].
    reflexivity.
Qed.

Lemma broadcast_invariant_witness :
  heap (World [ODict scenario] []) !! 0 = Some (ODict scenario) /\
  valid_response scenario = true /\
  exists t,
    table_of (transform_data 0 (World [ODict scenario] [])) = Ok t /\
    dict_get "time" (hourly_of scenario) = Some (JArr (times_of scenario)) /\
    index_len t = length (times_of scenario) /\
    dict_get "hourly_units" scenario = Some (JObj (units_of scenario)) /\
    (forall k, In k metadata_names ->
       exists v c, dict_get k scenario = Some v /\ same_value v c /\
                   frame_getitem t k
                   = Ok (Values (repeat c (length (times_of scenario))))) /\
    (exists v c, dict_get "time" (units_of scenario) = Some v /\
                 same_value v c /\
                 frame_getitem t "time_unit"
                 = Ok (Values (repeat c (length (times_of scenario))))) /\
    (exists v c, dict_get "temperature_2m" (units_of scenario) = Some v /\
                 same_value v c /\
                 frame_getitem t "temperature_unit"
                 = Ok (Values (repeat c (length (times_of scenario))))).
Proof.
  split; [reflexivity|]. split; [reflexivity|].
  exact (broadcast_invariant (World [ODict scenario] []) 0 scenario
           eq_refl eq_refl).
Defined.

Lemma table_of_flatten_hourly_data (h : list object) (dr : list plt_call)
      (l : loc) (d : dict) :
  h !! l = Some (ODict d) ->
  table_of (flatten_hourly_data l (World h dr)) = flattened d.
Proof.
  intros Hl.
  destruct (flatten_hourly_data_run h dr l d Hl) as (extra & -> & Hextra).
  destruct (flattened d) as [f|e|]; simpl; try reflexivity.
  rewrite (Hextra f eq_refl). now rewrite list_lookup_middle.
Qed.

Lemma broadcast_is_Some (n : nat) (v : json) :
  is_scalar v = true -> exists c, broadcast n v = Some c.
Proof.
  unfold is_scalar, broadcast. destruct (cell_of_json v); [|discriminate].
  intros _. simpl. eauto.
Qed.

(** The table that [flatten_hourly_data] returns has a column for every
    hourly variable. *)
Lemma flattened_has_variables (d : dict) :
  well_shaped d = true ->
  exists f, flattened d = Ok f /\
    forall k, mem k (keys (hourly_of d)) = true ->
              mem k (keys (columns f)) = true.
Proof.
  intros shape.
  destruct (flattened_well_shaped d shape) as (f & E & _ & Hget).
  exists f. split; [exact E|]. intros k (v & Ev)%dict_get_present.
  destruct (shape_parts d shape) as (_ & Hh & Hu & _).
  unfold well_formed_hourly in Hh. rewrite !andb_true_iff in Hh.
  destruct Hh as [_ Harrays]. rewrite forallb_forall in Harrays.
  unfold well_formed_units in Hu. rewrite !andb_true_iff in Hu.
  destruct Hu as [_ Hscal]. rewrite forallb_forall in Hscal.
  rewrite mem_keys, Hget.
  destruct (dict_get k (rekey unit_label (units_of d))) as [u|] eqn:E1.
  - apply dict_get_In, in_map_iff in E1 as ([k0 v0] & [= _ <-] & Hin).
    destruct (broadcast_is_Some (length (times_of d)) v0 (Hscal _ Hin))
      as (c & ->). reflexivity.
  - destruct (dict_get k (metadata_of d)) as [m|] eqn:E2.
    + destruct (metadata_scalar d shape k m E2) as [Hm _].
      destruct (broadcast_is_Some (length (times_of d)) m Hm) as (c & ->).
      reflexivity.
    + rewrite Ev.
      pose proof (Harrays _ (dict_get_In _ _ _ Ev)) as Hv. cbn [snd] in Hv.
      apply column_of_scalar_array in Hv as (cells & -> & _). reflexivity.
Qed.

(** C3, as stated, fails on a response whose [hourly] also has a variable
    called [temperature]: after the renaming two columns bear that label,
    the projection returns both, and the table has thirteen columns. *)
Lemma column_set_counterexample :
  forecast_response extra_temperature = true /\
  exists t,
    table_of (transform_data 0 (World [ODict extra_temperature] [])) = Ok t /\
    keys (columns t)
    = ["time"; "hour"; "temperature"; "temperature"; "latitude"; "longitude";
       "generationtime_ms"; "utc_offset_seconds"; "timezone";
       "timezone_abbreviation"; "elevation"; "time_unit"; "temperature_unit"] /\
    keys (columns t) <> ordered_columns /\
    In ("temperature", Values [CNum 1; CNum 2]) (columns t).
Proof.
  split; [reflexivity|].
  eexists. split; [vm_compute; reflexivity|].
  split; [reflexivity|]. split; [discriminate|].
  right. right. right. left. reflexivity.
Qed.

(** C3, amended.  On a valid response, none of whose variables bears a name
    that the renaming introduces, the labels of the table are exactly the
    twelve of [ordered_columns], in that order.  Flattening makes a column
    of every hourly variable; a column under a label that is not one of the
    twelve, such as a further hourly variable, is not in the table that
    [transform_data] returns, and no error is raised for it. *)
Theorem column_set_exact (w : world) (data : loc) (d : dict) :
  heap w !! data = Some (ODict d) ->
  valid_response d = true ->
  exists t f,
    table_of (transform_data data w) = Ok t /\
    keys (columns t) = ordered_columns /\
    table_of (flatten_hourly_data data w) = Ok f /\
    (forall k, mem k (keys (hourly_of d)) = true ->
               mem k (keys (columns f)) = true) /\
    forall k, ~ In k ordered_columns -> frame_getitem t k = Raise (KeyError [k]).
Proof.
  intros Hl valid.
  destruct (table_of_valid w data d Hl valid) as (stamps & _ & ->).
  destruct (flattened_has_variables d (proj1 (valid_parts d valid)))
    as (f & Ef & Hvars).
  exists (hourly_records d stamps), f. split; [reflexivity|].
  split; [reflexivity|].
  split.
  { destruct w as [h dr].
    now rewrite (table_of_flatten_hourly_data h dr data d Hl). }
  split; [exact Hvars|].
  intros k Hk.
  assert (Ht : tidy (length (times_of d)) (hourly_records d stamps))
    by (split; reflexivity).
  rewrite (frame_getitem_tidy _ _ k Ht), dict_get_absent; [reflexivity|].
  apply not_true_is_false. intros Hin. apply Hk. now apply mem_In.
Qed.

Lemma column_set_exact_witness :
  heap (World [ODict with_humidity] []) !! 0 = Some (ODict with_humidity) /\
  valid_response with_humidity = true /\
  mem "relative_humidity_2m" (keys (hourly_of with_humidity)) = true /\
  exists t f,
    table_of (transform_data 0 (World [ODict with_humidity] [])) = Ok t /\
    keys (columns t) = ordered_columns /\
    table_of (flatten_hourly_data 0 (World [ODict with_humidity] [])) = Ok f /\
    (forall k, mem k (keys (hourly_of with_humidity)) = true ->
               mem k (keys (columns f)) = true) /\
    forall k, ~ In k ordered_columns -> frame_getitem t k = Raise (KeyError [k]).
Proof.
  split; [reflexivity|]. split; [reflexivity|]. split; [reflexivity|].
  exact (column_set_exact (World [ODict with_humidity] []) 0 with_humidity
           eq_refl eq_refl).
Defined.

Lemma to_datetime_times (vs : list json) (stamps : list Timestamp) :
  Forall2 (fun v st => stamp_of v = Some st) vs stamps ->
  exists col, column_of_json (JArr vs) = Some col /\
              to_datetime col = Ok (Datetimes stamps).
Proof.
  intros Hall.
  assert (exists ss, vs = map JStr ss /\
                     mapM (parse_timestamp IsoMinutes) ss = Some stamps)
    as (ss & -> & Hparse).
  { induction Hall as [|v st vs stamps Hv _ (ss & -> & IH)]; [now exists []|].
    destruct v as [| | | |s| |]; try discriminate.
    exists (s :: ss). split; [reflexivity|].
    cbn [stamp_of] in Hv. now rewrite mapM_step, Hv, IH. }
  exists (Values (map CStr ss)). cbn [column_of_json].
  rewrite cells_of_strings. split; [reflexivity|].
  unfold to_datetime. now rewrite mapM_cell_str_strings, Hparse.
Qed.

(** C4.  On a valid response, whose [hourly.time] entries have the
    documented form, writing the date and the time of day of every row as
    text, joining them and reading the result (line 94 of
    [plot_temperature]) gives, row by row, the timestamp that
    [pd.to_datetime] made of the entry of [hourly.time]. *)
Theorem date_hour_round_trip (w : world) (data : loc) (d : dict) :
  heap w !! data = Some (ODict d) ->
  valid_response d = true ->
  exists t stamps col,
    table_of (transform_data data w) = Ok t /\
    dict_get "time" (hourly_of d) = Some (JArr (times_of d)) /\
    column_of_json (JArr (times_of d)) = Some col /\
    to_datetime col = Ok (Datetimes stamps) /\
    forall w' l, heap w' !! l = Some (OFrame t) ->
                 combined_datetime l w' = (Ok (Datetimes stamps), w').
Proof.
  intros Hl valid.
  destruct (table_of_valid w data d Hl valid) as (stamps & Hst & ->).
  destruct (to_datetime_times _ _ Hst) as (col & Ecol & Edt).
  pose proof (proj1 (valid_parts d valid)) as shape.
  exists (hourly_records d stamps), stamps, col.
  split; [reflexivity|]. split; [exact (time_member d shape)|].
  split; [exact Ecol|]. split; [exact Edt|].
  intros w' l Hl'.
  apply (combined_datetime_at w' l (hourly_records d stamps) stamps Hl');
    [reflexivity | reflexivity | exact (stamps_valid _ _ Hst)].
Qed.

Lemma date_hour_round_trip_witness :
  heap (World [ODict scenario] []) !! 0 = Some (ODict scenario) /\
  valid_response scenario = true /\
  exists t stamps col,
    table_of (transform_data 0 (World [ODict scenario] [])) = Ok t /\
    dict_get "time" (hourly_of scenario) = Some (JArr (times_of scenario)) /\
    column_of_json (JArr (times_of scenario)) = Some col /\
    to_datetime col = Ok (Datetimes stamps) /\
    forall w' l, heap w' !! l = Some (OFrame t) ->
                 combined_datetime l w' = (Ok (Datetimes stamps), w').
Proof.
  split; [reflexivity|]. split; [reflexivity|].
  exact (date_hour_round_trip (World [ODict scenario] []) 0 scenario
           eq_refl eq_refl).
Defined.

(** C5, as stated, fails on a response whose temperatures hold an integer
    that no double holds next to a float: [pd.DataFrame] makes a [float64]
    column of the list, and the integer comes back as the nearest
    double. *)
Lemma renaming_counterexample :
  valid_response unrepresentable = true /\
  temperatures_of unrepresentable = [JInt 9007199254740993; JNum 0.5] /\
  exists t,
    table_of (transform_data 0 (World [ODict unrepresentable] [])) = Ok t /\
    frame_getitem t "temperature"
    = Ok (Values [CNum (inject_Z 9007199254740992); CNum 0.5]) /\
    ~ same_value (JInt 9007199254740993) (CNum (inject_Z 9007199254740992)).
Proof.
  split; [reflexivity|]. split; [reflexivity|].
  eexists. split; [vm_compute; reflexivity|].
  split; [reflexivity|]. cbn [same_value]. discriminate.
Qed.

(** C5, amended.  On a valid response, none of whose variables bears a name
    that the renaming introduces and whose integer temperatures are at most
    [2 ^ 53] in size, the column [temperature] holds the values of the
    entries of [hourly.temperature_2m], one by one and in their order (an
    integer possibly as the float of the same value), and every row of
    [temperature_unit] holds [hourly_units.temperature_2m]. *)
Theorem renaming_law (w : world) (data : loc) (d : dict) :
  heap w !! data = Some (ODict d) ->
  valid_response d = true ->
  forallb fits_double (temperatures_of d) = true ->
  exists t cells,
    table_of (transform_data data w) = Ok t /\
    dict_get "hourly" d = Some (JObj (hourly_of d)) /\
    dict_get "temperature_2m" (hourly_of d) = Some (JArr (temperatures_of d)) /\
    index_len t = length (temperatures_of d) /\
    frame_getitem t "temperature" = Ok (Values cells) /\
    Forall2 same_value (temperatures_of d) cells /\
    dict_get "hourly_units" d = Some (JObj (units_of d)) /\
    exists v c, dict_get "temperature_2m" (units_of d) = Some v /\
                same_value v c /\
                frame_getitem t "temperature_unit"
                = Ok (Values (repeat c (length (temperatures_of d)))).
Proof.
  intros Hl valid Hfit.
  destruct (table_of_valid w data d Hl valid) as (stamps & _ & ->).
  destruct (temperature_series d valid) as (temps & Etemps & Hcells & Hlen & _).
  pose proof (valid_parts d valid) as (shape & _ & _ & _ & Hutemp).
  destruct (unit_member d "temperature_2m" valid Hutemp) as (v & Ev & Ec).
  assert (Et : temperatures_of d = temps)
    by (unfold temperatures_of; now rewrite Etemps).
  rewrite Et in *.
  exists (hourly_records d stamps), (series_at "temperature_2m" (hourly_of d)).
  split; [reflexivity|]. split; [exact (hourly_member d shape)|].
  split; [exact Etemps|]. split; [cbn [hourly_records index_len]; congruence|].
  split; [reflexivity|].
  split; [exact (cells_of_array_same_values temps _ Hcells Hfit)|].
  split; [exact (units_member d shape)|].
  exists v, (scalar_at "temperature_2m" (units_of d)).
  split; [exact Ev|]. split; [exact (cell_of_json_same_value v _ Ec)|].
  rewrite Hlen. reflexivity.
Qed.

Lemma renaming_law_witness :
  heap (World [ODict whole_degrees] []) !! 0 = Some (ODict whole_degrees) /\
  valid_response whole_degrees = true /\
  forallb fits_double (temperatures_of whole_degrees) = true /\
  temperatures_of whole_degrees = [JInt 10; JNum 10.5] /\
  exists t cells,
    table_of (transform_data 0 (World [ODict whole_degrees] [])) = Ok t /\
    dict_get "hourly" whole_degrees = Some (JObj (hourly_of whole_degrees)) /\
    dict_get "temperature_2m" (hourly_of whole_degrees)
    = Some (JArr (temperatures_of whole_degrees)) /\
    index_len t = length (temperatures_of whole_degrees) /\
    frame_getitem t "temperature" = Ok (Values cells) /\
    Forall2 same_value (temperatures_of whole_degrees) cells /\
    dict_get "hourly_units" whole_degrees = Some (JObj (units_of whole_degrees)) /\
    exists v c, dict_get "temperature_2m" (units_of whole_degrees) = Some v /\
                same_value v c /\
                frame_getitem t "temperature_unit"
                = Ok (Values (repeat c (length (temperatures_of whole_degrees)))).
Proof.
  split; [reflexivity|]. split; [reflexivity|]. split; [reflexivity|].
  split; [reflexivity|].
  exact (renaming_law (World [ODict whole_degrees] []) 0 whole_degrees
           eq_refl eq_refl eq_refl).
Defined.

(** ** Missing columns *)

(** On a well-shaped document the flattening and the splitting of [time]
    succeed; if a label of [ordered_columns] names no column after the
    renaming, the projection raises [KeyError] and reports it. *)
Lemma projection_raises (d : dict) (k : string) :
  well_shaped d = true ->
  In k ordered_columns ->
  (forall stamps, column_after d stamps k = None) ->
  exists f labels,
    and_then (flattened d) split_time = Ok f /\
    frame_getitem_list (frame_rename renaming f) ordered_columns
    = Raise (KeyError labels) /\
    In k labels /\
    shaped d = Raise (KeyError labels).
Proof.
  intros shape Hk Hnone.
  destruct (renamed_well_shaped d shape) as (f & stamps & E & Hg & _ & Hget).
  assert (Hin : In k (List.filter (absent (columns (frame_rename renaming f)))
                                  ordered_columns)).
  { apply filter_In. split; [exact Hk|].
    now rewrite (absent_tidy _ _ k Hg), Hget, Hnone. }
  assert (Eraise : frame_getitem_list (frame_rename renaming f) ordered_columns
          = Raise (KeyError (List.filter (absent (columns (frame_rename renaming f)))
                                         ordered_columns))).
  { unfold frame_getitem_list.
    destruct (List.filter _ ordered_columns); [destruct Hin | reflexivity]. }
  eexists f, _. split; [exact E|]. split; [exact Eraise|]. split; [exact Hin|].
  now rewrite shaped_eq, E.
Qed.

(** C6, as stated, fails: [hourly] of [plain_temperature] has no
    [temperature_2m], and [transform_data] returns a table of two full
    rows, since [hourly.temperature] and its unit bear the labels the
    projection asks for. *)
Lemma missing_temperature_2m_counterexample :
  dict_get "temperature_2m" (hourly_of plain_temperature) = None /\
  (exists t, table_of (transform_data 0 (World [ODict plain_temperature] [])) = Ok t
             /\ index_len t = 2 /\ keys (columns t) = ordered_columns) /\
  ~ (exists labels, table_of (transform_data 0 (World [ODict plain_temperature] []))
                    = Raise (KeyError labels)).
Proof.
  split; [reflexivity|]. split.
  - eexists. split; [vm_compute; reflexivity|]. split; reflexivity.
  - intros [labels E]. vm_compute in E. discriminate.
Qed.

(** C6, amended.  On a document that is well shaped (scalars for metadata,
    equally long arrays of scalars with [time] in the documented form,
    scalar units, no variable called [temperature] or [temperature_unit])
    and whose [hourly] has no [temperature_2m], [transform_data] raises
    [KeyError] and names [temperature] among the missing labels; it returns
    no table. *)
Theorem missing_temperature_2m_raises (w : world) (data : loc) (d : dict) :
  heap w !! data = Some (ODict d) ->
  well_shaped d = true ->
  mem "temperature_2m" (keys (hourly_of d)) = false ->
  exists labels,
    table_of (transform_data data w) = Raise (KeyError labels) /\
    In "temperature" labels.
Proof.
  intros Hl shape Hno. destruct w as [h dr].
  rewrite (table_of_transform_data h dr data d Hl).
  destruct (projection_raises d "temperature" shape) as (f & labels & _ & _ & Hin & E).
  - simpl. tauto.
  - intros stamps.
    change (column_after d stamps "temperature")
      with (column_before d stamps "temperature_2m").
    rewrite (column_before_label d stamps "temperature_2m" None) by reflexivity.
    rewrite (metadata_other d shape "temperature_2m" eq_refl).
    now rewrite (dict_get_absent _ _ Hno).
  - exists labels. auto.
Qed.

Lemma missing_temperature_2m_raises_witness :
  heap (World [ODict without_temperature] []) !! 0 = Some (ODict without_temperature) /\
  well_shaped without_temperature = true /\
  mem "temperature_2m" (keys (hourly_of without_temperature)) = false /\
  exists labels,
    table_of (transform_data 0 (World [ODict without_temperature] []))
    = Raise (KeyError labels) /\
    In "temperature" labels.
Proof.
  split; [reflexivity|]. split; [reflexivity|]. split; [reflexivity|].
  exact (missing_temperature_2m_raises (World [ODict without_temperature] []) 0
           without_temperature eq_refl eq_refl eq_refl).
Defined.

Example without_temperature_labels :
  table_of (transform_data 0 (World [ODict without_temperature] []))
  = Raise (KeyError ["temperature"]).
Proof. vm_compute. reflexivity. Qed.

(** C10, as stated, fails: [hourly_units] of [time_unit_on_top] has no
    [time], and [transform_data] returns a table, because the column
    [time_unit] was made from the scalar of that name. *)
Lemma missing_time_unit_counterexample :
  dict_get "hourly_units" time_unit_on_top
  = Some (JObj (units_of time_unit_on_top)) /\
  dict_get "time" (units_of time_unit_on_top) = None /\
  (exists t, table_of (transform_data 0 (World [ODict time_unit_on_top] [])) = Ok t
             /\ index_len t = 2 /\ keys (columns t) = ordered_columns) /\
  ~ (exists labels, table_of (transform_data 0 (World [ODict time_unit_on_top] []))
                    = Raise (KeyError labels)).
Proof.
  split; [reflexivity|]. split; [reflexivity|]. split.
  - eexists. split; [vm_compute; reflexivity|]. split; reflexivity.
  - intros [labels E]. vm_compute in E. discriminate.
Qed.

(** C10, amended.  On a well-shaped document (its metadata are the seven
    scalars, its hourly data complete and well formed) whose [hourly_units]
    has no [time] and whose [hourly] has no variable called [time_unit],
    everything up to the projection succeeds and the projection raises
    [KeyError], naming [time_unit] among the missing labels: the column was
    never made. *)
Theorem missing_time_unit_raises (w : world) (data : loc) (d : dict) :
  heap w !! data = Some (ODict d) ->
  well_shaped d = true ->
  mem "time" (keys (units_of d)) = false ->
  mem "time_unit" (keys (hourly_of d)) = false ->
  exists f labels,
    and_then (flattened d) split_time = Ok f /\
    frame_getitem_list (frame_rename renaming f) ordered_columns
    = Raise (KeyError labels) /\
    In "time_unit" labels /\
    table_of (transform_data data w) = Raise (KeyError labels).
Proof.
  intros Hl shape Hu Hh. destruct w as [h dr].
  rewrite (table_of_transform_data h dr data d Hl).
  apply (projection_raises d "time_unit" shape).
  - simpl. tauto.
  - intros stamps.
    change (column_after d stamps "time_unit")
      with (column_before d stamps "time_unit").
    rewrite (column_before_label d stamps "time_unit" (Some "time")) by reflexivity.
    rewrite (dict_get_absent _ _ Hu).
    rewrite (metadata_other d shape "time_unit" eq_refl).
    now rewrite (dict_get_absent _ _ Hh).
Qed.

Lemma missing_time_unit_raises_witness :
  heap (World [ODict without_time_unit] []) !! 0 = Some (ODict without_time_unit) /\
  well_shaped without_time_unit = true /\
  mem "time" (keys (units_of without_time_unit)) = false /\
  mem "time_unit" (keys (hourly_of without_time_unit)) = false /\
  exists f labels,
    and_then (flattened without_time_unit) split_time = Ok f /\
    frame_getitem_list (frame_rename renaming f) ordered_columns
    = Raise (KeyError labels) /\
    In "time_unit" labels /\
    table_of (transform_data 0 (World [ODict without_time_unit] []))
    = Raise (KeyError labels).
Proof.
  split; [reflexivity|]. split; [reflexivity|]. split; [reflexivity|].
  split; [reflexivity|].
  exact (missing_time_unit_raises (World [ODict without_time_unit] []) 0
           without_time_unit eq_refl eq_refl eq_refl eq_refl).
Defined.

Example without_time_unit_labels :
  table_of (transform_data 0 (World [ODict without_time_unit] []))
  = Raise (KeyError ["time_unit"]).
Proof. vm_compute. reflexivity. Qed.

(** ** The plot of a table without rows *)

Lemma hourly_records_no_rows (d : dict) (stamps : list Timestamp) :
  valid_response d = true -> times_of d = [] ->
  Forall2 (fun v st => stamp_of v = Some st) (times_of d) stamps ->
  hourly_records d stamps = no_rows.
Proof.
  intros valid Ht Hst. rewrite Ht in Hst. apply Forall2_nil_inv_l in Hst as ->.
  destruct (temperature_series d valid) as (temps & _ & _ & Hlen & Hcells).
  rewrite Ht in Hlen. rewrite Hlen in Hcells. cbn [length] in Hcells.
  apply length_zero_iff_nil in Hcells.
  unfold hourly_records. rewrite Ht, Hcells. reflexivity.
Qed.

Lemma upto_nil {A : Type} (n : Z) : upto n (@nil A) = [].
Proof. unfold upto. destruct (0 <=? n)%Z; apply firstn_nil. Qed.

Lemma plt_top (h : list object) (dr : list plt_call) (f : DataFrame) (c : plt_call) :
  accepted c = true ->
  plt c (above h dr f) = (Ok tt, above h (dr ++ [c]) f).
Proof. intros H. unfold plt. now rewrite H. Qed.

(** [plot_temperature] on the table without rows: the date-time column is
    made, the figure is opened and the empty line is plotted; reading row 0
    of [temperature_unit] raises [IndexError]. *)
Lemma plot_temperature_no_rows (w : world) (l : loc) (hours : Z) :
  heap w !! l = Some (OFrame no_rows) ->
  fst (plot_temperature l hours w) = Raise IndexError.
Proof.
  intros Hl. destruct w as [h dr]. cbn [heap] in Hl.
  unfold plot_temperature.
  rewrite bind_run. unfold copy at 1.
  rewrite bind_run, (read_frame_at (World h dr) l no_rows Hl).
  unfold alloc. cbn [heap drawn].
  fold (above h dr no_rows).
  rewrite bind_run.
  rewrite (combined_datetime_at (above h dr no_rows) (length h) no_rows []);
    [| apply list_lookup_middle; reflexivity | reflexivity | reflexivity
     | constructor].
  rewrite bind_run, setitem_top.
  change (frame_setitem no_rows "datetime" (Datetimes [])) with (Ok no_rows_dated).
  cbv beta iota. rewrite bind_run, plt_top by reflexivity. cbv beta iota.
  rewrite bind_run, getitem_top.
  change (frame_getitem no_rows_dated "datetime") with (Ok (Datetimes [])).
  cbv beta iota. rewrite bind_run, getitem_top.
  change (frame_getitem no_rows_dated "temperature") with (Ok (Values [])).
  cbv beta iota. cbn [slice_to]. rewrite !upto_nil.
  rewrite bind_run, plt_top by reflexivity. cbv beta iota.
  rewrite bind_run, plt_top by reflexivity. cbv beta iota.
  rewrite bind_run, getitem_top.
  change (frame_getitem no_rows_dated "temperature_unit") with (Ok (Values [])).
  reflexivity.
Qed.

(** C7, as stated, fails: on [no_hours] the table has no rows and the plot
    raises [IndexError], not [EmptyDataError]. *)
Lemma empty_plot_counterexample :
  valid_response no_hours = true /\
  table_of (transform_data 0 (World [ODict no_hours] [])) = Ok no_rows /\
  fst (shape_and_plot 0 (World [ODict no_hours] [])) = Raise IndexError /\
  fst (shape_and_plot 0 (World [ODict no_hours] [])) <> Raise EmptyDataError.
Proof.
  split; [reflexivity|]. split; [vm_compute; reflexivity|].
  assert (E : fst (shape_and_plot 0 (World [ODict no_hours] [])) = Raise IndexError)
    by (vm_compute; reflexivity).
  split; [exact E|]. rewrite E. discriminate.
Qed.

(** C7, amended.  On a valid response whose hourly arrays are empty,
    [transform_data] returns the table of the twelve columns without rows;
    [plot_temperature] on that table, with any number of hours, raises
    [IndexError] where it reads row 0 of [temperature_unit], and so does the
    script. *)
Theorem empty_response_plot (w : world) (data : loc) (d : dict) :
  heap w !! data = Some (ODict d) ->
  valid_response d = true ->
  times_of d = [] ->
  exists t,
    table_of (transform_data data w) = Ok t /\
    index_len t = 0 /\
    keys (columns t) = ordered_columns /\
    (forall w' l hours, heap w' !! l = Some (OFrame t) ->
                        fst (plot_temperature l hours w') = Raise IndexError) /\
    fst (shape_and_plot data w) = Raise IndexError.
Proof.
  intros Hl valid Ht.
  destruct (shaped_valid d valid) as (stamps & Hst & Eshaped).
  rewrite (hourly_records_no_rows d stamps valid Ht Hst) in Eshaped.
  destruct w as [h dr]. cbn [heap] in Hl.
  exists no_rows. rewrite (table_of_transform_data h dr data d Hl).
  split; [exact Eshaped|]. split; [reflexivity|]. split; [reflexivity|].
  split; [intros w' l hours; apply plot_temperature_no_rows|].
  unfold shape_and_plot. rewrite bind_run.
  destruct (transform_data_run h dr data d Hl) as (extra & -> & Hextra).
  destruct (Hextra no_rows Eshaped) as (f & ->). rewrite Eshaped.
  cbn [settle and_then].
  apply plot_temperature_no_rows. cbn [heap].
  change (h ++ [OFrame f; OFrame no_rows])
    with (h ++ [OFrame f] ++ [OFrame no_rows]).
  rewrite app_assoc.
  replace (S (length h)) with (length (h ++ [OFrame f]))
    by (rewrite length_app; simpl; lia).
  now apply list_lookup_middle.
Qed.

Lemma empty_response_plot_witness :
  heap (World [ODict no_hours] []) !! 0 = Some (ODict no_hours) /\
  valid_response no_hours = true /\
  times_of no_hours = [] /\
  exists t,
    table_of (transform_data 0 (World [ODict no_hours] [])) = Ok t /\
    index_len t = 0 /\
    keys (columns t) = ordered_columns /\
    (forall w' l hours, heap w' !! l = Some (OFrame t) ->
                        fst (plot_temperature l hours w') = Raise IndexError) /\
    fst (shape_and_plot 0 (World [ODict no_hours] [])) = Raise IndexError.
Proof.
  split; [reflexivity|]. split; [reflexivity|]. split; [reflexivity|].
  exact (empty_response_plot (World [ODict no_hours] []) 0 no_hours
           eq_refl eq_refl eq_refl).
Defined.

(** On the scenario the plot is drawn: the first 24 rows (here both), the
    unit of row 0 on the vertical axis. *)
Example scenario_plot :
  drawn (snd (shape_and_plot 0 (World [ODict scenario] []))) =
  [plt_figure 12 5;
   plt_plot (Datetimes [Stamp (Date 2024 1 1) (Time 0 0 0);
                        Stamp (Date 2024 1 1) (Time 1 0 0)])
            (Values [CNum 10.5; CNum 11]) "o" "-" "Temperature";
   plt_xlabel "Datetime";
   plt_ylabel "Temperature (°C)";
   plt_title "Temperature by Hour";
   plt_grid true; plt_xticks 45; plt_tight_layout; plt_legend; plt_show].
Proof. vm_compute. reflexivity. Qed.

(** * Further properties of the script *)

(** ** What [flatten_hourly_data] builds *)

Lemma frame_setitem_keys (n : nat) f (k : string) (c : column) (f' : DataFrame) :
  tidy n f -> frame_setitem f k c = Ok f' ->
  keys (columns f') =
  if mem k (keys (columns f)) then keys (columns f) else keys (columns f) ++ [k].
Proof.
  intros [_ Hd]. unfold frame_setitem.
  destruct (col_length c =? index_len f); [|discriminate].
  rewrite (select_dict_get _ _ Hd), mem_keys.
  destruct (dict_get k (columns f)); intros [= <-]; cbn [columns].
  - apply keys_replace_col.
  - apply keys_app.
Qed.

Lemma unseen_app_one (seen l : list string) (k : string) :
  mem k l = false -> unseen (seen ++ [k]) l = unseen seen l.
Proof.
  intros Hk. unfold unseen. apply filter_ext_in. intros k' Hin.
  rewrite mem_app. cbn [mem existsb]. rewrite orb_false_r.
  destruct (String.eqb_spec k' k) as [->|_]; [|now rewrite orb_false_r].
  apply mem_In in Hin. congruence.
Qed.

(** A loop of scalar assignments keeps the labels it finds in place and
    appends the new ones in the order of the loop. *)
Lemma assign_all_keys (n : nat) (key_of : string -> string) (l : dict) f f' :
  tidy n f ->
  distinct (map key_of (keys l)) = true ->
  assign_all key_of l f = Ok f' ->
  keys (columns f') =
  keys (columns f) ++ unseen (keys (columns f)) (map key_of (keys l)).
Proof.
  revert f. induction l as [|[k0 v0] l IH]; intros f Hf Hd E.
  - injection E as <-. cbn. now rewrite app_nil_r.
  - cbn [keys map fst distinct] in Hd. apply andb_true_iff in Hd as [Hk0 Hd].
    apply negb_true_iff in Hk0.
    cbn [assign_all fst snd] in E. unfold frame_setitem_scalar in E.
    destruct (cell_of_json v0) as [c|]; [|discriminate].
    destruct (frame_setitem f (key_of k0) (Values (repeat c (index_len f))))
      as [f1|e|] eqn:E1; try discriminate.
    cbn [and_then] in E.
    pose proof (frame_setitem_keys n f _ _ f1 Hf E1) as Hkeys.
    destruct (frame_setitem_tidy n f (key_of k0) (Values (repeat c (index_len f))))
      as (f1' & E1' & Hf1 & _);
      [exact Hf | cbn; rewrite repeat_length; apply Hf |].
    rewrite E1 in E1'. injection E1' as <-.
    rewrite (IH f1 Hf1 Hd E), Hkeys.
    cbn [keys map fst]. unfold unseen at 2. cbn [List.filter].
    destruct (mem (key_of k0) (keys (columns f))) eqn:Em; cbn [negb].
    + reflexivity.
    + rewrite <- app_assoc. cbn [app]. f_equal. f_equal.
      now apply unseen_app_one.
Qed.

(** [flatten_hourly_data] on a document that flattens: the table has [n]
    rows, its labels are distinct, and each label holds [flat_column]. *)
Lemma flattened_flattens (n : nat) (d : dict) :
  flattens n d = true ->
  exists f, flattened d = Ok f /\ tidy n f /\
    (forall k, dict_get k (columns f) = flat_column n d k) /\
    keys (columns f) =
    keys (hourly_of d)
    ++ unseen (keys (hourly_of d)) (keys (metadata_of d))
    ++ unseen (keys (hourly_of d)
               ++ unseen (keys (hourly_of d)) (keys (metadata_of d)))
              (map unit_label (keys (units_of d))).
Proof.
  unfold flattens, frame_ready. rewrite !andb_true_iff.
  intros [[[[[[[[Hdd Hmeta] Hobj] Hdh] Harrays] Hnonempty] Hobju] Hdu] Hscal].
  assert (Eh : dict_get "hourly" d = Some (JObj (hourly_of d))).
  { unfold hourly_of. now destruct (dict_get "hourly" d) as [[]|]. }
  assert (Eu : dict_get "hourly_units" d = Some (JObj (units_of d))).
  { unfold units_of. now destruct (dict_get "hourly_units" d) as [[]|]. }
  destruct (columns_of_dict_arrays n _ Harrays)
    as (cols0 & Ecols & Hkeys & Hlens & Hget0).
  unfold flattened, dict_getitem. rewrite Eh, Eu. cbn [and_then DataFrame_of items].
  rewrite Ecols.
  assert (exists f0, match cols0 with
                     | [] => Ok (Frame 0 [])
                     | (k, c) :: cols =>
                         if forallb (fun kc => col_length (snd kc) =? col_length c) cols
                         then Ok (Frame (col_length c) ((k, c) :: cols))
                         else Raise ValueError
                     end = Ok f0 /\ tidy n f0 /\ columns f0 = cols0)
    as (f0 & -> & Hf0 & Hcols0).
  { destruct cols0 as [|[k0 c0] cols0].
    - destruct (hourly_of d); [|discriminate].
      apply Nat.eqb_eq in Hnonempty. subst n.
      eexists. split; [reflexivity|]. repeat split.
    - cbn [forallb snd] in Hlens.
      apply andb_true_iff in Hlens as [->%Nat.eqb_eq Hlens].
      rewrite Hlens. eexists. split; [reflexivity|]. split; [|reflexivity].
      split; [reflexivity|]. cbn [columns]. now rewrite Hkeys. }
  cbn [and_then].
  assert (Hdm : distinct (map (fun k => k) (keys (metadata_of d))) = true).
  { rewrite map_id. unfold metadata_of.
    rewrite (keys_filter (fun k => negb (mem k ["hourly"; "hourly_units"]))).
    now apply distinct_filter. }
  destruct (assign_all_tidy n (fun k => k) (metadata_of d) f0 Hf0 Hdm Hmeta)
    as (f1 & E1 & Hf1 & Hget1).
  rewrite E1. cbn [and_then].
  assert (Hdul : distinct (map unit_label (keys (units_of d))) = true)
    by now rewrite distinct_unit_labels.
  destruct (assign_all_tidy n unit_label (units_of d) f1 Hf1 Hdul Hscal)
    as (f2 & E2 & Hf2 & Hget2).
  rewrite E2. exists f2. split; [reflexivity|]. split; [exact Hf2|]. split.
  - intros k. rewrite Hget2, Hget1, rekey_same, Hcols0, Hget0. reflexivity.
  - rewrite (assign_all_keys n unit_label _ f1 f2 Hf1 Hdul E2).
    rewrite (assign_all_keys n (fun k => k) _ f0 f1 Hf0 Hdm E1).
    rewrite map_id, Hcols0, Hkeys, <- app_assoc. reflexivity.
Qed.

Lemma dict_get_of_In {A : Type} (m : list (string * A)) (k : string) (v : A) :
  distinct (keys m) = true -> In (k, v) m -> dict_get k m = Some v.
Proof.
  induction m as [|[k0 v0] m IH]; simpl; [intros _ []|].
  intros [Hk0 Hd]%andb_true_iff [[= -> ->]|Hin].
  - now rewrite String.eqb_refl.
  - destruct (String.eqb_spec k k0) as [->|_]; [|now apply IH].
    apply negb_true_iff in Hk0. rewrite mem_keys, (IH Hd Hin) in Hk0.
    discriminate.
Qed.

Lemma table_of_flattens (w : world) (l : loc) (d : dict) (n : nat) :
  heap w !! l = Some (ODict d) -> flattens n d = true ->
  exists f, table_of (flatten_hourly_data l w) = Ok f /\ tidy n f /\
    (forall k, dict_get k (columns f) = flat_column n d k) /\
    keys (columns f) =
    keys (hourly_of d)
    ++ unseen (keys (hourly_of d)) (keys (metadata_of d))
    ++ unseen (keys (hourly_of d)
               ++ unseen (keys (hourly_of d)) (keys (metadata_of d)))
              (map unit_label (keys (units_of d))).
Proof.
  intros Hl Hd. destruct w as [h dr].
  rewrite (table_of_flatten_hourly_data h dr l d Hl).
  now apply flattened_flattens.
Qed.

(** X1.  On a document that flattens, [flatten_hourly_data] returns a table
    of [n] rows in which a label holds the unit of [hourly_units] if it is
    the unit label of one of its keys, else the scalar of that name of the
    document, else the hourly variable of that name; other labels raise
    [KeyError].  So a unit overrides a scalar and a scalar overrides an
    hourly variable of the same label. *)
Theorem flatten_hourly_data_columns (w : world) (data : loc) (d : dict) (n : nat) :
  heap w !! data = Some (ODict d) ->
  flattens n d = true ->
  exists f,
    table_of (flatten_hourly_data data w) = Ok f /\
    index_len f = n /\
    rectangular f = true /\
    forall k, frame_getitem f k =
              match flat_column n d k with
              | Some c => Ok c
              | None => Raise (KeyError [k])
              end.
Proof.
  intros Hl Hd.
  destruct (table_of_flattens w data d n Hl Hd) as (f & E & Hf & Hget & _).
  exists f. split; [exact E|]. split; [apply Hf|]. split.
  - unfold rectangular. apply forallb_forall. intros [k c] Hin.
    cbn [snd]. apply Nat.eqb_eq.
    assert (Ek : dict_get k (columns f) = Some c)
      by (apply dict_get_of_In; [apply Hf | exact Hin]).
    rewrite Hget in Ek. unfold flat_column in Ek.
    unfold flattens, frame_ready in Hd. rewrite !andb_true_iff in Hd.
    destruct Hd as [[[[[[[[_ _] _] _] Harrays] _] _] _] _].
    rewrite forallb_forall in Harrays.
    destruct Hf as [Hn _].
    destruct (dict_get k (rekey unit_label (units_of d))) as [v|].
    { unfold broadcast in Ek. destruct (cell_of_json v); [|discriminate].
      injection Ek as <-. cbn. now rewrite repeat_length. }
    destruct (dict_get k (metadata_of d)) as [v|].
    { unfold broadcast in Ek. destruct (cell_of_json v); [|discriminate].
      injection Ek as <-. cbn. now rewrite repeat_length. }
    destruct (dict_get k (hourly_of d)) as [v|] eqn:Ev; [|discriminate].
    pose proof (Harrays _ (dict_get_In _ _ _ Ev)) as Hv. cbn [snd] in Hv.
    apply column_of_scalar_array in Hv as (cells & Ec & Hlen).
    rewrite Ec in Ek. injection Ek as <-. cbn. congruence.
  - intros k. rewrite (frame_getitem_tidy n f k Hf), Hget. reflexivity.
Qed.

Lemma flatten_hourly_data_columns_witness :
  heap (World [ODict shadowing] []) !! 0 = Some (ODict shadowing) /\
  flattens 1 shadowing = true /\
  exists f,
    table_of (flatten_hourly_data 0 (World [ODict shadowing] [])) = Ok f /\
    index_len f = 1 /\
    rectangular f = true /\
    forall k, frame_getitem f k =
              match flat_column 1 shadowing k with
              | Some c => Ok c
              | None => Raise (KeyError [k])
              end.
Proof.
  split; [reflexivity|]. split; [reflexivity|].
  exact (flatten_hourly_data_columns (World [ODict shadowing] []) 0 shadowing 1
           eq_refl eq_refl).
Defined.

Example shadowing_columns :
  flat_column 1 shadowing "elevation" = Some (Values [CNum 7]) /\
  flat_column 1 shadowing "time_unit" = Some (Values [CStr "iso8601"]).
Proof. split; reflexivity. Qed.

(** X2.  The labels of the table that [flatten_hourly_data] returns are
    distinct and in this order: the hourly variables as [hourly] lists
    them, then the scalars of the document that are no hourly variable,
    then the unit labels that are neither. *)
Theorem flatten_hourly_data_labels (w : world) (data : loc) (d : dict) (n : nat) :
  heap w !! data = Some (ODict d) ->
  flattens n d = true ->
  exists f,
    table_of (flatten_hourly_data data w) = Ok f /\
    distinct (keys (columns f)) = true /\
    keys (columns f) =
    keys (hourly_of d)
    ++ unseen (keys (hourly_of d)) (keys (metadata_of d))
    ++ unseen (keys (hourly_of d)
               ++ unseen (keys (hourly_of d)) (keys (metadata_of d)))
              (map unit_label (keys (units_of d))).
Proof.
  intros Hl Hd.
  destruct (table_of_flattens w data d n Hl Hd) as (f & E & Hf & _ & Hkeys).
  exists f. split; [exact E|]. split; [apply Hf | exact Hkeys].
Qed.

Lemma flatten_hourly_data_labels_witness :
  heap (World [ODict scenario] []) !! 0 = Some (ODict scenario) /\
  flattens 2 scenario = true /\
  exists f,
    table_of (flatten_hourly_data 0 (World [ODict scenario] [])) = Ok f /\
    distinct (keys (columns f)) = true /\
    keys (columns f) =
    keys (hourly_of scenario)
    ++ unseen (keys (hourly_of scenario)) (keys (metadata_of scenario))
    ++ unseen (keys (hourly_of scenario)
               ++ unseen (keys (hourly_of scenario)) (keys (metadata_of scenario)))
              (map unit_label (keys (units_of scenario))).
Proof.
  split; [reflexivity|]. split; [reflexivity|].
  exact (flatten_hourly_data_labels (World [ODict scenario] []) 0 scenario 2
           eq_refl eq_refl).
Defined.

(** ** Where the script stops *)

(** X3.  Without the member [hourly] the first line of
    [flatten_hourly_data] raises [KeyError] for [hourly]; no table is
    built, the store is as it was, and [transform_data] and the script stop
    with the same error, nothing drawn. *)
Theorem missing_hourly_raises (w : world) (data : loc) (d : dict) :
  heap w !! data = Some (ODict d) ->
  dict_get "hourly" d = None ->
  flatten_hourly_data data w = (Raise (KeyError ["hourly"]), w) /\
  transform_data data w = (Raise (KeyError ["hourly"]), w) /\
  shape_and_plot data w = (Raise (KeyError ["hourly"]), w).
Proof.
  intros Hl Hd.
  assert (E : flatten_hourly_data data w = (Raise (KeyError ["hourly"]), w)).
  { unfold flatten_hourly_data.
    rewrite bind_run, (read_dict_at w data d Hl), bind_run.
    unfold lift, dict_getitem. now rewrite Hd. }
  assert (E' : transform_data data w = (Raise (KeyError ["hourly"]), w)).
  { unfold transform_data. now rewrite bind_run, E. }
  split; [exact E|]. split; [exact E'|].
  unfold shape_and_plot. now rewrite bind_run, E'.
Qed.

Lemma missing_hourly_raises_witness :
  heap (World [ODict no_hourly] []) !! 0 = Some (ODict no_hourly) /\
  dict_get "hourly" no_hourly = None /\
  transform_data 0 (World [ODict no_hourly] [])
  = (Raise (KeyError ["hourly"]), World [ODict no_hourly] []).
Proof.
  split; [reflexivity|]. split; [reflexivity|].
  exact (proj1 (proj2 (missing_hourly_raises (World [ODict no_hourly] []) 0
                         no_hourly eq_refl eq_refl))).
Defined.

Lemma columns_of_dict_In (h : dict) (cols : list (string * column))
      (k : string) (vs : list json) :
  columns_of_dict h = Some cols -> In (k, JArr vs) h ->
  exists c, In (k, c) cols /\ col_length c = length vs.
Proof.
  revert cols. induction h as [|[k0 v0] h IH]; intros cols E Hin; [destruct Hin|].
  cbn [columns_of_dict] in E.
  destruct (column_of_json v0) as [c0|] eqn:E0; [|discriminate].
  destruct (columns_of_dict h) as [cols'|]; [|discriminate].
  injection E as <-. destruct Hin as [[= -> ->]|Hin].
  - exists c0. split; [now left|]. cbn [column_of_json] in E0.
    destruct (cells_of_array vs) as [cells|] eqn:Em; [|discriminate].
    injection E0 as <-. cbn. exact (cells_of_array_length _ _ Em).
  - destruct (IH cols' eq_refl Hin) as (c & Hc & Hlen).
    exists c. split; [now right | exact Hlen].
Qed.

Lemma columns_of_dict_scalars (h : dict) :
  forallb (fun kv => array_of_scalars (snd kv)) h = true ->
  exists cols, columns_of_dict h = Some cols.
Proof.
  induction h as [|[k v] h IH]; [now exists []|].
  cbn [forallb snd]. intros [Hv Hh]%andb_true_iff.
  destruct (IH Hh) as (cols & E). cbn [columns_of_dict]. rewrite E.
  destruct v as [| | | | |vs|]; try discriminate. cbn [array_of_scalars] in Hv.
  destruct (cells_of_scalars vs Hv) as (cells & Em & _).
  cbn [column_of_json]. rewrite Em. cbn. eauto.
Qed.

(** X4.  When [hourly] holds arrays of scalars, one per name, of which two
    differ in length, [pd.DataFrame] raises [ValueError]:
    [flatten_hourly_data] and [transform_data] stop there and build
    nothing. *)
Theorem ragged_hourly_raises (w : world) (data : loc) (d h : dict)
        (k1 k2 : string) (a1 a2 : list json) :
  heap w !! data = Some (ODict d) ->
  dict_get "hourly" d = Some (JObj h) ->
  distinct (keys h) = true ->
  forallb (fun kv => array_of_scalars (snd kv)) h = true ->
  In (k1, JArr a1) h -> In (k2, JArr a2) h -> length a1 <> length a2 ->
  flatten_hourly_data data w = (Raise ValueError, w) /\
  transform_data data w = (Raise ValueError, w).
Proof.
  intros Hl Hh _ Hs H1 H2 Hne.
  assert (E : flatten_hourly_data data w = (Raise ValueError, w)).
  { unfold flatten_hourly_data.
    rewrite bind_run, (read_dict_at w data d Hl), bind_run.
    unfold lift, dict_getitem. rewrite Hh.
    destruct w as [hp dr]. rewrite bind_run, DataFrame_new_run.
    destruct (columns_of_dict_scalars h Hs) as (cols & Ecols).
    destruct (columns_of_dict_In h cols k1 a1 Ecols H1) as (c1 & Hc1 & L1).
    destruct (columns_of_dict_In h cols k2 a2 Ecols H2) as (c2 & Hc2 & L2).
    cbn [DataFrame_of]. rewrite Ecols.
    destruct cols as [|[k0 c0] cols]; [destruct Hc1|].
    destruct (forallb _ cols) eqn:Eall; [|reflexivity].
    exfalso. rewrite forallb_forall in Eall.
    assert (Hall : forall k c, In (k, c) ((k0, c0) :: cols) ->
                               col_length c = col_length c0).
    { intros k c [[= -> ->]|Hin]; [reflexivity|].
      apply Nat.eqb_eq. exact (Eall _ Hin). }
    apply Hne. rewrite <- L1, <- L2.
    now rewrite (Hall _ _ Hc1), (Hall _ _ Hc2). }
  split; [exact E|]. unfold transform_data. now rewrite bind_run, E.
Qed.

Lemma ragged_hourly_raises_witness :
  heap (World [ODict ragged] []) !! 0 = Some (ODict ragged) /\
  dict_get "hourly" ragged = Some (JObj (hourly_of ragged)) /\
  distinct (keys (hourly_of ragged)) = true /\
  transform_data 0 (World [ODict ragged] [])
  = (Raise ValueError, World [ODict ragged] []).
Proof.
  split; [reflexivity|]. split; [reflexivity|]. split; [reflexivity|].
  refine (proj2 (ragged_hourly_raises (World [ODict ragged] []) 0 ragged
                   (hourly_of ragged) "time" "temperature_2m"
                   [JStr "2024-01-01T00:00"; JStr "2024-01-01T01:00"]
                   [JNum 10.5] eq_refl eq_refl eq_refl eq_refl _ _ _)).
  - left. reflexivity.
  - right. left. reflexivity.
  - discriminate.
Defined.

Lemma flattened_frame_ready (n : nat) (d : dict) :
  frame_ready n d = true ->
  exists f,
    and_then (dict_getitem d "hourly") (fun hourly =>
    and_then (DataFrame_of hourly) (fun f =>
      assign_all (fun k => k) (metadata_of d) f)) = Ok f.
Proof.
  unfold frame_ready. rewrite !andb_true_iff.
  intros [[[[[Hdd Hmeta] Hobj] Hdh] Harrays] Hnonempty].
  assert (Eh : dict_get "hourly" d = Some (JObj (hourly_of d))).
  { unfold hourly_of. now destruct (dict_get "hourly" d) as [[]|]. }
  destruct (columns_of_dict_arrays n _ Harrays)
    as (cols0 & Ecols & Hkeys & Hlens & _).
  unfold dict_getitem. rewrite Eh. cbn [and_then DataFrame_of]. rewrite Ecols.
  assert (exists f0, match cols0 with
                     | [] => Ok (Frame 0 [])
                     | (k, c) :: cols =>
                         if forallb (fun kc => col_length (snd kc) =? col_length c) cols
                         then Ok (Frame (col_length c) ((k, c) :: cols))
                         else Raise ValueError
                     end = Ok f0 /\ tidy n f0)
    as (f0 & -> & Hf0).
  { destruct cols0 as [|[k0 c0] cols0].
    - destruct (hourly_of d); [|discriminate].
      apply Nat.eqb_eq in Hnonempty. subst n.
      eexists. split; [reflexivity|]. repeat split.
    - cbn [forallb snd] in Hlens.
      apply andb_true_iff in Hlens as [->%Nat.eqb_eq Hlens].
      rewrite Hlens. eexists. split; [reflexivity|].
      split; [reflexivity|]. cbn [columns]. now rewrite Hkeys. }
  cbn [and_then].
  destruct (assign_all_tidy n (fun k => k) (metadata_of d) f0 Hf0)
    as (f1 & E1 & _); [| exact Hmeta | eauto].
  rewrite map_id. unfold metadata_of.
  rewrite (keys_filter (fun k => negb (mem k ["hourly"; "hourly_units"]))).
  now apply distinct_filter.
Qed.

(** X5.  [hourly_units] is read only after the table is made and the
    scalars are attached.  On a document whose [hourly] and scalars are in
    order, a missing [hourly_units] raises [KeyError] for it, and an
    [hourly_units] that is no mapping raises [AttributeError] (it has no
    [items]); [transform_data] stops with the same error. *)
Theorem bad_hourly_units_raises (w : world) (data : loc) (d : dict) (n : nat) :
  heap w !! data = Some (ODict d) ->
  frame_ready n d = true ->
  (dict_get "hourly_units" d = None ->
   table_of (flatten_hourly_data data w) = Raise (KeyError ["hourly_units"]) /\
   table_of (transform_data data w) = Raise (KeyError ["hourly_units"])) /\
  (forall v, dict_get "hourly_units" d = Some v -> is_object (Some v) = false ->
   table_of (flatten_hourly_data data w) = Raise AttributeError /\
   table_of (transform_data data w) = Raise AttributeError).
Proof.
  intros Hl Hready. destruct w as [h dr].
  rewrite (table_of_flatten_hourly_data h dr data d Hl).
  rewrite (table_of_transform_data h dr data d Hl).
  destruct (flattened_frame_ready n d Hready) as (f & Ef).
  assert (Eflat : flattened d =
                  and_then (dict_getitem d "hourly_units") (fun hourly_units =>
                  and_then (items hourly_units) (fun units =>
                    assign_all unit_label units f))).
  { unfold flattened.
    destruct (dict_getitem d "hourly") as [hourly|e|]; try discriminate.
    cbn [and_then] in *.
    destruct (DataFrame_of hourly) as [f0|e|]; try discriminate.
    cbn [and_then] in *. rewrite Ef. reflexivity. }
  unfold shaped. rewrite Eflat. unfold dict_getitem. split.
  - intros ->. split; reflexivity.
  - intros v -> Hv. destruct v; try discriminate; split; reflexivity.
Qed.

Lemma bad_hourly_units_raises_witness :
  heap (World [ODict no_units] []) !! 0 = Some (ODict no_units) /\
  frame_ready 1 no_units = true /\
  dict_get "hourly_units" no_units = None /\
  table_of (transform_data 0 (World [ODict no_units] []))
  = Raise (KeyError ["hourly_units"]) /\
  frame_ready 1 null_units = true /\
  dict_get "hourly_units" null_units = Some JNull /\
  table_of (transform_data 0 (World [ODict null_units] [])) = Raise AttributeError.
Proof.
  split; [reflexivity|]. split; [reflexivity|]. split; [reflexivity|].
  split.
  - exact (proj2 (proj1 (bad_hourly_units_raises (World [ODict no_units] []) 0
                           no_units 1 eq_refl eq_refl) eq_refl)).
  - split; [reflexivity|]. split; [reflexivity|].
    exact (proj2 (proj2 (bad_hourly_units_raises (World [ODict null_units] []) 0
                           null_units 1 eq_refl eq_refl) JNull eq_refl eq_refl)).
Defined.

(** X6.  On a document that flattens and has neither an hourly variable
    nor a scalar called [time], [flatten_hourly_data] returns its table and
    [transform_data] raises [KeyError] for [time] at line 66, before any
    renaming or projection. *)
Theorem missing_time_raises (w : world) (data : loc) (d : dict) (n : nat) :
  heap w !! data = Some (ODict d) ->
  flattens n d = true ->
  dict_get "time" (hourly_of d) = None ->
  dict_get "time" d = None ->
  (exists f, table_of (flatten_hourly_data data w) = Ok f) /\
  table_of (transform_data data w) = Raise (KeyError ["time"]).
Proof.
  intros Hl Hd Hh Htop.
  destruct (table_of_flattens w data d n Hl Hd) as (f & E & Hf & Hget & _).
  split; [eauto|]. destruct w as [h dr].
  rewrite (table_of_flatten_hourly_data h dr data d Hl) in E.
  rewrite (table_of_transform_data h dr data d Hl).
  unfold shaped. rewrite E. cbn [and_then]. unfold split_time.
  rewrite (frame_getitem_tidy n f "time" Hf), Hget. unfold flat_column.
  rewrite dict_get_unit_labels.
  change (strip_unit "time") with (@None string).
  unfold metadata_of.
  rewrite (dict_get_filter "time" d (fun k => negb (mem k ["hourly"; "hourly_units"]))).
  change (negb (mem "time" ["hourly"; "hourly_units"])) with true.
  cbv beta iota. now rewrite Htop, Hh.
Qed.

Lemma missing_time_raises_witness :
  heap (World [ODict no_time] []) !! 0 = Some (ODict no_time) /\
  flattens 1 no_time = true /\
  dict_get "time" (hourly_of no_time) = None /\
  dict_get "time" no_time = None /\
  table_of (transform_data 0 (World [ODict no_time] [])) = Raise (KeyError ["time"]).
Proof.
  split; [reflexivity|]. split; [reflexivity|]. split; [reflexivity|].
  split; [reflexivity|].
  exact (proj2 (missing_time_raises (World [ODict no_time] []) 0 no_time 1
                  eq_refl eq_refl eq_refl eq_refl)).
Defined.

(** ** Every table that [transform_data] returns *)

Lemma DataFrame_of_rectangular (v : json) f :
  DataFrame_of v = Ok f -> rectangular f = true.
Proof.
  destruct v as [| | | | | |m]; try discriminate. cbn [DataFrame_of].
  destruct (columns_of_dict m) as [[|[k c] cols]|]; try discriminate.
  - now intros [= <-].
  - destruct (forallb _ cols) eqn:E; [|discriminate]. intros [= <-].
    unfold rectangular. cbn. now rewrite Nat.eqb_refl, E.
Qed.

Lemma frame_setitem_rectangular f (k : string) (c : column) f' :
  frame_setitem f k c = Ok f' -> rectangular f = true ->
  rectangular f' = true /\ index_len f' = index_len f.
Proof.
  unfold frame_setitem, rectangular.
  destruct (col_length c =? index_len f) eqn:Ec; [|discriminate].
  destruct (select k (columns f)) as [|x [|y l]]; try discriminate;
    intros [= <-] Hr; cbn [columns index_len]; (split; [|reflexivity]).
  - rewrite forallb_app, Hr. cbn. now rewrite Ec.
  - unfold replace_col. rewrite forallb_forall in Hr. apply forallb_forall.
    intros kc [kc0 [<- Hin]]%in_map_iff.
    destruct (String.eqb (fst kc0) k); [exact Ec | exact (Hr _ Hin)].
Qed.

Lemma assign_all_rectangular (key_of : string -> string) (l : dict) f f' :
  assign_all key_of l f = Ok f' -> rectangular f = true ->
  rectangular f' = true /\ index_len f' = index_len f.
Proof.
  revert f. induction l as [|kv l IH]; intros f E Hr.
  - injection E as <-. auto.
  - cbn [assign_all] in E. unfold frame_setitem_scalar in E.
    destruct (cell_of_json (snd kv)) as [c|]; [|discriminate].
    destruct (frame_setitem f _ _) as [f1|e|] eqn:E1; try discriminate.
    destruct (frame_setitem_rectangular _ _ _ _ E1 Hr) as [Hr1 Hn1].
    destruct (IH f1 E Hr1) as [Hr' Hn']. split; [exact Hr' | congruence].
Qed.

Lemma flattened_rectangular (d : dict) f :
  flattened d = Ok f -> rectangular f = true.
Proof.
  unfold flattened.
  destruct (dict_getitem d "hourly") as [hourly|e|]; try discriminate.
  cbn [and_then].
  destruct (DataFrame_of hourly) as [f0|e|] eqn:E0; try discriminate.
  cbn [and_then].
  destruct (assign_all _ (metadata_of d) f0) as [f1|e|] eqn:E1; try discriminate.
  cbn [and_then].
  destruct (dict_getitem d "hourly_units") as [hu|e|]; try discriminate.
  cbn [and_then]. destruct (items hu) as [units|e|]; try discriminate.
  cbn [and_then]. intros E2.
  pose proof (DataFrame_of_rectangular _ _ E0) as H0.
  destruct (assign_all_rectangular _ _ _ _ E1 H0) as [H1 _].
  now destruct (assign_all_rectangular _ _ _ _ E2 H1).
Qed.

Lemma select_replace_col (k k' : string) (c : column) cols :
  select k' (replace_col k c cols) =
  if String.eqb k' k then map (fun _ => (k, c)) (select k cols)
  else select k' cols.
Proof.
  unfold select, replace_col.
  induction cols as [|[k0 c0] cols IH]; cbn [map List.filter fst].
  - now destruct (String.eqb k' k).
  - destruct (String.eqb_spec k0 k) as [->|Hne]; cbn [fst].
    + rewrite (String.eqb_sym k k'), IH.
      destruct (String.eqb_spec k' k) as [->|_]; [|reflexivity].
      reflexivity.
    + rewrite IH. destruct (String.eqb_spec k' k) as [->|_]; [|reflexivity].
      destruct (String.eqb_spec k0 k) as [->|_]; [contradiction | reflexivity].
Qed.

Lemma select_app (k : string) cols1 cols2 :
  select k (cols1 ++ cols2) = select k cols1 ++ select k cols2.
Proof. apply List.filter_app. Qed.

Lemma frame_setitem_select f (k : string) (c : column) f' :
  frame_setitem f k c = Ok f' ->
  col_length c = index_len f /\
  select k (columns f') = [(k, c)] /\
  forall k', k' <> k -> select k' (columns f') = select k' (columns f).
Proof.
  unfold frame_setitem.
  destruct (Nat.eqb_spec (col_length c) (index_len f)) as [Ec|]; [|discriminate].
  destruct (select k (columns f)) as [|x [|y l]] eqn:Es; try discriminate;
    intros [= <-]; cbn [columns]; (split; [exact Ec|]); split.
  - rewrite select_app, Es. unfold select. cbn. now rewrite String.eqb_refl.
  - intros k' Hne. rewrite select_app. unfold select at 2. cbn.
    apply String.eqb_neq in Hne. rewrite String.eqb_sym, Hne.
    apply app_nil_r.
  - now rewrite select_replace_col, String.eqb_refl, Es.
  - intros k' Hne. rewrite select_replace_col.
    apply String.eqb_neq in Hne. now rewrite Hne.
Qed.

Lemma frame_setitem_index f (k : string) (c : column) f' :
  frame_setitem f k c = Ok f' -> index_len f' = index_len f.
Proof.
  unfold frame_setitem. destruct (col_length c =? index_len f); [|discriminate].
  destruct (select k (columns f)) as [|x [|y l]]; try discriminate;
    now intros [= <-].
Qed.

Lemma frame_getitem_single f (k : string) (c : column) :
  select k (columns f) = [(k, c)] -> frame_getitem f k = Ok c.
Proof. intros E. unfold frame_getitem. now rewrite E. Qed.

Lemma frame_getitem_Ok f (k : string) (c : column) :
  frame_getitem f k = Ok c -> exists k0, select k (columns f) = [(k0, c)].
Proof.
  unfold frame_getitem.
  destruct (select k (columns f)) as [|[k0 c0] [|y l]]; try discriminate.
  intros [= <-]. eauto.
Qed.

(** After the splitting of [time] the two columns hold the dates and the
    times of day of one list of timestamps, one per row. *)
Lemma columns_of_dict_plain (m : dict) cols :
  columns_of_dict m = Some cols ->
  forallb (fun kc => is_values (snd kc)) cols = true.
Proof.
  revert cols. induction m as [|[k v] m IH]; intros cols; cbn [columns_of_dict].
  - now intros [= <-].
  - destruct (column_of_json v) as [c|] eqn:Ec; [|discriminate].
    destruct (columns_of_dict m) as [cols0|]; [|discriminate].
    intros [= <-]. cbn [forallb snd]. rewrite (IH cols0 eq_refl), andb_true_r.
    destruct v as [| | | | |vs|]; try discriminate. cbn [column_of_json] in Ec.
    destruct (cells_of_array vs); [|discriminate]. now injection Ec as <-.
Qed.

Lemma DataFrame_of_plain (v : json) f :
  DataFrame_of v = Ok f -> plain f = true.
Proof.
  destruct v as [| | | | | |m]; try discriminate. cbn [DataFrame_of].
  destruct (columns_of_dict m) as [[|[k c] cols]|] eqn:Ec; try discriminate.
  - now intros [= <-].
  - destruct (forallb _ cols); [|discriminate]. intros [= <-].
    exact (columns_of_dict_plain m _ Ec).
Qed.

Lemma frame_setitem_plain f (k : string) (c : column) f' :
  frame_setitem f k c = Ok f' -> is_values c = true -> plain f = true ->
  plain f' = true.
Proof.
  unfold frame_setitem, plain.
  destruct (col_length c =? index_len f); [|discriminate].
  destruct (select k (columns f)) as [|x [|y l]]; try discriminate;
    intros [= <-] Hc Hp; cbn [columns].
  - rewrite forallb_app, Hp. cbn. now rewrite Hc.
  - unfold replace_col. rewrite forallb_forall in Hp. apply forallb_forall.
    intros kc [kc0 [<- Hin]]%in_map_iff.
    destruct (String.eqb (fst kc0) k); [exact Hc | exact (Hp _ Hin)].
Qed.

Lemma assign_all_plain (key_of : string -> string) (l : dict) f f' :
  assign_all key_of l f = Ok f' -> plain f = true -> plain f' = true.
Proof.
  revert f. induction l as [|kv l IH]; intros f E Hp.
  - now injection E as <-.
  - cbn [assign_all] in E. unfold frame_setitem_scalar in E.
    destruct (cell_of_json (snd kv)) as [c|]; [|discriminate].
    destruct (frame_setitem f _ _) as [f1|e|] eqn:E1; try discriminate.
    exact (IH f1 E (frame_setitem_plain _ _ _ _ E1 eq_refl Hp)).
Qed.

(** No column of the flattened table is a [datetime64] column. *)
Lemma flattened_plain (d : dict) f :
  flattened d = Ok f -> plain f = true.
Proof.
  unfold flattened.
  destruct (dict_getitem d "hourly") as [hourly|e|]; try discriminate.
  cbn [and_then].
  destruct (DataFrame_of hourly) as [f0|e|] eqn:E0; try discriminate.
  cbn [and_then].
  destruct (assign_all _ (metadata_of d) f0) as [f1|e|] eqn:E1; try discriminate.
  cbn [and_then].
  destruct (dict_getitem d "hourly_units") as [hu|e|]; try discriminate.
  cbn [and_then]. destruct (items hu) as [units|e|]; try discriminate.
  cbn [and_then]. intros E2.
  pose proof (DataFrame_of_plain _ _ E0) as H0.
  exact (assign_all_plain _ _ _ _ E2 (assign_all_plain _ _ _ _ E1 H0)).
Qed.

(** The timestamps that [pd.to_datetime] reads off strings are dates and
    times of day of the calendar. *)
Lemma to_datetime_valid (cells : list cell) (stamps : list Timestamp) :
  to_datetime (Values cells) = Ok (Datetimes stamps) ->
  Forall (fun st => valid_date (ts_date st) = true /\
                    valid_time (ts_time st) = true) stamps.
Proof.
  assert (Hfmt : forall fmt ss,
             mapM (parse_timestamp fmt) ss = Some stamps ->
             Forall (fun st => valid_date (ts_date st) = true /\
                               valid_time (ts_time st) = true) stamps).
  { intros fmt ss H%mapM_Some_1.
    induction H as [|s0 st ss0 stamps0 Hs _ IH]; constructor; [|exact IH].
    exact (parse_timestamp_valid fmt s0 st Hs). }
  unfold to_datetime.
  destruct (mapM cell_str cells) as [ss|]; [|discriminate].
  destruct (mapM (parse_timestamp IsoMinutes) ss) as [st1|] eqn:E1.
  - intros [= <-]. exact (Hfmt _ _ E1).
  - destruct (mapM (parse_timestamp SpaceSeconds) ss) as [st2|] eqn:E2;
      [|discriminate].
    intros [= <-]. exact (Hfmt _ _ E2).
Qed.

Lemma frame_getitem_In f (k : string) (c : column) :
  frame_getitem f k = Ok c -> In (k, c) (columns f).
Proof.
  intros (k0 & Hsel)%frame_getitem_Ok.
  assert (Hin : In (k0, c) (select k (columns f))) by (rewrite Hsel; now left).
  apply filter_In in Hin as [Hin Heq]. apply String.eqb_eq in Heq.
  cbn [fst] in Heq. now subst k0.
Qed.

Lemma split_time_columns f f' :
  split_time f = Ok f' ->
  index_len f' = index_len f /\
  (rectangular f = true -> rectangular f' = true) /\
  exists stamps,
    length stamps = index_len f /\
    select "time" (columns f')
    = [("time", Values (map (fun st => CDate (ts_date st)) stamps))] /\
    select "hour" (columns f')
    = [("hour", Values (map (fun st => CTime (ts_time st)) stamps))] /\
    (plain f = true ->
     Forall (fun st => valid_date (ts_date st) = true /\
                       valid_time (ts_time st) = true) stamps).
Proof.
  unfold split_time.
  destruct (frame_getitem f "time") as [t0|e|] eqn:E0; try discriminate.
  cbn [and_then].
  destruct (to_datetime t0) as [t1|e|] eqn:Et; try discriminate. cbn [and_then].
  destruct (frame_setitem f "time" t1) as [f1|e|] eqn:E1; try discriminate.
  cbn [and_then].
  destruct (frame_setitem_select _ _ _ _ E1) as (L1 & S1 & _).
  rewrite (frame_getitem_single f1 "time" t1 S1). cbn [and_then].
  destruct t1 as [cells|stamps]; [discriminate|]. cbn [dt_time and_then].
  destruct (frame_setitem f1 "hour" _) as [f2|e|] eqn:E2; try discriminate.
  cbn [and_then].
  destruct (frame_setitem_select _ _ _ _ E2) as (_ & S2 & O2).
  assert (St : select "time" (columns f2) = [("time", Datetimes stamps)])
    by (rewrite O2; [exact S1 | discriminate]).
  rewrite (frame_getitem_single f2 "time" _ St). cbn [dt_date and_then].
  intros E3. destruct (frame_setitem_select _ _ _ _ E3) as (_ & S3 & O3).
  split; [|split].
  - rewrite (frame_setitem_index _ _ _ _ E3), (frame_setitem_index _ _ _ _ E2).
    exact (frame_setitem_index _ _ _ _ E1).
  - intros Hr.
    destruct (frame_setitem_rectangular _ _ _ _ E1 Hr) as [Hr1 _].
    destruct (frame_setitem_rectangular _ _ _ _ E2 Hr1) as [Hr2 _].
    now destruct (frame_setitem_rectangular _ _ _ _ E3 Hr2).
  - exists stamps. split; [exact L1|]. split; [exact S3|].
    split; [rewrite O3; [exact S2 | discriminate]|].
    intros Hp. unfold plain in Hp. rewrite forallb_forall in Hp.
    pose proof (Hp _ (frame_getitem_In _ _ _ E0)) as Hv. cbn [snd] in Hv.
    destruct t0 as [cells|]; [|discriminate].
    exact (to_datetime_valid cells stamps Et).
Qed.

Lemma select_renamed_kept (k : string) cols :
  String.eqb k "temperature" = false ->
  String.eqb k "temperature_unit" = false ->
  String.eqb k "temperature_2m" = false ->
  String.eqb k "temperature_2m_unit" = false ->
  select k (map (fun kc => (renamed (fst kc), snd kc)) cols) = select k cols.
Proof.
  intros N1 N2 N3 N4. unfold select.
  apply String.eqb_neq in N1, N2, N3, N4.
  induction cols as [|[k0 c0] cols IH]; [reflexivity|].
  cbn [map List.filter fst snd]. rewrite IH. unfold renamed. cbn [dict_get renaming].
  destruct (String.eqb_spec k0 "temperature_2m") as [->|_]; cbn [from_option id].
  { destruct (String.eqb_spec "temperature" k) as [<-|_]; [contradiction|].
    destruct (String.eqb_spec "temperature_2m" k) as [<-|_];
      [contradiction | reflexivity]. }
  destruct (String.eqb_spec k0 "temperature_2m_unit") as [->|_]; cbn [from_option id].
  { destruct (String.eqb_spec "temperature_unit" k) as [<-|_]; [contradiction|].
    destruct (String.eqb_spec "temperature_2m_unit" k) as [<-|_];
      [contradiction | reflexivity]. }
  reflexivity.
Qed.

Lemma select_select (k k' : string) cols :
  select k (select k' cols) = if String.eqb k k' then select k cols else [].
Proof.
  unfold select. induction cols as [|[k0 c0] cols IH]; cbn [List.filter fst].
  - now destruct (String.eqb k k').
  - destruct (String.eqb_spec k0 k') as [->|Hne]; cbn [List.filter fst].
    + rewrite IH, (String.eqb_sym k' k).
      now destruct (String.eqb k k').
    + rewrite IH. destruct (String.eqb_spec k k') as [->|_]; [|reflexivity].
      destruct (String.eqb_spec k0 k') as [->|_]; [contradiction | reflexivity].
Qed.

Lemma select_flat_map (k : string) cols (names : list string) :
  select k (flat_map (fun k' => select k' cols) names) =
  flat_map (fun k' => if String.eqb k k' then select k cols else []) names.
Proof.
  induction names as [|k' names IH]; [reflexivity|].
  cbn [flat_map]. now rewrite select_app, select_select, IH.
Qed.

Lemma frame_getitem_list_Ok f (names : list string) (t : DataFrame) :
  frame_getitem_list f names = Ok t ->
  t = Frame (index_len f) (flat_map (fun k => select k (columns f)) names) /\
  forall k, In k names -> select k (columns f) <> [].
Proof.
  unfold frame_getitem_list.
  destruct (List.filter (absent (columns f)) names) eqn:E; [|discriminate].
  intros [= <-]. split; [reflexivity|].
  intros k Hk Hnone.
  assert (Hin : In k (List.filter (absent (columns f)) names)).
  { apply filter_In. split; [exact Hk|]. unfold absent. now rewrite Hnone. }
  rewrite E in Hin. destruct Hin.
Qed.

(** Whatever the document, the table that the three steps of
    [transform_data] come to is rectangular, carries each of the twelve
    labels and no other, and holds in [time] and [hour] the dates and the
    times of day of one timestamp of the calendar per row, as the table
    before the projection does. *)
Lemma shaped_table (d : dict) (t : DataFrame) :
  shaped d = Ok t ->
  exists f' stamps,
    and_then (flattened d) split_time = Ok f' /\
    index_len t = index_len f' /\
    rectangular t = true /\
    (forall kc, In kc (columns t) -> In (fst kc) ordered_columns) /\
    (forall k, In k ordered_columns -> exists c, In (k, c) (columns t)) /\
    length stamps = index_len t /\
    select "time" (columns f')
    = [("time", Values (map (fun st => CDate (ts_date st)) stamps))] /\
    select "hour" (columns f')
    = [("hour", Values (map (fun st => CTime (ts_time st)) stamps))] /\
    (forall X, select "time" (columns f') = [("time", X)] ->
               frame_getitem t "time" = Ok X) /\
    (forall X, select "hour" (columns f') = [("hour", X)] ->
               frame_getitem t "hour" = Ok X) /\
    Forall (fun st => valid_date (ts_date st) = true /\
                      valid_time (ts_time st) = true) stamps.
Proof.
  intros E. unfold shaped in E.
  destruct (flattened d) as [f|e|] eqn:Ef; try discriminate. cbn [and_then] in E.
  destruct (split_time f) as [f'|e|] eqn:Es; try discriminate. cbn [and_then] in E.
  pose proof (flattened_rectangular d f Ef) as Hr.
  destruct (split_time_columns f f' Es) as (Hn & Hr' & stamps & Hlen & St & Sh & Hv).
  specialize (Hr' Hr).
  destruct (frame_getitem_list_Ok _ _ _ E) as [-> Hall].
  change (columns (frame_rename renaming f'))
    with (map (fun kc => (renamed (fst kc), snd kc)) (columns f')) in *.
  cbn [index_len columns].
  set (cols := map (fun kc => (renamed (fst kc), snd kc)) (columns f')) in *.
  assert (Hsub : forall kc, In kc (flat_map (fun k => select k cols) ordered_columns)
                 -> In kc cols /\ In (fst kc) ordered_columns).
  { intros kc (k & Hk & Hin)%in_flat_map. apply filter_In in Hin as [Hin Heq].
    apply String.eqb_eq in Heq. split; [exact Hin | now rewrite Heq]. }
  exists f', stamps. cbn [and_then].
  split; [exact Es|]. split; [reflexivity|].
  split; [|split; [|split; [|split; [|split; [|split; [|split; [|split]]]]]]].
  - unfold rectangular. cbn [columns index_len]. apply forallb_forall.
    intros kc [Hin _]%Hsub. unfold cols in Hin.
    apply in_map_iff in Hin as (kc0 & <- & Hin0). cbn [snd].
    unfold rectangular in Hr'. rewrite forallb_forall in Hr'.
    exact (Hr' _ Hin0).
  - intros kc Hin. now apply Hsub.
  - intros k Hk. specialize (Hall k Hk).
    destruct (select k cols) as [|[k0 c0] l] eqn:Esel; [contradiction|].
    assert (Hin : In (k0, c0) (select k cols)) by (rewrite Esel; now left).
    pose proof Hin as Hin'. apply filter_In in Hin' as [_ Heq].
    apply String.eqb_eq in Heq. cbn [fst] in Heq. subst k0.
    exists c0. apply in_flat_map. exists k. split; [exact Hk | exact Hin].
  - change (length stamps = index_len f'). congruence.
  - exact St.
  - exact Sh.
  - intros X SX. apply frame_getitem_single; cbn [columns];
      rewrite select_flat_map; unfold ordered_columns; cbn [flat_map];
      change (String.eqb "time" "time") with true;
      cbv beta iota.
    change (String.eqb "time" "hour") with false.
    change (String.eqb "time" "temperature") with false.
    change (String.eqb "time" "latitude") with false.
    change (String.eqb "time" "longitude") with false.
    change (String.eqb "time" "generationtime_ms") with false.
    change (String.eqb "time" "utc_offset_seconds") with false.
    change (String.eqb "time" "timezone") with false.
    change (String.eqb "time" "timezone_abbreviation") with false.
    change (String.eqb "time" "elevation") with false.
    change (String.eqb "time" "time_unit") with false.
    change (String.eqb "time" "temperature_unit") with false.
    cbn [app]. rewrite app_nil_r. unfold cols.
    now rewrite select_renamed_kept.
  - intros X SX. apply frame_getitem_single; cbn [columns];
      rewrite select_flat_map; unfold ordered_columns; cbn [flat_map];
      change (String.eqb "hour" "hour") with true;
      cbv beta iota.
    change (String.eqb "hour" "time") with false.
    change (String.eqb "hour" "temperature") with false.
    change (String.eqb "hour" "latitude") with false.
    change (String.eqb "hour" "longitude") with false.
    change (String.eqb "hour" "generationtime_ms") with false.
    change (String.eqb "hour" "utc_offset_seconds") with false.
    change (String.eqb "hour" "timezone") with false.
    change (String.eqb "hour" "timezone_abbreviation") with false.
    change (String.eqb "hour" "elevation") with false.
    change (String.eqb "hour" "time_unit") with false.
    change (String.eqb "hour" "temperature_unit") with false.
    cbn [app]. rewrite app_nil_r. unfold cols.
    now rewrite select_renamed_kept.
  - exact (Hv (flattened_plain d f Ef)).
Qed.

(** ** Documents with a documented [hourly.time] *)

Lemma split_time_tidy (n : nat) f (ss : list string) (stamps : list Timestamp) :
  tidy n f ->
  dict_get "time" (columns f) = Some (Values (map CStr ss)) ->
  mapM (parse_timestamp IsoMinutes) ss = Some stamps ->
  length stamps = n ->
  exists f', split_time f = Ok f' /\ tidy n f' /\
    dict_get "time" (columns f')
    = Some (Values (map (fun st => CDate (ts_date st)) stamps)) /\
    dict_get "hour" (columns f')
    = Some (Values (map (fun st => CTime (ts_time st)) stamps)).
Proof.
  intros Hf Htime Hparse Hlen. unfold split_time.
  rewrite (frame_getitem_tidy n f "time" Hf), Htime. cbn [and_then].
  unfold to_datetime. rewrite mapM_cell_str_strings, Hparse. cbn [and_then].
  destruct (frame_setitem_tidy n f "time" (Datetimes stamps) Hf Hlen)
    as (f3 & -> & Hf3 & Hget3).
  cbn [and_then].
  rewrite (frame_getitem_tidy n f3 "time" Hf3), Hget3.
  change (String.eqb "time" "time") with true. cbn [and_then dt_time].
  destruct (frame_setitem_tidy n f3 "hour"
              (Values (map (fun ts => CTime (ts_time ts)) stamps)) Hf3)
    as (f4 & -> & Hf4 & Hget4); [cbn [col_length]; now rewrite length_map|].
  cbn [and_then].
  rewrite (frame_getitem_tidy n f4 "time" Hf4), Hget4, Hget3.
  change (String.eqb "time" "hour") with false.
  change (String.eqb "time" "time") with true. cbn [and_then dt_date].
  destruct (frame_setitem_tidy n f4 "time"
              (Values (map (fun ts => CDate (ts_date ts)) stamps)) Hf4)
    as (f5 & -> & Hf5 & Hget5); [cbn [col_length]; now rewrite length_map|].
  exists f5. split; [reflexivity|]. split; [exact Hf5|].
  split; [now rewrite Hget5 | now rewrite Hget5, Hget4].
Qed.

Lemma timed_parts (n : nat) (d : dict) :
  timed n d = true ->
  flattens n d = true /\
  dict_get "time" (metadata_of d) = None /\
  dict_get "time" (hourly_of d) = Some (JArr (times_of d)) /\
  forallb documented_time (times_of d) = true /\
  length (times_of d) = n.
Proof.
  unfold timed. rewrite !andb_true_iff.
  intros [[[Hflat Htop] Harr] Hdoc].
  assert (Et : dict_get "time" (hourly_of d) = Some (JArr (times_of d))).
  { unfold times_of.
    now destruct (dict_get "time" (hourly_of d)) as [[]|]. }
  split; [exact Hflat|]. split; [|split; [exact Et|split; [exact Hdoc|]]].
  - unfold metadata_of.
    rewrite (dict_get_filter "time" d
               (fun k => negb (mem k ["hourly"; "hourly_units"]))).
    change (negb (mem "time" ["hourly"; "hourly_units"])) with true.
    cbv beta iota. apply dict_get_absent. now apply negb_true_iff.
  - unfold flattens, frame_ready in Hflat. rewrite !andb_true_iff in Hflat.
    destruct Hflat as [[[[[[[[_ _] _] _] Harrays] _] _] _] _].
    rewrite forallb_forall in Harrays.
    pose proof (Harrays _ (dict_get_In _ _ _ Et)) as Hv.
    cbn [snd scalar_array] in Hv. apply andb_true_iff in Hv as [Hn _].
    now apply Nat.eqb_eq.
Qed.

(** On such a document the flattening and the splitting of [time] go
    through, and [time] and [hour] hold the dates and the times of day of
    the entries of [hourly.time], in their order. *)
Lemma split_timed (n : nat) (d : dict) :
  timed n d = true ->
  exists f stamps,
    and_then (flattened d) split_time = Ok f /\ tidy n f /\
    Forall2 (fun v st => stamp_of v = Some st) (times_of d) stamps /\
    dict_get "time" (columns f)
    = Some (Values (map (fun st => CDate (ts_date st)) stamps)) /\
    dict_get "hour" (columns f)
    = Some (Values (map (fun st => CTime (ts_time st)) stamps)).
Proof.
  intros (Hflat & Hmeta & Et & Hdoc & Hn)%timed_parts.
  destruct (flattened_flattens n d Hflat) as (f2 & -> & Hf2 & Hget2 & _).
  destruct (documented_times _ Hdoc) as (ss & stamps & Ets & Hparse & Hstamps).
  assert (Hlen : length stamps = n).
  { apply mapM_Some_length in Hparse. rewrite <- Hn, Ets, length_map.
    exact Hparse. }
  assert (Htime2 : dict_get "time" (columns f2) = Some (Values (map CStr ss))).
  { rewrite Hget2. unfold flat_column. rewrite dict_get_unit_labels.
    change (strip_unit "time") with (@None string). cbv beta iota.
    rewrite Hmeta, Et, Ets. cbn [column_of_json]. now rewrite cells_of_strings. }
  cbn [and_then].
  destruct (split_time_tidy n f2 ss stamps Hf2 Htime2 Hparse Hlen)
    as (f5 & -> & Hf5 & Ht5 & Hh5).
  now exists f5, stamps.
Qed.

Lemma timed_table (n : nat) (d : dict) (t : DataFrame) :
  timed n d = true -> shaped d = Ok t ->
  exists stamps,
    Forall2 (fun v st => stamp_of v = Some st) (times_of d) stamps /\
    index_len t = n /\
    rectangular t = true /\
    (forall kc, In kc (columns t) -> In (fst kc) ordered_columns) /\
    (forall k, In k ordered_columns -> exists c, In (k, c) (columns t)) /\
    frame_getitem t "time"
    = Ok (Values (map (fun st => CDate (ts_date st)) stamps)) /\
    frame_getitem t "hour"
    = Ok (Values (map (fun st => CTime (ts_time st)) stamps)).
Proof.
  intros Ht E.
  destruct (split_timed n d Ht) as (f & stamps & Ef & [Hn Hd] & Hst & Hti & Hho).
  destruct (shaped_table d t E)
    as (f' & _ & Ef' & Hlen & Hr & Hlab & Hall & _ & _ & _ & Kt & Kh & _).
  rewrite Ef in Ef'. injection Ef' as <-.
  exists stamps. split; [exact Hst|]. split; [congruence|].
  split; [exact Hr|]. split; [exact Hlab|]. split; [exact Hall|].
  split; [apply Kt | apply Kh]; rewrite (select_dict_get _ _ Hd);
    [now rewrite Hti | now rewrite Hho].
Qed.

Lemma timed_outcome (n : nat) (d : dict) :
  timed n d = true ->
  (exists missing,
      shaped d = Raise (KeyError missing) /\ missing <> [] /\
      forall k, In k missing -> In k ordered_columns) \/
  (exists t, shaped d = Ok t).
Proof.
  intros Ht. destruct (split_timed n d Ht) as (f & _ & Ef & _).
  rewrite shaped_eq, Ef. cbn [and_then]. unfold frame_getitem_list.
  destruct (List.filter _ ordered_columns) as [|k l] eqn:E.
  - right. eauto.
  - left. exists (k :: l). split; [reflexivity|]. split; [discriminate|].
    intros k' Hk'. rewrite <- E in Hk'. now apply filter_In in Hk'.
Qed.

Lemma stamps_of_documented (vs : list json) (stamps : list Timestamp) :
  Forall2 (fun v st => stamp_of v = Some st) vs stamps ->
  length stamps = length vs.
Proof. intros H. symmetry. exact (Forall2_length _ _ _ H). Qed.

(** X7.  On a document that flattens and whose [hourly.time], shadowed by
    no scalar of the document, holds [n] moments in the documented layout,
    [transform_data] either raises [KeyError] with one or more labels of
    the projection, or returns a table of [n] rows that is
    rectangular (every column has one cell per row), carries each of the
    twelve labels and no other label, and holds in [time] and [hour] of row
    [i] the date and the time of day of entry [i] of [hourly.time].  The
    document need not be a valid response. *)
Theorem transform_data_returns (w : world) (data : loc) (d : dict) (n : nat) :
  heap w !! data = Some (ODict d) ->
  timed n d = true ->
  (exists missing,
      table_of (transform_data data w) = Raise (KeyError missing) /\
      missing <> [] /\
      forall k, In k missing -> In k ordered_columns) \/
  (exists t stamps,
      table_of (transform_data data w) = Ok t /\
      Forall2 (fun v st => stamp_of v = Some st) (times_of d) stamps /\
      index_len t = n /\
      rectangular t = true /\
      (forall kc, In kc (columns t) -> In (fst kc) ordered_columns) /\
      (forall k, In k ordered_columns -> exists c, In (k, c) (columns t)) /\
      frame_getitem t "time"
      = Ok (Values (map (fun st => CDate (ts_date st)) stamps)) /\
      frame_getitem t "hour"
      = Ok (Values (map (fun st => CTime (ts_time st)) stamps))).
Proof.
  intros Hl Ht. destruct w as [h dr].
  rewrite (table_of_transform_data h dr data d Hl).
  destruct (timed_outcome n d Ht) as [Hmiss | (t & E)]; [now left|].
  right. destruct (timed_table n d t Ht E) as (stamps & H).
  exists t, stamps. split; [exact E | exact H].
Qed.

Lemma transform_data_returns_witness :
  heap (World [ODict plain_temperature] []) !! 0 = Some (ODict plain_temperature) /\
  timed 2 plain_temperature = true /\
  valid_response plain_temperature = false /\
  (exists t,
      table_of (transform_data 0 (World [ODict plain_temperature] [])) = Ok t /\
      index_len t = 2) /\
  ((exists missing,
       table_of (transform_data 0 (World [ODict plain_temperature] []))
       = Raise (KeyError missing) /\
       missing <> [] /\
       forall k, In k missing -> In k ordered_columns) \/
   (exists t stamps,
       table_of (transform_data 0 (World [ODict plain_temperature] [])) = Ok t /\
       Forall2 (fun v st => stamp_of v = Some st) (times_of plain_temperature)
               stamps /\
       index_len t = 2 /\
       rectangular t = true /\
       (forall kc, In kc (columns t) -> In (fst kc) ordered_columns) /\
       (forall k, In k ordered_columns -> exists c, In (k, c) (columns t)) /\
       frame_getitem t "time"
       = Ok (Values (map (fun st => CDate (ts_date st)) stamps)) /\
       frame_getitem t "hour"
       = Ok (Values (map (fun st => CTime (ts_time st)) stamps)))).
Proof.
  split; [reflexivity|]. split; [reflexivity|]. split; [reflexivity|].
  split; [eexists; split; [vm_compute; reflexivity | reflexivity]|].
  exact (transform_data_returns (World [ODict plain_temperature] []) 0
           plain_temperature 2 eq_refl eq_refl).
Defined.

(** ** The labels the projection misses *)

Lemma column_after_supplied (d : dict) (stamps : list Timestamp) (k : string) :
  well_shaped d = true -> In k ordered_columns ->
  match column_after d stamps k with Some _ => false | None => true end
  = negb (supplied d k).
Proof.
  intros shape Hk.
  destruct (shape_parts d shape) as (_ & Hh & Hu & _).
  unfold well_formed_hourly in Hh. rewrite !andb_true_iff in Hh.
  destruct Hh as [_ Harrays]. rewrite forallb_forall in Harrays.
  unfold well_formed_units in Hu. rewrite !andb_true_iff in Hu.
  destruct Hu as [_ Hscal]. rewrite forallb_forall in Hscal.
  assert (Hhour : forall k', match match dict_get k' (hourly_of d) with
                                   | Some v => column_of_json v
                                   | None => None
                                   end with Some _ => false | None => true end
                             = negb (mem k' (keys (hourly_of d)))).
  { intros k'. rewrite mem_keys.
    destruct (dict_get k' (hourly_of d)) as [v|] eqn:Ev; [|reflexivity].
    pose proof (Harrays _ (dict_get_In _ _ _ Ev)) as Hv. cbn [snd] in Hv.
    apply column_of_scalar_array in Hv as (cells & -> & _). reflexivity. }
  assert (Hunit : forall k0 k',
             match match dict_get k0 (units_of d) with
                   | Some v => broadcast (length (times_of d)) v
                   | None =>
                       match dict_get k' (hourly_of d) with
                       | Some v => column_of_json v
                       | None => None
                       end
                   end with Some _ => false | None => true end
             = negb (mem k0 (keys (units_of d)) || mem k' (keys (hourly_of d)))).
  { intros k0 k'. rewrite (mem_keys k0 (units_of d)).
    destruct (dict_get k0 (units_of d)) as [v|] eqn:Ev.
    - pose proof (Hscal _ (dict_get_In _ _ _ Ev)) as Hv. cbn [snd] in Hv.
      destruct (broadcast_is_Some (length (times_of d)) v Hv) as (c & ->).
      reflexivity.
    - cbn [orb]. apply Hhour. }
  assert (Hmeta : forall k', mem k' metadata_names = true ->
             match match dict_get k' (metadata_of d) with
                   | Some v => broadcast (length (times_of d)) v
                   | None =>
                       match dict_get k' (hourly_of d) with
                       | Some v => column_of_json v
                       | None => None
                       end
                   end with Some _ => false | None => true end
             = negb (mem k' (keys d) || mem k' (keys (hourly_of d)))).
  { intros k' Hk'. rewrite (mem_keys k' d), <- (metadata_member d k' Hk').
    destruct (dict_get k' (metadata_of d)) as [v|] eqn:Ev.
    - destruct (metadata_scalar d shape k' v Ev) as [Hv _].
      destruct (broadcast_is_Some (length (times_of d)) v Hv) as (c & ->).
      reflexivity.
    - cbn [orb]. apply Hhour. }
  cbn [In ordered_columns] in Hk.
  destruct Hk as [<-|[<-|[<-|[<-|[<-|[<-|[<-|[<-|[<-|[<-|[<-|[<-|[]]]]]]]]]]]]].
  - reflexivity.
  - reflexivity.
  - change (column_after d stamps "temperature")
      with (column_before d stamps "temperature_2m").
    rewrite (column_before_label d stamps "temperature_2m" None) by reflexivity.
    rewrite (metadata_other d shape "temperature_2m" eq_refl). apply Hhour.
  - change (column_after d stamps "latitude")
      with (column_before d stamps "latitude").
    rewrite (column_before_label d stamps "latitude" None) by reflexivity.
    now apply Hmeta.
  - change (column_after d stamps "longitude")
      with (column_before d stamps "longitude").
    rewrite (column_before_label d stamps "longitude" None) by reflexivity.
    now apply Hmeta.
  - change (column_after d stamps "generationtime_ms")
      with (column_before d stamps "generationtime_ms").
    rewrite (column_before_label d stamps "generationtime_ms" None) by reflexivity.
    now apply Hmeta.
  - change (column_after d stamps "utc_offset_seconds")
      with (column_before d stamps "utc_offset_seconds").
    rewrite (column_before_label d stamps "utc_offset_seconds" None) by reflexivity.
    now apply Hmeta.
  - change (column_after d stamps "timezone")
      with (column_before d stamps "timezone").
    rewrite (column_before_label d stamps "timezone" None) by reflexivity.
    now apply Hmeta.
  - change (column_after d stamps "timezone_abbreviation")
      with (column_before d stamps "timezone_abbreviation").
    rewrite (column_before_label d stamps "timezone_abbreviation" None)
      by reflexivity.
    now apply Hmeta.
  - change (column_after d stamps "elevation")
      with (column_before d stamps "elevation").
    rewrite (column_before_label d stamps "elevation" None) by reflexivity.
    now apply Hmeta.
  - change (column_after d stamps "time_unit")
      with (column_before d stamps "time_unit").
    rewrite (column_before_label d stamps "time_unit" (Some "time")) by reflexivity.
    rewrite (metadata_other d shape "time_unit" eq_refl).
    change (supplied d "time_unit")
      with (mem "time" (keys (units_of d)) || mem "time_unit" (keys (hourly_of d))).
    apply Hunit.
  - change (column_after d stamps "temperature_unit")
      with (column_before d stamps "temperature_2m_unit").
    rewrite (column_before_label d stamps "temperature_2m_unit"
               (Some "temperature_2m")) by reflexivity.
    rewrite (metadata_other d shape "temperature_2m_unit" eq_refl).
    change (supplied d "temperature_unit")
      with (mem "temperature_2m" (keys (units_of d))
            || mem "temperature_2m_unit" (keys (hourly_of d))).
    apply Hunit.
Qed.

(** X8.  On a well-shaped document [transform_data] returns a table, of as
    many rows as [hourly.time] has entries, exactly when no column is
    missing; otherwise the projection raises one [KeyError] that lists all
    the missing labels at once, in the order of [ordered_columns]. *)
Theorem projection_reports_missing (w : world) (data : loc) (d : dict) :
  heap w !! data = Some (ODict d) ->
  well_shaped d = true ->
  (missing_labels d = [] ->
   exists t, table_of (transform_data data w) = Ok t /\
             index_len t = length (times_of d)) /\
  (missing_labels d <> [] ->
   table_of (transform_data data w) = Raise (KeyError (missing_labels d))).
Proof.
  intros Hl shape. destruct w as [h dr].
  rewrite (table_of_transform_data h dr data d Hl).
  destruct (renamed_well_shaped d shape) as (f & stamps & E & Hg & _ & Hget).
  rewrite shaped_eq, E. cbn [and_then].
  rewrite (frame_getitem_list_tidy _ _ ordered_columns Hg).
  assert (Efilter : List.filter (absent (columns (frame_rename renaming f)))
                                ordered_columns = missing_labels d).
  { unfold missing_labels. apply filter_ext_in. intros k Hk.
    rewrite (absent_tidy _ _ k Hg), Hget.
    now apply column_after_supplied. }
  rewrite Efilter. split.
  - intros ->. eexists. split; reflexivity.
  - intros Hne. destruct (missing_labels d); [contradiction | reflexivity].
Qed.

Lemma projection_reports_missing_witness :
  heap (World [ODict sparse] []) !! 0 = Some (ODict sparse) /\
  well_shaped sparse = true /\
  missing_labels sparse = ["temperature"; "elevation"; "temperature_unit"] /\
  table_of (transform_data 0 (World [ODict sparse] []))
  = Raise (KeyError (missing_labels sparse)).
Proof.
  split; [reflexivity|]. split; [reflexivity|]. split; [reflexivity|].
  refine (proj2 (projection_reports_missing (World [ODict sparse] []) 0 sparse
                   eq_refl eq_refl) _).
  discriminate.
Defined.

(** ** Runs of [plot_temperature] *)

Lemma combined_datetime_run (w : world) (l : loc) (t : DataFrame) :
  heap w !! l = Some (OFrame t) ->
  combined_datetime l w = (datetime_of t, w).
Proof.
  intros Hl. unfold combined_datetime, datetime_of.
  rewrite bind_run, (getitem_at w l t _ Hl).
  destruct (frame_getitem t "time") as [d|e|]; cbn [and_then]; try reflexivity.
  rewrite bind_run. unfold lift at 1.
  destruct (astype_str d) as [ds|e|]; cbn [and_then]; try reflexivity.
  rewrite bind_run. unfold lift at 1.
  destruct (add_str ds " ") as [ds'|e|]; cbn [and_then]; try reflexivity.
  rewrite bind_run, (getitem_at w l t _ Hl).
  destruct (frame_getitem t "hour") as [hr|e|]; cbn [and_then]; try reflexivity.
  rewrite bind_run. unfold lift at 1.
  destruct (astype_str hr) as [hs|e|]; cbn [and_then]; try reflexivity.
  rewrite bind_run. unfold lift at 1.
  destruct (add_series ds' hs) as [s|e|]; cbn [and_then]; reflexivity.
Qed.

Lemma copy_at (h : list object) (dr : list plt_call) (l : loc) (t : DataFrame) :
  h !! l = Some (OFrame t) ->
  copy l (World h dr) = (Ok (length h), above h dr t).
Proof.
  intros Hl. unfold copy.
  now rewrite bind_run, (read_frame_at (World h dr) l t Hl).
Qed.

Lemma plain_label_unit (s : string) :
  plain_label ("Temperature (" ++ s ++ ")") = plain_label s.
Proof.
  unfold plain_label. f_equal.
  rewrite !list_ascii_of_string_app, !existsb_app.
  change (existsb (Ascii.eqb "$") (list_ascii_of_string "Temperature ("))
    with false.
  change (existsb (Ascii.eqb "$") (list_ascii_of_string ")")) with false.
  now rewrite orb_false_r.
Qed.

Lemma plot_temperature_run (h : list object) (dr : list plt_call) (l : loc)
      (t : DataFrame) (hours : Z) :
  h !! l = Some (OFrame t) ->
  plot_temperature l hours (World h dr) =
  (fst (fst (plotted t hours)),
   above h (dr ++ snd (plotted t hours)) (snd (fst (plotted t hours)))).
Proof.
  intros Hl. unfold plot_temperature, plotted.
  rewrite bind_run, (copy_at h dr l t Hl). cbv beta iota.
  rewrite bind_run, (combined_datetime_run (above h dr t) (length h) t)
    by (apply list_lookup_middle; reflexivity).
  destruct (datetime_of t) as [dt|e|]; cbn [and_then fst snd];
    rewrite ?app_nil_r; try reflexivity.
  rewrite bind_run, setitem_top.
  destruct (frame_setitem t "datetime" dt) as [t'|e|]; cbn [fst snd];
    rewrite ?app_nil_r; try reflexivity.
  rewrite bind_run, plt_top by reflexivity. cbv beta iota.
  rewrite bind_run, getitem_top.
  destruct (frame_getitem t' "datetime") as [x|e|]; cbn [and_then fst snd];
    try reflexivity.
  rewrite bind_run, getitem_top.
  destruct (frame_getitem t' "temperature") as [y|e|]; cbn [and_then fst snd];
    try reflexivity.
  destruct (plottable (slice_to hours x) (slice_to hours y)) eqn:Hp.
  2: { rewrite bind_run. unfold plt at 1. cbn [accepted]. now rewrite Hp. }
  rewrite bind_run, plt_top by (cbn [accepted]; now rewrite Hp).
  cbv beta iota.
  rewrite bind_run, plt_top by reflexivity. cbv beta iota.
  rewrite bind_run, getitem_top. unfold unit_text.
  destruct (frame_getitem t' "temperature_unit") as [u|e|];
    cbn [and_then fst snd]; rewrite <- ?app_assoc; try reflexivity.
  rewrite bind_run. unfold lift at 1.
  destruct (iloc u 0) as [u0|e|]; cbn [and_then fst snd];
    rewrite <- ?app_assoc; try reflexivity.
  rewrite bind_run. unfold lift at 1.
  destruct (py_str u0) as [s|]; cbn [fst snd]; rewrite <- ?app_assoc;
    try reflexivity.
  rewrite bind_run. unfold plt at 1. cbn [accepted].
  rewrite plain_label_unit.
  destruct (plain_label s); cbn [fst snd]; rewrite <- ?app_assoc;
    [|reflexivity].
  cbn [heap drawn above]. fold (above h (dr ++ [plt_figure 12 5] ++
    [plt_plot (slice_to hours x) (slice_to hours y) "o" "-" "Temperature"] ++
    [plt_xlabel "Datetime"] ++ [plt_ylabel ("Temperature (" ++ s ++ ")")]) t').
  rewrite <- !app_assoc.
  fold (above h (dr ++ [plt_figure 12 5] ++
    [plt_plot (slice_to hours x) (slice_to hours y) "o" "-" "Temperature"] ++
    [plt_xlabel "Datetime"] ++ [plt_ylabel ("Temperature (" ++ s ++ ")")]) t').
  do 5 (rewrite bind_run, plt_top by reflexivity; cbv beta iota).
  rewrite plt_top by reflexivity.
  unfold drawing, line_calls. now rewrite <- !app_assoc.
Qed.

Lemma frame_setitem_other f (k : string) (c : column) f' (k' : string) :
  frame_setitem f k c = Ok f' -> k' <> k ->
  frame_getitem f' k' = frame_getitem f k'.
Proof.
  intros E Hne. destruct (frame_setitem_select f k c f' E) as (_ & _ & Hsel).
  unfold frame_getitem. now rewrite (Hsel k' Hne).
Qed.

Lemma frame_setitem_same f (k : string) (c : column) f' :
  frame_setitem f k c = Ok f' -> frame_getitem f' k = Ok c.
Proof.
  intros E. destruct (frame_setitem_select f k c f' E) as (_ & Hsel & _).
  now apply frame_getitem_single.
Qed.

(** The copy that [plot_temperature] leaves behind is the table given, or
    the table given with its [datetime] column. *)
Lemma plotted_copy (t : DataFrame) (hours : Z) :
  snd (fst (plotted t hours)) = t \/
  exists dt, datetime_of t = Ok dt /\
             frame_setitem t "datetime" dt = Ok (snd (fst (plotted t hours))).
Proof.
  unfold plotted.
  destruct (datetime_of t) as [dt|e|]; cbn [and_then]; try (now left).
  destruct (frame_setitem t "datetime" dt) as [t'|e|] eqn:E; try (now left).
  right. exists dt. split; [reflexivity|].
  destruct (and_then (frame_getitem t' "datetime") _) as [[x y]|e|];
    try exact E.
  destruct (plottable _ _); [|exact E].
  destruct (unit_text t') as [s|e|]; try exact E.
  destruct (plain_label s); exact E.
Qed.

(** What the operations of pandas raise: a lookup raises [KeyError] for
    its label, the assignment of a column and the making of the date-times
    raise nothing, and the unit of row 0 raises [KeyError] for its column
    or [IndexError]. *)
Lemma frame_getitem_raises f (k : string) (e : exn) :
  frame_getitem f k = Raise e -> e = KeyError [k].
Proof.
  unfold frame_getitem.
  destruct (select k (columns f)) as [|[k0 c0] [|y l]]; try discriminate.
  now intros [= <-].
Qed.

Lemma frame_setitem_raises f (k : string) (c : column) (e : exn) :
  frame_setitem f k c <> Raise e.
Proof.
  unfold frame_setitem. destruct (col_length c =? index_len f); [|discriminate].
  destruct (select k (columns f)) as [|x [|y l]]; discriminate.
Qed.

Lemma datetime_of_raises (t : DataFrame) (e : exn) :
  datetime_of t = Raise e -> e = KeyError ["time"] \/ e = KeyError ["hour"].
Proof.
  unfold datetime_of.
  destruct (frame_getitem t "time") as [d|e0|] eqn:Et; cbn [and_then];
    [| intros [= <-]; left; exact (frame_getitem_raises _ _ _ Et)
     | discriminate].
  assert (Hstr : forall c e1, astype_str c <> Raise e1).
  { intros [cells|stamps] e1; cbn [astype_str]; [|discriminate].
    destruct (mapM py_str cells); discriminate. }
  destruct (astype_str d) as [ds|e0|] eqn:Ea; cbn [and_then];
    [| now destruct (Hstr d e0) | discriminate].
  destruct (add_str ds " ") as [ds'|e0|] eqn:Eadd; cbn [and_then];
    [| | discriminate].
  2: { unfold add_str in Eadd. destruct ds as [cells|]; [|discriminate].
       destruct (mapM cell_str cells); discriminate. }
  destruct (frame_getitem t "hour") as [hr|e0|] eqn:Eh; cbn [and_then];
    [| intros [= <-]; right; exact (frame_getitem_raises _ _ _ Eh)
     | discriminate].
  destruct (astype_str hr) as [hs|e0|] eqn:Eb; cbn [and_then];
    [| now destruct (Hstr hr e0) | discriminate].
  destruct (add_series ds' hs) as [s|e0|] eqn:Es; cbn [and_then];
    [| | discriminate].
  2: { unfold add_series in Es.
       destruct ds' as [c1|], hs as [c2|]; try discriminate.
       destruct (mapM cell_str c1), (mapM cell_str c2); try discriminate.
       destruct (length _ =? length _); discriminate. }
  unfold to_datetime. destruct s as [cells|]; [|discriminate].
  destruct (mapM cell_str cells) as [ss|]; [|discriminate].
  destruct (mapM (parse_timestamp IsoMinutes) ss); [discriminate|].
  destruct (mapM (parse_timestamp SpaceSeconds) ss); discriminate.
Qed.

Lemma unit_text_raises (t : DataFrame) (e : exn) :
  unit_text t = Raise e ->
  e = KeyError ["temperature_unit"] \/
  e = IndexError /\ exists u, frame_getitem t "temperature_unit" = Ok u /\
                             col_length u = 0.
Proof.
  unfold unit_text.
  destruct (frame_getitem t "temperature_unit") as [u|e0|] eqn:Eu;
    cbn [and_then];
    [| intros [= <-]; left; exact (frame_getitem_raises _ _ _ Eu)
     | discriminate].
  destruct (iloc u 0) as [c|e0|] eqn:Ei; cbn [and_then]; [| | discriminate].
  - destruct (py_str c); discriminate.
  - intros [= <-]. right.
    assert (Hi : e0 = IndexError /\ col_length u = 0).
    { destruct u as [cells|stamps]; cbn [iloc col_length] in *.
      - destruct cells; [now injection Ei as <- | discriminate].
      - destruct stamps; [now injection Ei as <- | discriminate]. }
    destruct Hi as [-> Hu]. split; [reflexivity | eauto].
Qed.

(** How far a call that returns, and a call that raises, has come *)
Lemma plotted_Ok (t : DataFrame) (hours : Z) :
  fst (fst (plotted t hours)) = Ok tt ->
  exists x y s,
    datetime_of t = Ok x /\ frame_getitem t "temperature" = Ok y /\
    plottable (slice_to hours x) (slice_to hours y) = true /\
    unit_text t = Ok s /\ plain_label s = true /\
    snd (plotted t hours) = drawing (slice_to hours x) (slice_to hours y) s.
Proof.
  unfold plotted.
  destruct (datetime_of t) as [dt|e|]; cbn [and_then]; try discriminate.
  destruct (frame_setitem t "datetime" dt) as [t'|e|] eqn:E; try discriminate.
  rewrite (frame_setitem_same t _ dt t' E). cbn [and_then].
  rewrite (frame_setitem_other t _ dt t' "temperature" E) by discriminate.
  destruct (frame_getitem t "temperature") as [y|e|]; cbn [and_then];
    try discriminate.
  destruct (plottable (slice_to hours dt) (slice_to hours y)) eqn:Hp;
    [|discriminate].
  unfold unit_text.
  rewrite (frame_setitem_other t _ dt t' "temperature_unit" E) by discriminate.
  fold (unit_text t).
  destruct (unit_text t) as [s|e|]; try discriminate.
  destruct (plain_label s) eqn:Hs; [|discriminate].
  intros _. now exists dt, y, s.
Qed.

Lemma plotted_raises (t : DataFrame) (hours : Z) (e : exn) :
  fst (fst (plotted t hours)) = Raise e ->
  (datetime_of t = Raise e /\ snd (plotted t hours) = []) \/
  (frame_getitem t "temperature" = Raise e /\
   snd (plotted t hours) = [plt_figure 12 5]) \/
  (unit_text t = Raise e /\
   exists x y, datetime_of t = Ok x /\ frame_getitem t "temperature" = Ok y /\
               snd (plotted t hours)
               = line_calls (slice_to hours x) (slice_to hours y)).
Proof.
  unfold plotted.
  destruct (datetime_of t) as [dt|e0|]; cbn [and_then]; [| | discriminate].
  2: { intros [= <-]. now left. }
  destruct (frame_setitem t "datetime" dt) as [t'|e0|] eqn:E;
    [| now destruct (frame_setitem_raises t "datetime" dt e0) | discriminate].
  rewrite (frame_setitem_same t _ dt t' E). cbn [and_then].
  rewrite (frame_setitem_other t _ dt t' "temperature" E) by discriminate.
  destruct (frame_getitem t "temperature") as [y|e0|]; cbn [and_then];
    [| | discriminate].
  2: { intros [= <-]. right. now left. }
  destruct (plottable (slice_to hours dt) (slice_to hours y)); [|discriminate].
  unfold unit_text.
  rewrite (frame_setitem_other t _ dt t' "temperature_unit" E) by discriminate.
  fold (unit_text t).
  destruct (unit_text t) as [s|e0|]; cbn [fst snd]; try discriminate.
  - destruct (plain_label s); discriminate.
  - intros [= <-]. right. right. split; [reflexivity|]. now exists dt, y.
Qed.

(** X9.  [plot_temperature] works on a copy.  Called on a table of the
    store, whether it returns or raises, it leaves every object of the
    store as it was, the table it was given included, and adds one table:
    the copy, which has the rows of the table given and, apart from
    [datetime], its columns. *)
Theorem plot_temperature_on_copy (w : world) (l : loc) (t : DataFrame)
        (hours : Z) :
  heap w !! l = Some (OFrame t) ->
  exists t',
    heap (snd (plot_temperature l hours w)) = heap w ++ [OFrame t'] /\
    index_len t' = index_len t /\
    (forall k, k <> "datetime" -> frame_getitem t' k = frame_getitem t k) /\
    (forall l' o, heap w !! l' = Some o ->
                  heap (snd (plot_temperature l hours w)) !! l' = Some o).
Proof.
  intros Hl. destruct w as [h dr]. cbn [heap] in Hl |- *.
  rewrite (plot_temperature_run h dr l t hours Hl). cbn [snd heap above].
  exists (snd (fst (plotted t hours))).
  split; [reflexivity|].
  destruct (plotted_copy t hours) as [->|(dt & _ & E)].
  - split; [reflexivity|]. split; [reflexivity|].
    intros l' o Ho. now apply lookup_app_l_Some.
  - split; [exact (frame_setitem_index _ _ _ _ E)|].
    split; [intros k Hk; exact (frame_setitem_other _ _ _ _ k E Hk)|].
    intros l' o Ho. now apply lookup_app_l_Some.
Qed.

Lemma plot_temperature_on_copy_witness :
  heap (World [OFrame bare_table] []) !! 0 = Some (OFrame bare_table) /\
  fst (plot_temperature 0 24 (World [OFrame bare_table] []))
  = Raise (KeyError ["time"]) /\
  exists t',
    heap (snd (plot_temperature 0 24 (World [OFrame bare_table] [])))
    = heap (World [OFrame bare_table] []) ++ [OFrame t'] /\
    index_len t' = index_len bare_table /\
    (forall k, k <> "datetime" ->
               frame_getitem t' k = frame_getitem bare_table k) /\
    (forall l' o, heap (World [OFrame bare_table] []) !! l' = Some o ->
                  heap (snd (plot_temperature 0 24 (World [OFrame bare_table] [])))
                  !! l' = Some o).
Proof.
  split; [reflexivity|]. split; [reflexivity|].
  exact (plot_temperature_on_copy (World [OFrame bare_table] []) 0 bare_table 24
           eq_refl).
Defined.

(** X10.  The calls on pyplot and the error of a call.  A call of
    [plot_temperature] that returns has made the ten calls of the drawing,
    [plt.show()] last, on the first [hours] entries of the date-times and
    of the temperatures, which are numbers, with the unit of row 0 in the
    label of the vertical axis.  A call that raises [KeyError] for [time]
    or [hour] has made no call on pyplot; one that raises it for
    [temperature] has opened the figure and no more; one that raises it for
    [temperature_unit], or raises [IndexError] because that column has no
    row 0, has opened the figure, plotted the line and labelled the
    horizontal axis.  In none of these was the figure shown.  (What pyplot
    does with a line that is not numbers over date-times is not
    followed.) *)
Theorem plot_temperature_calls (w : world) (l : loc) (t : DataFrame)
        (hours : Z) :
  heap w !! l = Some (OFrame t) ->
  exists calls,
    drawn (snd (plot_temperature l hours w)) = drawn w ++ calls /\
    (fst (plot_temperature l hours w) = Ok tt ->
     exists x y s,
       datetime_of t = Ok x /\ frame_getitem t "temperature" = Ok y /\
       plottable (slice_to hours x) (slice_to hours y) = true /\
       unit_text t = Ok s /\ plain_label s = true /\
       calls = drawing (slice_to hours x) (slice_to hours y) s /\
       last calls = Some plt_show) /\
    (forall ks, fst (plot_temperature l hours w) = Raise (KeyError ks) ->
       (ks = ["time"] \/ ks = ["hour"]) /\ calls = [] \/
       ks = ["temperature"] /\ calls = [plt_figure 12 5] \/
       ks = ["temperature_unit"] /\ exists x y, calls = line_calls x y) /\
    (fst (plot_temperature l hours w) = Raise IndexError ->
       (exists u, frame_getitem t "temperature_unit" = Ok u /\
                  col_length u = 0) /\
       exists x y, calls = line_calls x y).
Proof.
  intros Hl. destruct w as [h dr]. cbn [heap] in Hl.
  rewrite (plot_temperature_run h dr l t hours Hl). cbn [fst snd drawn above].
  exists (snd (plotted t hours)). split; [reflexivity|]. split; [|split].
  - intros (x & y & s & Hx & Hy & Hp & Hs & Hpl & ->)%plotted_Ok.
    exists x, y, s. repeat split; assumption || reflexivity.
  - intros ks [[Hd ->] | [[Ht ->] | (Hu & x & y & _ & _ & ->)]]%plotted_raises.
    + left. split; [|reflexivity].
      destruct (datetime_of_raises t _ Hd) as [[= ->] | [= ->]]; auto.
    + right. left. split; [|reflexivity].
      now injection (frame_getitem_raises _ _ _ Ht) as ->.
    + right. right. split; [|eauto].
      destruct (unit_text_raises t _ Hu) as [[= ->] | [He _]];
        [reflexivity | discriminate He].
  - intros [[Hd ->] | [[Ht ->] | (Hu & x & y & _ & _ & ->)]]%plotted_raises.
    + destruct (datetime_of_raises t _ Hd) as [He | He]; discriminate He.
    + discriminate (frame_getitem_raises _ _ _ Ht).
    + destruct (unit_text_raises t _ Hu) as [He | [_ Hempty]];
        [discriminate He|]. split; [exact Hempty | eauto].
Qed.

Lemma plot_temperature_calls_witness :
  heap (World [OFrame unitless_table] []) !! 0 = Some (OFrame unitless_table) /\
  fst (plot_temperature 0 24 (World [OFrame unitless_table] []))
  = Raise (KeyError ["temperature_unit"]) /\
  exists calls,
    drawn (snd (plot_temperature 0 24 (World [OFrame unitless_table] [])))
    = drawn (World [OFrame unitless_table] []) ++ calls /\
    (fst (plot_temperature 0 24 (World [OFrame unitless_table] [])) = Ok tt ->
     exists x y s,
       datetime_of unitless_table = Ok x /\
       frame_getitem unitless_table "temperature" = Ok y /\
       plottable (slice_to 24 x) (slice_to 24 y) = true /\
       unit_text unitless_table = Ok s /\ plain_label s = true /\
       calls = drawing (slice_to 24 x) (slice_to 24 y) s /\
       last calls = Some plt_show) /\
    (forall ks,
        fst (plot_temperature 0 24 (World [OFrame unitless_table] []))
        = Raise (KeyError ks) ->
       (ks = ["time"] \/ ks = ["hour"]) /\ calls = [] \/
       ks = ["temperature"] /\ calls = [plt_figure 12 5] \/
       ks = ["temperature_unit"] /\ exists x y, calls = line_calls x y) /\
    (fst (plot_temperature 0 24 (World [OFrame unitless_table] []))
     = Raise IndexError ->
       (exists u, frame_getitem unitless_table "temperature_unit" = Ok u /\
                  col_length u = 0) /\
       exists x y, calls = line_calls x y).
Proof.
  split; [reflexivity|]. split; [vm_compute; reflexivity|].
  exact (plot_temperature_calls (World [OFrame unitless_table] []) 0
           unitless_table 24 eq_refl).
Defined.

(** ** The drawing of a valid response *)

(** Line 94 on a table that holds the dates and the times of day of
    [stamps] gives the timestamps back. *)
Lemma datetime_of_split (t : DataFrame) (stamps : list Timestamp) :
  frame_getitem t "time" = Ok (Values (map (fun st => CDate (ts_date st)) stamps)) ->
  frame_getitem t "hour" = Ok (Values (map (fun st => CTime (ts_time st)) stamps)) ->
  Forall (fun st => valid_date (ts_date st) = true /\
                    valid_time (ts_time st) = true) stamps ->
  datetime_of t = Ok (Datetimes stamps).
Proof.
  intros Et Eh Hv.
  pose proof (combined_datetime_at (World [OFrame t] []) 0 t stamps
                eq_refl Et Eh Hv) as H.
  rewrite (combined_datetime_run (World [OFrame t] []) 0 t eq_refl) in H.
  now injection H.
Qed.

Lemma upto_all {A : Type} (n : Z) (l : list A) :
  (Z.of_nat (length l) <= n)%Z -> upto n l = l.
Proof.
  intros Hn. unfold upto.
  destruct (Z.leb_spec 0 n) as [_|Hneg]; [|lia].
  apply firstn_all2. lia.
Qed.

Lemma length_upto {A B : Type} (n : Z) (l : list A) (k : list B) :
  length l = length k -> length (upto n l) = length (upto n k).
Proof.
  intros E. unfold upto.
  destruct (0 <=? n)%Z; rewrite !length_firstn, E; reflexivity.
Qed.

Lemma forallb_upto {A : Type} (p : A -> bool) (n : Z) (l : list A) :
  forallb p l = true -> forallb p (upto n l) = true.
Proof.
  intros H. rewrite forallb_forall in H. apply forallb_forall.
  intros x Hx. apply H. unfold upto in Hx.
  destruct (0 <=? n)%Z;
    match type of Hx with
    | In _ (firstn ?k _) => rewrite <- (firstn_skipn k l)
    end; apply in_or_app; now left.
Qed.

(** A column made of numbers holds numbers. *)
Lemma number_cells (vs : list json) (cells : list cell) :
  cells_of_array vs = Some cells -> forallb json_number vs = true ->
  forallb is_number cells = true.
Proof.
  unfold cells_of_array.
  destruct (forallb numeric vs && existsb floating vs).
  - intros H%mapM_Some_1.
    induction H as [|v c vs cells Hv _ IH]; [reflexivity|].
    cbn [forallb]. intros [Hn Hns]%andb_true_iff.
    rewrite (IH Hns), andb_true_r.
    destruct v as [| |z| | | |]; try discriminate;
      cbn [float64_cell] in Hv;
      try (destruct (int64 z); [|discriminate]); now injection Hv as <-.
  - intros H%mapM_Some_1.
    induction H as [|v c vs cells Hv _ IH]; [reflexivity|].
    cbn [forallb]. intros [Hn Hns]%andb_true_iff.
    rewrite (IH Hns), andb_true_r.
    destruct v as [| |z| | | |]; try discriminate;
      cbn [cell_of_json] in Hv;
      try (destruct (int64 z); [|discriminate]); now injection Hv as <-.
Qed.

Lemma plotted_records (d : dict) (stamps : list Timestamp) (s : string)
      (hours : Z) :
  times_of d <> [] ->
  length (series_at "temperature_2m" (hourly_of d)) = length (times_of d) ->
  forallb is_number (series_at "temperature_2m" (hourly_of d)) = true ->
  dict_get "temperature_2m" (units_of d) = Some (JStr s) ->
  plain_label s = true ->
  Forall2 (fun v st => stamp_of v = Some st) (times_of d) stamps ->
  fst (fst (plotted (hourly_records d stamps) hours)) = Ok tt /\
  snd (plotted (hourly_records d stamps) hours)
  = drawing (Datetimes (upto hours stamps))
            (Values (upto hours (series_at "temperature_2m" (hourly_of d)))) s.
Proof.
  intros Hne Hcells Hnum Hunit Hplain Hst.
  set (t := hourly_records d stamps).
  assert (Hdt : datetime_of t = Ok (Datetimes stamps)).
  { apply datetime_of_split; [reflexivity | reflexivity |].
    exact (stamps_valid _ _ Hst). }
  assert (Elen : length stamps = length (times_of d))
    by (symmetry; exact (Forall2_length _ _ _ Hst)).
  assert (E : frame_setitem t "datetime" (Datetimes stamps)
              = Ok (Frame (index_len t)
                          (columns t ++ [("datetime", Datetimes stamps)]))).
  { unfold frame_setitem. cbn [col_length].
    change (index_len t) with (length (times_of d)).
    rewrite Elen, Nat.eqb_refl. reflexivity. }
  unfold plotted. rewrite Hdt. cbn [and_then]. rewrite E.
  rewrite (frame_setitem_same _ _ _ _ E). cbn [and_then].
  rewrite (frame_setitem_other _ _ _ _ "temperature" E) by discriminate.
  change (frame_getitem t "temperature")
    with (Ok (Values (series_at "temperature_2m" (hourly_of d)))).
  cbn [and_then slice_to].
  assert (Hp : plottable (Datetimes (upto hours stamps))
                 (Values (upto hours (series_at "temperature_2m" (hourly_of d))))
               = true).
  { cbn [plottable]. apply andb_true_iff. split.
    - apply Nat.eqb_eq, length_upto. congruence.
    - now apply forallb_upto. }
  rewrite Hp. unfold unit_text.
  rewrite (frame_setitem_other _ _ _ _ "temperature_unit" E) by discriminate.
  change (frame_getitem t "temperature_unit")
    with (Ok (Values (repeat (scalar_at "temperature_2m" (units_of d))
                             (length (times_of d))))).
  cbn [and_then]. unfold scalar_at. rewrite Hunit.
  destruct (times_of d) as [|v vs]; [contradiction|].
  cbn [length repeat iloc nth_error and_then cell_of_json from_option py_str
       fst snd].
  change (py_str (id (CStr s))) with (Some s). cbv beta iota.
  rewrite Hplain. split; reflexivity.
Qed.

(** X11.  On a valid response of at least one hour whose temperatures are
    numbers and whose temperature unit is a string [s] without a dollar
    sign, the script draws the figure and returns: the line runs over the first 24 timestamps of
    [hourly.time] and the first 24 cells of the [temperature] column of the
    table, and the vertical axis is labelled [Temperature (s)].
    [plot_temperature] on the table of the response does the same for any
    number of hours, and a response of at most 24 hours is drawn whole. *)
Theorem valid_response_is_drawn (w : world) (data : loc) (d : dict) (s : string) :
  heap w !! data = Some (ODict d) ->
  valid_response d = true ->
  times_of d <> [] ->
  forallb json_number (temperatures_of d) = true ->
  dict_get "temperature_2m" (units_of d) = Some (JStr s) ->
  plain_label s = true ->
  exists t stamps temps,
    table_of (transform_data data w) = Ok t /\
    Forall2 (fun v st => stamp_of v = Some st) (times_of d) stamps /\
    frame_getitem t "temperature" = Ok (Values temps) /\
    length temps = length (temperatures_of d) /\
    forallb is_number temps = true /\
    (forall w' l hours,
        heap w' !! l = Some (OFrame t) ->
        fst (plot_temperature l hours w') = Ok tt /\
        drawn (snd (plot_temperature l hours w'))
        = drawn w' ++
          drawing (Datetimes (upto hours stamps)) (Values (upto hours temps)) s) /\
    fst (shape_and_plot data w) = Ok tt /\
    drawn (snd (shape_and_plot data w))
    = drawn w ++
      drawing (Datetimes (upto 24 stamps)) (Values (upto 24 temps)) s /\
    (length (times_of d) <= 24 ->
     upto 24 stamps = stamps /\ upto 24 temps = temps).
Proof.
  intros Hl valid Hne Hnum Hunit Hplain.
  destruct (shaped_valid d valid) as (stamps & Hst & Eshaped).
  destruct (temperature_series d valid) as (vs & Evs & Hcells & Hlen & Hclen).
  assert (Et : temperatures_of d = vs)
    by (unfold temperatures_of; now rewrite Evs).
  rewrite Et in *.
  pose proof (number_cells vs _ Hcells Hnum) as Hnumbers.
  set (temps := series_at "temperature_2m" (hourly_of d)) in *.
  exists (hourly_records d stamps), stamps, temps.
  destruct w as [h dr]. cbn [heap] in Hl.
  rewrite (table_of_transform_data h dr data d Hl).
  split; [exact Eshaped|]. split; [exact Hst|]. split; [reflexivity|].
  split; [exact Hclen|]. split; [exact Hnumbers|].
  assert (Hplot : forall w' l hours,
             heap w' !! l = Some (OFrame (hourly_records d stamps)) ->
             fst (plot_temperature l hours w') = Ok tt /\
             drawn (snd (plot_temperature l hours w'))
             = drawn w' ++
               drawing (Datetimes (upto hours stamps))
                       (Values (upto hours temps)) s).
  { intros [h' dr'] l hours Hl'. cbn [heap] in Hl'.
    rewrite (plot_temperature_run h' dr' l _ hours Hl').
    cbn [fst snd drawn above].
    destruct (plotted_records d stamps s hours Hne) as [-> ->];
      [unfold temps in *; congruence | exact Hnumbers | exact Hunit
       | exact Hplain | exact Hst |].
    split; reflexivity. }
  split; [exact Hplot|].
  assert (Erun : exists f,
             shape_and_plot data (World h dr)
             = plot_temperature (S (length h)) 24
                 (World (h ++ [OFrame f; OFrame (hourly_records d stamps)]) dr)).
  { unfold shape_and_plot. rewrite bind_run.
    destruct (transform_data_run h dr data d Hl) as (extra & -> & Hextra).
    destruct (Hextra _ Eshaped) as (f & ->). rewrite Eshaped.
    cbn [settle and_then]. now exists f. }
  destruct Erun as (f & ->).
  destruct (Hplot (World (h ++ [OFrame f; OFrame (hourly_records d stamps)]) dr)
                  (S (length h)) 24%Z) as [Hok Hdrawn].
  { cbn [heap].
    change (h ++ [OFrame f; OFrame (hourly_records d stamps)])
      with (h ++ [OFrame f] ++ [OFrame (hourly_records d stamps)]).
    rewrite app_assoc.
    replace (S (length h)) with (length (h ++ [OFrame f]))
      by (rewrite length_app; simpl; lia).
    now apply list_lookup_middle. }
  split; [exact Hok|]. split; [exact Hdrawn|].
  intros Hfew.
  pose proof (Forall2_length _ _ _ Hst) as Hlen''.
  split; apply upto_all; lia.
Qed.

Lemma valid_response_is_drawn_witness :
  heap (World [ODict whole_degrees] []) !! 0 = Some (ODict whole_degrees) /\
  valid_response whole_degrees = true /\
  times_of whole_degrees <> [] /\
  forallb json_number (temperatures_of whole_degrees) = true /\
  dict_get "temperature_2m" (units_of whole_degrees) = Some (JStr "°C") /\
  plain_label "°C" = true /\
  exists t stamps temps,
    table_of (transform_data 0 (World [ODict whole_degrees] [])) = Ok t /\
    Forall2 (fun v st => stamp_of v = Some st) (times_of whole_degrees) stamps /\
    frame_getitem t "temperature" = Ok (Values temps) /\
    length temps = length (temperatures_of whole_degrees) /\
    forallb is_number temps = true /\
    (forall w' l hours,
        heap w' !! l = Some (OFrame t) ->
        fst (plot_temperature l hours w') = Ok tt /\
        drawn (snd (plot_temperature l hours w'))
        = drawn w' ++
          drawing (Datetimes (upto hours stamps)) (Values (upto hours temps))
                  "°C") /\
    fst (shape_and_plot 0 (World [ODict whole_degrees] [])) = Ok tt /\
    drawn (snd (shape_and_plot 0 (World [ODict whole_degrees] [])))
    = drawn (World [ODict whole_degrees] []) ++
      drawing (Datetimes (upto 24 stamps)) (Values (upto 24 temps)) "°C" /\
    (length (times_of whole_degrees) <= 24 ->
     upto 24 stamps = stamps /\ upto 24 temps = temps).
Proof.
  split; [reflexivity|]. split; [reflexivity|]. split; [discriminate|].
  split; [reflexivity|]. split; [reflexivity|]. split; [reflexivity|].
  exact (valid_response_is_drawn (World [ODict whole_degrees] []) 0
           whole_degrees "°C" eq_refl eq_refl ltac:(discriminate) eq_refl
           eq_refl eq_refl).
Defined.

(** ** The drawing after [transform_data] *)

Lemma select_none (k : string) cols :
  (forall kc, In kc cols -> fst kc <> k) -> select k cols = [].
Proof.
  intros H. unfold select. induction cols as [|kc cols IH]; [reflexivity|].
  cbn [List.filter].
  destruct (String.eqb_spec (fst kc) k) as [E|_].
  - now destruct (H kc (or_introl eq_refl)).
  - apply IH. intros kc' Hin. apply H. now right.
Qed.

Lemma frame_getitem_present f (k : string) (c : column) (e : exn) :
  In (k, c) (columns f) -> frame_getitem f k <> Raise e.
Proof.
  intros Hin. unfold frame_getitem.
  assert (Hsel : In (k, c) (select k (columns f))).
  { apply filter_In. split; [exact Hin|]. apply String.eqb_refl. }
  destruct (select k (columns f)) as [|[k0 c0] [|y l]]; [destruct Hsel| |];
    discriminate.
Qed.

Lemma iloc_raises (c : column) (i : nat) (e : exn) :
  iloc c i = Raise e -> e = IndexError /\ col_length c <= i.
Proof.
  destruct c as [cells|stamps]; cbn [iloc col_length].
  - destruct (nth_error cells i) eqn:E; [discriminate|].
    intros [= <-]. split; [reflexivity | now apply nth_error_None].
  - destruct (nth_error stamps i) eqn:E; [discriminate|].
    intros [= <-]. split; [reflexivity | now apply nth_error_None].
Qed.

(** X12.  The drawing after [transform_data].  On a document that
    flattens and whose [hourly.time] holds moments in the documented
    layout, valid response or not, a table that [transform_data] returned
    has the columns that [plot_temperature] reads: line 94 gives back, row
    by row, the timestamps of [hourly.time], the [datetime] column is
    added and the figure is opened in every case; no [KeyError] is raised,
    and [IndexError] only on a table without rows. *)
Theorem plot_after_transform_data (w : world) (data : loc) (d : dict)
        (n : nat) (t : DataFrame) :
  heap w !! data = Some (ODict d) ->
  timed n d = true ->
  table_of (transform_data data w) = Ok t ->
  exists stamps,
    Forall2 (fun v st => stamp_of v = Some st) (times_of d) stamps /\
    datetime_of t = Ok (Datetimes stamps) /\
    forall w' l hours,
      heap w' !! l = Some (OFrame t) ->
      (exists calls,
          drawn (snd (plot_temperature l hours w'))
          = drawn w' ++ plt_figure 12 5 :: calls) /\
      (forall ks, fst (plot_temperature l hours w') <> Raise (KeyError ks)) /\
      (fst (plot_temperature l hours w') = Raise IndexError -> n = 0).
Proof.
  intros Hl Htimed E. destruct w as [h dr].
  rewrite (table_of_transform_data h dr data d Hl) in E.
  destruct (timed_table n d t Htimed E)
    as (stamps & Hst & Hlen & Hr & Hlabels & Hall & Ht & Hh).
  pose proof (datetime_of_split t stamps Ht Hh (stamps_valid _ _ Hst)) as Hdt.
  exists stamps. split; [exact Hst|]. split; [exact Hdt|].
  intros [h' dr'] l hours Hl'. cbn [heap] in Hl'.
  rewrite (plot_temperature_run h' dr' l t hours Hl').
  cbn [fst snd drawn above].
  assert (Hsel : select "datetime" (columns t) = []).
  { apply select_none. intros kc Hin Heq. specialize (Hlabels kc Hin).
    rewrite Heq in Hlabels. cbn [In ordered_columns] in Hlabels.
    repeat (destruct Hlabels as [Hlabels|Hlabels]; [discriminate Hlabels|]).
    exact Hlabels. }
  assert (Hstamps : length stamps = index_len t).
  { rewrite Hlen. destruct (timed_parts n d Htimed) as (_ & _ & _ & _ & <-).
    exact (stamps_of_documented _ _ Hst). }
  assert (Eset : frame_setitem t "datetime" (Datetimes stamps)
                 = Ok (Frame (index_len t)
                             (columns t ++ [("datetime", Datetimes stamps)]))).
  { unfold frame_setitem. cbn [col_length].
    now rewrite Hstamps, Nat.eqb_refl, Hsel. }
  unfold plotted. rewrite Hdt. cbn [and_then]. rewrite Eset.
  rewrite (frame_setitem_same _ _ _ _ Eset). cbn [and_then].
  rewrite (frame_setitem_other _ _ _ _ "temperature" Eset) by discriminate.
  destruct (Hall "temperature") as (y0 & Hy0);
    [cbn [In ordered_columns]; tauto|].
  destruct (Hall "temperature_unit") as (u0 & Hu0);
    [cbn [In ordered_columns]; tauto|].
  destruct (frame_getitem t "temperature") as [y|e|] eqn:Ey; cbn [and_then].
  - destruct (plottable _ _);
      [|cbn [fst snd]; split; [eexists; reflexivity | split; discriminate]].
    unfold unit_text.
    rewrite (frame_setitem_other _ _ _ _ "temperature_unit" Eset) by discriminate.
    destruct (frame_getitem t "temperature_unit") as [u|e|] eqn:Eu;
      cbn [and_then fst snd].
    + destruct (iloc u 0) as [c|e|] eqn:Ei; cbn [and_then fst snd].
      * destruct (py_str c) as [s|]; cbn [fst snd];
          [destruct (plain_label s); cbn [fst snd]|];
          (split; [eexists; reflexivity | split; discriminate]).
      * split; [eexists; reflexivity|].
        destruct (iloc_raises u 0 e Ei) as [-> Hempty].
        split; [discriminate|]. intros _.
        unfold rectangular in Hr. rewrite forallb_forall in Hr.
        pose proof (Hr _ (frame_getitem_In _ _ _ Eu)) as Hu. cbn [snd] in Hu.
        apply Nat.eqb_eq in Hu. lia.
      * split; [eexists; reflexivity | split; discriminate].
    + now destruct (frame_getitem_present t "temperature_unit" u0 e Hu0).
    + split; [eexists; reflexivity | split; discriminate].
  - now destruct (frame_getitem_present t "temperature" y0 e Hy0).
  - cbn [fst snd]. split; [eexists; reflexivity | split; discriminate].
Qed.

Lemma plot_after_transform_data_witness :
  heap (World [ODict no_hours] []) !! 0 = Some (ODict no_hours) /\
  timed 0 no_hours = true /\
  exists t,
    table_of (transform_data 0 (World [ODict no_hours] [])) = Ok t /\
    fst (plot_temperature 1 24 (World [ODict no_hours; OFrame t] []))
    = Raise IndexError /\
    exists stamps,
      Forall2 (fun v st => stamp_of v = Some st) (times_of no_hours) stamps /\
      datetime_of t = Ok (Datetimes stamps) /\
      forall w' l hours,
        heap w' !! l = Some (OFrame t) ->
        (exists calls,
            drawn (snd (plot_temperature l hours w'))
            = drawn w' ++ plt_figure 12 5 :: calls) /\
        (forall ks, fst (plot_temperature l hours w') <> Raise (KeyError ks)) /\
        (fst (plot_temperature l hours w') = Raise IndexError -> 0 = 0).
Proof.
  split; [reflexivity|]. split; [reflexivity|].
  eexists. split; [vm_compute; reflexivity|].
  split; [vm_compute; reflexivity|].
  refine (plot_after_transform_data (World [ODict no_hours] []) 0 no_hours 0
            _ eq_refl eq_refl _).
  vm_compute. reflexivity.
Defined.

(** ** The order of the members of the document *)

Lemma dict_get_Permutation (m m' : dict) (k : string) :
  distinct (keys m) = true -> distinct (keys m') = true ->
  Permutation m m' -> dict_get k m = dict_get k m'.
Proof.
  intros Hd Hd' Hp.
  destruct (dict_get k m) as [v|] eqn:E.
  - symmetry. apply (dict_get_of_In m' k v Hd').
    apply (Permutation_in _ Hp). now apply dict_get_In.
  - destruct (dict_get k m') as [v|] eqn:E'; [|reflexivity].
    apply dict_get_In in E'.
    apply (Permutation_in _ (Permutation_sym Hp)) in E'.
    rewrite (dict_get_of_In m k v Hd E') in E. discriminate.
Qed.

Lemma well_shaped_distinct (d : dict) :
  well_shaped d = true ->
  distinct (keys (metadata_of d)) = true /\
  distinct (keys (hourly_of d)) = true /\
  distinct (keys (units_of d)) = true.
Proof.
  intros shape. destruct (shape_parts d shape) as (Hm & Hh & Hu & _).
  unfold well_formed_metadata in Hm. apply andb_true_iff in Hm as [Hm _].
  unfold well_formed_hourly in Hh. rewrite !andb_true_iff in Hh.
  unfold well_formed_units in Hu. rewrite !andb_true_iff in Hu.
  split; [|tauto].
  unfold metadata_of.
  rewrite (keys_filter (fun k => negb (mem k ["hourly"; "hourly_units"])) d).
  now apply distinct_filter.
Qed.

Lemma stamps_unique (vs : list json) (stamps stamps' : list Timestamp) :
  Forall2 (fun v st => stamp_of v = Some st) vs stamps ->
  Forall2 (fun v st => stamp_of v = Some st) vs stamps' ->
  stamps = stamps'.
Proof.
  intros H. revert stamps'.
  induction H as [|v st vs stamps Hv _ IH]; intros stamps' H';
    inversion H' as [|v' st' vs' stamps0 Hv' Hrest]; subst; [reflexivity|].
  rewrite Hv in Hv'. injection Hv' as <-. f_equal. now apply IH.
Qed.

(** X13.  The order of the members does not reach the table.  Two valid
    responses that have the same scalars, the same hourly variables and the
    same units, in whatever order each, give one and the same table under
    [transform_data]: the order of the columns is that of the projection,
    not that of the document. *)
Theorem member_order_irrelevant (w w' : world) (l l' : loc) (d d' : dict) :
  heap w !! l = Some (ODict d) ->
  heap w' !! l' = Some (ODict d') ->
  valid_response d = true ->
  valid_response d' = true ->
  Permutation (metadata_of d) (metadata_of d') ->
  Permutation (hourly_of d) (hourly_of d') ->
  Permutation (units_of d) (units_of d') ->
  exists t,
    table_of (transform_data l w) = Ok t /\
    table_of (transform_data l' w') = Ok t.
Proof.
  intros Hl Hl' valid valid' Pm Ph Pu.
  destruct (valid_parts d valid) as (shape & _).
  destruct (valid_parts d' valid') as (shape' & _).
  destruct (well_shaped_distinct d shape) as (Dm & Dh & Du).
  destruct (well_shaped_distinct d' shape') as (Dm' & Dh' & Du').
  assert (Hm : forall k, mem k metadata_names = true ->
                         dict_get k d = dict_get k d').
  { intros k Hk.
    rewrite <- (metadata_member d k Hk), <- (metadata_member d' k Hk).
    now apply dict_get_Permutation. }
  assert (Hh : forall k, dict_get k (hourly_of d) = dict_get k (hourly_of d'))
    by (intros k; now apply dict_get_Permutation).
  assert (Hu : forall k, dict_get k (units_of d) = dict_get k (units_of d'))
    by (intros k; now apply dict_get_Permutation).
  assert (Ht : times_of d = times_of d') by (unfold times_of; now rewrite Hh).
  destruct (table_of_valid w l d Hl valid) as (stamps & Hst & E).
  destruct (table_of_valid w' l' d' Hl' valid') as (stamps' & Hst' & E').
  rewrite <- Ht in Hst'.
  rewrite <- (stamps_unique _ _ _ Hst Hst') in E'.
  exists (hourly_records d stamps). split; [exact E|].
  rewrite E'. f_equal. unfold hourly_records, scalar_at, series_at.
  rewrite <- Ht, <- !Hh, <- !Hu.
  rewrite <- !Hm by reflexivity. reflexivity.
Qed.

Lemma member_order_irrelevant_witness :
  heap (World [ODict scenario] []) !! 0 = Some (ODict scenario) /\
  heap (World [ODict scenario; ODict reordered] []) !! 1 = Some (ODict reordered) /\
  valid_response scenario = true /\
  valid_response reordered = true /\
  Permutation (metadata_of scenario) (metadata_of reordered) /\
  Permutation (hourly_of scenario) (hourly_of reordered) /\
  Permutation (units_of scenario) (units_of reordered) /\
  keys scenario <> keys reordered /\
  exists t,
    table_of (transform_data 0 (World [ODict scenario] [])) = Ok t /\
    table_of (transform_data 1 (World [ODict scenario; ODict reordered] [])) = Ok t.
Proof.
  assert (Pm : Permutation (metadata_of scenario) (metadata_of reordered)).
  { change (metadata_of reordered) with (rev (metadata_of scenario)).
    apply Permutation_rev. }
  assert (Ph : Permutation (hourly_of scenario) (hourly_of reordered)).
  { change (hourly_of reordered) with (rev (hourly_of scenario)).
    apply Permutation_rev. }
  assert (Pu : Permutation (units_of scenario) (units_of reordered)).
  { change (units_of reordered) with (rev (units_of scenario)).
    apply Permutation_rev. }
  split; [reflexivity|]. split; [reflexivity|]. split; [reflexivity|].
  split; [reflexivity|]. split; [exact Pm|]. split; [exact Ph|].
  split; [exact Pu|]. split; [discriminate|].
  exact (member_order_irrelevant (World [ODict scenario] [])
           (World [ODict scenario; ODict reordered] []) 0 1 scenario reordered
           eq_refl eq_refl eq_refl eq_refl Pm Ph Pu).
Defined.
